(** * KMS/DRM video output (modules/video_output/drm_display.c)

    A shallow embedding of the plane/format negotiation, of the dumb-buffer
    life cycle and of the page-flipping cycle of the DRM display module,
    together with the properties of its design specification.

    Conventions.
    - Every [uint32_t] is a [Z] in [0, 2^32); the places where the C code
      truncates are written out with [wrap32].  [size_t] values (the
      arguments and result of [vlc_align]) are reduced with [wrap64].
    - The arrays [handle], [map], [fb] (length [MAXHWBUF]) and [offsets]
      (length [PICTURE_PLANE_MAX]) are lists updated by index.
    - The process-wide table [fourccmatching] is threaded explicitly.
    - The kernel is a state ([Drm.dev]) that owns the dumb buffers, the
      framebuffer objects and the mappings, logs every request and takes
      the outcome of each fallible request from a script. *)

From Stdlib Require Import ZArith Ascii.
From stdpp Require Import base numbers list gmap sets fin_sets.

Local Open Scope Z_scope.

(** ** Machine integers *)

Definition wrap32 (v : Z) : Z := v mod 2 ^ 32.
Definition wrap64 (v : Z) : Z := v mod 2 ^ 64.

(** [vlc_align] of vlc_common.h:
    [static inline size_t vlc_align(size_t v, size_t align)
       { return (v + (align - 1)) & ~(align - 1); }] *)
Definition vlc_align (v align : Z) : Z :=
  wrap64 (Z.land (wrap64 (v + (align - 1))) (Z.lnot (align - 1))).

(** The rounding the specification calls align(v, a): the least multiple of
    [a] that is not below [v]. *)
Definition align_up (v a : Z) : Z := (v + a - 1) / a * a.

(** ** Four character codes *)

Definition chr (c : ascii) : Z := Z.of_N (N_of_ascii c).

(** [fourcc_code] of drm_fourcc.h and [VLC_FOURCC] of vlc_fourcc.h (little
    endian): the first character is the least significant byte. *)
Definition fourcc_code (a b c d : ascii) : Z :=
  Z.lor (Z.lor (chr a) (Z.shiftl (chr b) 8))
        (Z.lor (Z.shiftl (chr c) 16) (Z.shiftl (chr d) 24)).
Definition VLC_FOURCC := fourcc_code.

(** Values of drm_fourcc.h. *)
Definition DRM_FORMAT_XRGB8888 := fourcc_code "X" "R" "2" "4".
Definition DRM_FORMAT_RGB565 := fourcc_code "R" "G" "1" "6".
Definition DRM_FORMAT_P010 := fourcc_code "P" "0" "1" "0".
Definition DRM_FORMAT_P012 := fourcc_code "P" "0" "1" "2".
Definition DRM_FORMAT_P016 := fourcc_code "P" "0" "1" "6".
Definition DRM_FORMAT_NV12 := fourcc_code "N" "V" "1" "2".
Definition DRM_FORMAT_YUYV := fourcc_code "Y" "U" "Y" "V".
Definition DRM_FORMAT_YVYU := fourcc_code "Y" "V" "Y" "U".
Definition DRM_FORMAT_UYVY := fourcc_code "U" "Y" "V" "Y".
Definition DRM_FORMAT_VYUY := fourcc_code "V" "Y" "U" "Y".

(** Values of vlc_fourcc.h. *)
Definition VLC_CODEC_RGB32 := VLC_FOURCC "R" "V" "3" "2".
Definition VLC_CODEC_RGB16 := VLC_FOURCC "R" "V" "1" "6".
Definition VLC_CODEC_P010 := VLC_FOURCC "P" "0" "1" "0".
Definition VLC_CODEC_NV12 := VLC_FOURCC "N" "V" "1" "2".
Definition VLC_CODEC_YUYV := VLC_FOURCC "Y" "U" "Y" "2".
Definition VLC_CODEC_YVYU := VLC_FOURCC "Y" "V" "Y" "U".
Definition VLC_CODEC_UYVY := VLC_FOURCC "U" "Y" "V" "Y".
Definition VLC_CODEC_VYUY := VLC_FOURCC "V" "Y" "U" "Y".
Definition VLC_CODEC_I420 := VLC_FOURCC "I" "4" "2" "0".

(** ** The format table [fourccmatching] *)

Record fourccmatching_t := Fourcc {
  fm_drm : Z;          (* DRM fourcc code *)
  fm_vlc : Z;          (* VLC fourcc code *)
  fm_plane_id : Z;     (* plane on which the DRM fourcc was found *)
  fm_present : bool;   (* available in hardware *)
  fm_isYUV : bool
}.

Global Instance fourccmatching_t_eq_dec : EqDecision fourccmatching_t.
Proof. solve_decision. Defined.

Definition fm_static (drm vlc : Z) (isYUV : bool) : fourccmatching_t :=
  Fourcc drm vlc 0 false isYUV.

(** The static initialiser, with [DRM_FORMAT_P010] defined. *)
Definition fourccmatching : list fourccmatching_t :=
  [ fm_static DRM_FORMAT_XRGB8888 VLC_CODEC_RGB32 false;
    fm_static DRM_FORMAT_RGB565 VLC_CODEC_RGB16 false;
    fm_static DRM_FORMAT_P010 VLC_CODEC_P010 true;
    fm_static DRM_FORMAT_NV12 VLC_CODEC_NV12 true;
    fm_static DRM_FORMAT_YUYV VLC_CODEC_YUYV true;
    fm_static DRM_FORMAT_YVYU VLC_CODEC_YVYU true;
    fm_static DRM_FORMAT_UYVY VLC_CODEC_UYVY true;
    fm_static DRM_FORMAT_VYUY VLC_CODEC_VYUY true ].

(** [fourccmatching[i].present = true; fourccmatching[i].plane_id = plane_id] *)
Definition mark_present (e : fourccmatching_t) (plane_id : Z) : fourccmatching_t :=
  Fourcc (fm_drm e) (fm_vlc e) plane_id true (fm_isYUV e).

(** The loop of [CheckFourCCList] over the entries from index [i] on: both
    branches of the first entry whose DRM code matches end in [break]. *)
Fixpoint CheckFourCCList (drmfourcc plane_id : Z) (tbl : list fourccmatching_t)
  : list fourccmatching_t :=
  match tbl with
  | [] => []
  | e :: rest =>
      if fm_drm e =? drmfourcc then
        if fm_present e then e :: rest
        else mark_present e plane_id :: rest
      else e :: CheckFourCCList drmfourcc plane_id rest
  end.

(** The calls the scanner makes for one plane after another: [(format, plane)]
    pairs in the order of the calls. *)
Definition CheckFourCCList_seq (calls : list (Z * Z)) (tbl : list fourccmatching_t)
  : list fourccmatching_t :=
  foldl (λ t c, CheckFourCCList c.1 c.2 t) tbl calls.

(** ** The kernel side of the DRM file descriptor

    The device-memory collaborator of section 6 of the specification
    (allocate, bindFramebuffer, mapView, unmapView, unbindFramebuffer, free,
    commitPlane), which the module reaches through libdrm.  Identifiers are
    chosen fresh and are never 0; a mapping is never placed at NULL or at
    [MAP_FAILED]. *)
Module Drm.

Inductive request :=
| CREATE_DUMB (width height bpp : Z) (res : option (Z * Z))
| ADDFB2 (width height fourcc : Z) (handles pitches offsets : list Z)
         (res : option Z)
| MAP_DUMB (handle : Z) (ok : bool)
| MMAP (length : Z) (res : option Z)
| MUNMAP (addr length : Z)
| RMFB (fb : Z)
| DESTROY_DUMB (handle : Z)
| SETPLANE (plane_id crtc fb : Z) (dst src : Z * Z * Z * Z) (ret : Z).

Record dev := Dev {
  dumbs : gset Z;               (* live dumb-buffer handles *)
  fbs : gset Z;                 (* live framebuffer objects *)
  maps : gmap Z Z;              (* live mappings, address to length *)
  dumb_size : Z → Z → Z → Z;    (* bytes the driver gives width, height, bpp *)
  script : list Z;              (* errno of the coming fallible requests *)
  log : list request
}.

Definition MAP_FAILED : Z := -1.

Definition fresh_id (X : gset Z) : Z := fresh ({[0]} ∪ X).
Definition fresh_addr (m : gmap Z Z) : Z := fresh ({[0; MAP_FAILED]} ∪ dom m).

Definition emit (r : request) (d : dev) : dev :=
  Dev (dumbs d) (fbs d) (maps d) (dumb_size d) (script d) (log d ++ [r]).
Definition with_dumbs (X : gset Z) (d : dev) : dev :=
  Dev X (fbs d) (maps d) (dumb_size d) (script d) (log d).
Definition with_fbs (X : gset Z) (d : dev) : dev :=
  Dev (dumbs d) X (maps d) (dumb_size d) (script d) (log d).
Definition with_maps (m : gmap Z Z) (d : dev) : dev :=
  Dev (dumbs d) (fbs d) m (dumb_size d) (script d) (log d).

(** The errno of the next fallible request; 0 (success) once the script is
    used up. *)
Definition errno (d : dev) : Z * dev :=
  match script d with
  | [] => (0, d)
  | e :: s => (e, Dev (dumbs d) (fbs d) (maps d) (dumb_size d) s (log d))
  end.

(** What the device will answer to the [k]-th coming request that it can
    refuse: an errno, 0 for a request it grants. *)
Definition answer (d : dev) (k : nat) : Z := default 0 (script d !! k).

(** [struct drm_mode_create_dumb]: the fields the module reads and writes. *)
Record create_dumb := CreateDumb {
  cd_width : Z; cd_height : Z; cd_bpp : Z; cd_handle : Z; cd_size : Z
}.

(** [drmIoctl(fd, DRM_IOCTL_MODE_CREATE_DUMB, &req)]: 0 and a filled request,
    or -1 and the request as it was. *)
Definition ioctl_CREATE_DUMB (req : create_dumb) (d : dev)
  : Z * create_dumb * dev :=
  let '(e, d) := errno d in
  if e =? 0 then
    let h := fresh_id (dumbs d) in
    let sz := wrap64 (dumb_size d (cd_width req) (cd_height req) (cd_bpp req)) in
    (0, CreateDumb (cd_width req) (cd_height req) (cd_bpp req) h sz,
     emit (CREATE_DUMB (cd_width req) (cd_height req) (cd_bpp req) (Some (h, sz)))
          (with_dumbs ({[h]} ∪ dumbs d) d))
  else
    (-1, req,
     emit (CREATE_DUMB (cd_width req) (cd_height req) (cd_bpp req) None) d).

(** [drmModeAddFB2]: 0 and the new object id, or a negative errno.  The
    first handle has to be a live buffer. *)
Definition ModeAddFB2 (width height fourcc : Z) (handles pitches offsets : list Z)
    (d : dev) : Z * option Z * dev :=
  let '(e, d) := errno d in
  if (e =? 0) && bool_decide (handles !!! 0%nat ∈ dumbs d) then
    let fb := fresh_id (fbs d) in
    (0, Some fb,
     emit (ADDFB2 width height fourcc handles pitches offsets (Some fb))
          (with_fbs ({[fb]} ∪ fbs d) d))
  else
    ((if e =? 0 then -2 else - Z.abs e), None,
     emit (ADDFB2 width height fourcc handles pitches offsets None) d).

(** [drmIoctl(fd, DRM_IOCTL_MODE_MAP_DUMB, &req)]: 0 or -1. *)
Definition ioctl_MAP_DUMB (handle : Z) (d : dev) : Z * dev :=
  let '(e, d) := errno d in
  if (e =? 0) && bool_decide (handle ∈ dumbs d)
  then (0, emit (MAP_DUMB handle true) d)
  else (-1, emit (MAP_DUMB handle false) d).

(** [mmap(0, length, ..., fd, offset)]: a fresh address or [MAP_FAILED]; an
    empty mapping is refused. *)
Definition mmap (length : Z) (d : dev) : Z * dev :=
  let '(e, d) := errno d in
  if (e =? 0) && negb (length =? 0) then
    let a := fresh_addr (maps d) in
    (a, emit (MMAP length (Some a)) (with_maps (<[a := length]> (maps d)) d))
  else (MAP_FAILED, emit (MMAP length None) d).

(** [munmap(addr, length)] releases the mapping made at [addr] with that
    length; any other request leaves the mappings as they are. *)
Definition munmap (addr length : Z) (d : dev) : dev :=
  emit (MUNMAP addr length)
    (if bool_decide (maps d !! addr = Some length)
     then with_maps (delete addr (maps d)) d else d).

Definition ModeRmFB (fb : Z) (d : dev) : dev :=
  emit (RMFB fb) (with_fbs (fbs d ∖ {[fb]}) d).

Definition ioctl_DESTROY_DUMB (handle : Z) (d : dev) : dev :=
  emit (DESTROY_DUMB handle) (with_dumbs (dumbs d ∖ {[handle]}) d).

(** [drmModeSetPlane]: 0 or a negative errno. *)
Definition ModeSetPlane (plane_id crtc fb : Z) (dst src : Z * Z * Z * Z)
    (d : dev) : Z * dev :=
  let '(e, d) := errno d in
  let ret := - Z.abs e in
  (ret, emit (SETPLANE plane_id crtc fb dst src ret) d).

(** What the device holds on behalf of the process. *)
Definition held (d : dev) : gset Z * gset Z * gmap Z Z :=
  (dumbs d, fbs d, maps d).

Definition is_alloc (r : request) : bool :=
  match r with CREATE_DUMB _ _ _ _ => true | _ => false end.

End Drm.

(** ** The display state *)

Definition MAXHWBUF : nat := 3.

(** [PICTURE_PLANE_MAX] of vlc_picture.h. *)
Definition PICTURE_PLANE_MAX : nat := 5.

Record plane_t := Plane { p_pixels : Z; i_lines : Z; i_pitch : Z }.

Record picture_t := Picture {
  pic_chroma : Z; pic_width : Z; pic_height : Z;   (* the format *)
  pic_p : list plane_t                             (* p[PICTURE_PLANE_MAX] *)
}.

Record vout_display_sys_t := Sys {
  sys_width : Z;
  sys_height : Z;
  sys_stride : Z;
  sys_size : Z;
  sys_offsets : list Z;          (* offsets[PICTURE_PLANE_MAX] *)
  sys_handle : list Z;           (* handle[MAXHWBUF] *)
  sys_map : list Z;              (* map[MAXHWBUF], as addresses *)
  sys_fb : list Z;               (* fb[MAXHWBUF] *)
  sys_picture : option picture_t;
  sys_front_buf : Z;
  sys_forced_drm_fourcc : bool;
  sys_drm_fourcc : Z;
  sys_vlc_fourcc : Z;
  sys_plane_id : Z
}.

(** The zeroed instance [vlc_obj_calloc] returns. *)
Definition sys_calloc : vout_display_sys_t :=
  Sys 0 0 0 0 (replicate PICTURE_PLANE_MAX 0) (replicate MAXHWBUF 0)
      (replicate MAXHWBUF 0) (replicate MAXHWBUF 0) None 0 false 0 0 0.

Definition set_width v s := Sys v (sys_height s) (sys_stride s) (sys_size s)
  (sys_offsets s) (sys_handle s) (sys_map s) (sys_fb s) (sys_picture s)
  (sys_front_buf s) (sys_forced_drm_fourcc s) (sys_drm_fourcc s)
  (sys_vlc_fourcc s) (sys_plane_id s).
Definition set_height v s := Sys (sys_width s) v (sys_stride s) (sys_size s)
  (sys_offsets s) (sys_handle s) (sys_map s) (sys_fb s) (sys_picture s)
  (sys_front_buf s) (sys_forced_drm_fourcc s) (sys_drm_fourcc s)
  (sys_vlc_fourcc s) (sys_plane_id s).
Definition set_stride v s := Sys (sys_width s) (sys_height s) v (sys_size s)
  (sys_offsets s) (sys_handle s) (sys_map s) (sys_fb s) (sys_picture s)
  (sys_front_buf s) (sys_forced_drm_fourcc s) (sys_drm_fourcc s)
  (sys_vlc_fourcc s) (sys_plane_id s).
Definition set_size v s := Sys (sys_width s) (sys_height s) (sys_stride s) v
  (sys_offsets s) (sys_handle s) (sys_map s) (sys_fb s) (sys_picture s)
  (sys_front_buf s) (sys_forced_drm_fourcc s) (sys_drm_fourcc s)
  (sys_vlc_fourcc s) (sys_plane_id s).
Definition set_offsets v s := Sys (sys_width s) (sys_height s) (sys_stride s)
  (sys_size s) v (sys_handle s) (sys_map s) (sys_fb s) (sys_picture s)
  (sys_front_buf s) (sys_forced_drm_fourcc s) (sys_drm_fourcc s)
  (sys_vlc_fourcc s) (sys_plane_id s).
Definition set_handle v s := Sys (sys_width s) (sys_height s) (sys_stride s)
  (sys_size s) (sys_offsets s) v (sys_map s) (sys_fb s) (sys_picture s)
  (sys_front_buf s) (sys_forced_drm_fourcc s) (sys_drm_fourcc s)
  (sys_vlc_fourcc s) (sys_plane_id s).
Definition set_map v s := Sys (sys_width s) (sys_height s) (sys_stride s)
  (sys_size s) (sys_offsets s) (sys_handle s) v (sys_fb s) (sys_picture s)
  (sys_front_buf s) (sys_forced_drm_fourcc s) (sys_drm_fourcc s)
  (sys_vlc_fourcc s) (sys_plane_id s).
Definition set_fb v s := Sys (sys_width s) (sys_height s) (sys_stride s)
  (sys_size s) (sys_offsets s) (sys_handle s) (sys_map s) v (sys_picture s)
  (sys_front_buf s) (sys_forced_drm_fourcc s) (sys_drm_fourcc s)
  (sys_vlc_fourcc s) (sys_plane_id s).
Definition set_picture v s := Sys (sys_width s) (sys_height s) (sys_stride s)
  (sys_size s) (sys_offsets s) (sys_handle s) (sys_map s) (sys_fb s) v
  (sys_front_buf s) (sys_forced_drm_fourcc s) (sys_drm_fourcc s)
  (sys_vlc_fourcc s) (sys_plane_id s).
Definition set_front_buf v s := Sys (sys_width s) (sys_height s) (sys_stride s)
  (sys_size s) (sys_offsets s) (sys_handle s) (sys_map s) (sys_fb s)
  (sys_picture s) v (sys_forced_drm_fourcc s) (sys_drm_fourcc s)
  (sys_vlc_fourcc s) (sys_plane_id s).
Definition set_forced_drm_fourcc v s := Sys (sys_width s) (sys_height s)
  (sys_stride s) (sys_size s) (sys_offsets s) (sys_handle s) (sys_map s)
  (sys_fb s) (sys_picture s) (sys_front_buf s) v (sys_drm_fourcc s)
  (sys_vlc_fourcc s) (sys_plane_id s).
Definition set_drm_fourcc v s := Sys (sys_width s) (sys_height s)
  (sys_stride s) (sys_size s) (sys_offsets s) (sys_handle s) (sys_map s)
  (sys_fb s) (sys_picture s) (sys_front_buf s) (sys_forced_drm_fourcc s) v
  (sys_vlc_fourcc s) (sys_plane_id s).
Definition set_vlc_fourcc v s := Sys (sys_width s) (sys_height s)
  (sys_stride s) (sys_size s) (sys_offsets s) (sys_handle s) (sys_map s)
  (sys_fb s) (sys_picture s) (sys_front_buf s) (sys_forced_drm_fourcc s)
  (sys_drm_fourcc s) v (sys_plane_id s).
Definition set_plane_id v s := Sys (sys_width s) (sys_height s)
  (sys_stride s) (sys_size s) (sys_offsets s) (sys_handle s) (sys_map s)
  (sys_fb s) (sys_picture s) (sys_front_buf s) (sys_forced_drm_fourcc s)
  (sys_drm_fourcc s) (sys_vlc_fourcc s) v.

(** ** Buffers: [CreateFB] and [DestroyFB] *)

(** [deviceRval].  The enumeration has no negative enumerator, and GCC and
    Clang give such a type an unsigned representation: the [int] that
    [drmIoctl] returns is kept in [deviceRval ret] modulo 2^32, so the test
    [ret < 0] after DRM_IOCTL_MODE_CREATE_DUMB is never true.  The tests
    [if (ret)] are not affected. *)
Inductive deviceRval := drvSuccess | drvTryNext | drvFail.

Global Instance deviceRval_eq_dec : EqDecision deviceRval.
Proof. solve_decision. Defined.

Definition tile_width : Z := 512.
Definition tile_height : Z := 16.

(** The [switch (sys->drm_fourcc)] of [CreateFB] (with [DRM_FORMAT_P010],
    [DRM_FORMAT_P012] and [DRM_FORMAT_P016] defined): it sets [sys->stride]
    and, for the two-plane formats, [sys->offsets[1]], and yields
    [create_req.height]. *)
Definition CreateFB_layout (sys : vout_display_sys_t) : vout_display_sys_t * Z :=
  let f := sys_drm_fourcc sys in
  if (f =? DRM_FORMAT_P010) || (f =? DRM_FORMAT_P012) || (f =? DRM_FORMAT_P016) then
    let sys := set_stride (wrap32 (vlc_align (wrap32 (sys_width sys * 2)) tile_width)) sys in
    let sys := set_offsets
      (<[1%nat := wrap32 (wrap64 (sys_stride sys * vlc_align (sys_height sys) tile_height))]>
         (sys_offsets sys)) sys in
    (sys, wrap32 (wrap64 (2 * vlc_align (sys_height sys) tile_height)))
  else if f =? DRM_FORMAT_NV12 then
    let sys := set_stride (wrap32 (vlc_align (sys_width sys) tile_width)) sys in
    let sys := set_offsets
      (<[1%nat := wrap32 (wrap64 (sys_stride sys * vlc_align (sys_height sys) tile_height))]>
         (sys_offsets sys)) sys in
    (sys, wrap32 (wrap64 (2 * vlc_align (sys_height sys) tile_height)))
  else
    let height := wrap32 (vlc_align (sys_height sys) tile_height) in
    (* width *4 so there's enough space for anything. *)
    let sys := set_stride (wrap32 (vlc_align (wrap32 (sys_width sys * 4)) tile_width)) sys in
    (sys, height).

(** [for (i = 0; i < ARRAY_SIZE(handles) && (sys->offsets[i] || i < 1); i++)]
    with [n] the number of indices left below [ARRAY_SIZE(handles)]. *)
Fixpoint CreateFB_planes (n i : nat) (handle : Z) (sys : vout_display_sys_t)
    (arrs : list Z * list Z * list Z) : list Z * list Z * list Z :=
  match n with
  | O => arrs
  | S n' =>
      if negb (sys_offsets sys !!! i =? 0) || bool_decide (i < 1)%nat then
        let '(handles, pitches, offsets) := arrs in
        CreateFB_planes n' (S i) handle sys
          (<[i := handle]> handles, <[i := sys_stride sys]> pitches,
           <[i := sys_offsets sys !!! i]> offsets)
      else arrs
  end.

(** The label [err_destroy]. *)
Definition CreateFB_err_destroy (d : Drm.dev) (sys : vout_display_sys_t) (buf : nat)
  : deviceRval * Drm.dev * vout_display_sys_t :=
  let d := Drm.ioctl_DESTROY_DUMB (sys_handle sys !!! buf) d in
  (drvFail, d, sys).

(** The label [err_fb], which falls through to [err_destroy]. *)
Definition CreateFB_err_fb (d : Drm.dev) (sys : vout_display_sys_t) (buf : nat)
  : deviceRval * Drm.dev * vout_display_sys_t :=
  let d := Drm.ModeRmFB (sys_fb sys !!! buf) d in
  let sys := set_fb (<[buf := 0]> (sys_fb sys)) sys in
  CreateFB_err_destroy d sys buf.

(** [CreateFB(vd, buf)], called with [buf < MAXHWBUF] only. *)
Definition CreateFB (d : Drm.dev) (sys : vout_display_sys_t) (buf : nat)
  : deviceRval * Drm.dev * vout_display_sys_t :=
  let '(sys, height) := CreateFB_layout sys in
  let create_req := Drm.CreateDumb (sys_width sys) height 32 0 0 in
  let '(ret, create_req, d) := Drm.ioctl_CREATE_DUMB create_req d in
  let ret := wrap32 ret in
  if ret <? 0 then (drvFail, d, sys)
  else
    let sys := set_size (wrap32 (Drm.cd_size create_req)) sys in
    let sys := set_handle (<[buf := Drm.cd_handle create_req]> (sys_handle sys)) sys in
    (* create framebuffer object for the dumb-buffer
       index 0 has to be filled in any case. *)
    let '(handles, pitches, offsets) :=
      CreateFB_planes 4 0 (Drm.cd_handle create_req) sys
        ([0; 0; 0; 0], [0; 0; 0; 0], [0; 0; 0; 0]) in
    let '(ret, fb, d) :=
      Drm.ModeAddFB2 (sys_width sys) (sys_height sys) (sys_drm_fourcc sys)
        handles pitches offsets d in
    let sys := match fb with
               | Some id => set_fb (<[buf := id]> (sys_fb sys)) sys
               | None => sys
               end in
    if negb (ret =? 0) then CreateFB_err_destroy d sys buf
    else
      let '(ret, d) := Drm.ioctl_MAP_DUMB (sys_handle sys !!! buf) d in
      if negb (ret =? 0) then CreateFB_err_fb d sys buf
      else
        let '(addr, d) := Drm.mmap (sys_size sys) d in
        let sys := set_map (<[buf := addr]> (sys_map sys)) sys in
        if addr =? Drm.MAP_FAILED then CreateFB_err_fb d sys buf
        else (drvSuccess, d, sys).

(** [DestroyFB(vd, buf)] *)
Definition DestroyFB (d : Drm.dev) (sys : vout_display_sys_t) (buf : nat) : Drm.dev :=
  let d := Drm.munmap (sys_map sys !!! buf) (sys_size sys) d in
  let d := Drm.ModeRmFB (sys_fb sys !!! buf) d in
  Drm.ioctl_DESTROY_DUMB (sys_handle sys !!! buf) d.

(** [for (int c = 0; c < MAXHWBUF; c++) DestroyFB(vd, c);] and the like: the
    buffers of the indices [cs], in that order. *)
Definition DestroyFB_each (cs : list nat) (d : Drm.dev) (sys : vout_display_sys_t)
  : Drm.dev :=
  foldl (λ d c, DestroyFB d sys c) d cs.

Definition CustomDestroyPicture (d : Drm.dev) (sys : vout_display_sys_t) : Drm.dev :=
  DestroyFB_each (seq 0 MAXHWBUF) d sys.

(** ** Plane scan and format negotiation: [ChromaNegotiation] *)

(** What [msg_Err] reports in the functions below. *)
Inductive msg :=
| Err_format_list                 (* Couldn't get list of DRM formats *)
| Err_forced_drm (drm_fourcc : Z) (* Forced DRM fourcc not available in kernel. *)
| Err_forced_vlc (vlc_fourcc : Z) (* Forced VLC fourcc not matching anything
                                     available in kernel, please set manually *)
| Err_set_plane (plane_id fb : Z). (* Cannot do set plane for plane id, fb *)

(** [drmModePlane]: the fields the scan reads. *)
Record drmModePlane := ModePlane {
  plane_id : Z;
  possible_crtcs : Z;
  formats : list Z
}.

(** The answers of the capability queries: [drmModeGetResources] (the CRTC
    list, or NULL), [drmModeGetPlaneResources] (NULL, or one entry per plane
    holding what [drmModeGetPlane] returns for it, NULL included). *)
Record drm_caps := Caps {
  caps_crtcs : option (list Z);
  caps_planes : option (list (option drmModePlane))
}.

(** The search for [wnd->handle.crtc] in [resources->crtcs]; -1 if absent. *)
Fixpoint crtc_index_of (crtcs : list Z) (crtc crtc_id : Z) : Z :=
  match crtcs with
  | [] => -1
  | x :: rest => if x =? crtc then crtc_id else crtc_index_of rest crtc (crtc_id + 1)
  end.

(** The body of the loop over [plane->formats]. *)
Definition scan_format (pl : drmModePlane)
    (st : vout_display_sys_t * list fourccmatching_t) (format : Z)
  : vout_display_sys_t * list fourccmatching_t :=
  let '(sys, tbl) := st in
  let tbl := CheckFourCCList format (plane_id pl) tbl in
  let sys :=
    if sys_forced_drm_fourcc sys && (sys_plane_id sys =? 0)
       && (format =? sys_drm_fourcc sys)
    then set_plane_id (plane_id pl) sys else sys in
  (sys, tbl).

(** The loop over the planes.  [1 << crtc_index] is taken with [Z.shiftl],
    which is the shift of C for an index from 0 to 31.  For
    [crtc_index = -1] (CRTC not listed) or an index of 32 or more C leaves
    the shift undefined; the mask is 0 here, which says nothing about what
    a compiled program does then, and the properties that depend on the
    mask are stated for a listed CRTC ([crtc_listed]).  The property lookup
    that names the plane type feeds [msg_Dbg] only and is left out. *)
Fixpoint scan_planes (planes : list (option drmModePlane)) (crtc_index : Z)
    (sys : vout_display_sys_t) (tbl : list fourccmatching_t)
  : bool * vout_display_sys_t * list fourccmatching_t :=
  match planes with
  | [] => (true, sys, tbl)
  | Some pl :: rest =>
      if bool_decide (0 < length (formats pl))%nat then
        if Z.land (possible_crtcs pl) (wrap32 (Z.shiftl 1 crtc_index)) =? 0
        then scan_planes rest crtc_index sys tbl
        else
          let '(sys, tbl) := foldl (scan_format pl) (sys, tbl) (formats pl) in
          scan_planes rest crtc_index sys tbl
      else (false, sys, tbl)
  | None :: _ => (false, sys, tbl)
  end.

(** The first part of [ChromaNegotiation], up to the release of the plane
    resources: [None] when [drmModeGetResources] gives NULL, else whether
    every plane could be read, with the state and the table the scan leaves.
    Nothing is scanned when the plane list is NULL or empty. *)
Definition plane_scan (caps : drm_caps) (crtc : Z) (sys : vout_display_sys_t)
    (tbl : list fourccmatching_t)
  : option (bool * vout_display_sys_t * list fourccmatching_t) :=
  match caps_crtcs caps with
  | None => None
  | Some crtcs =>
      let crtc_index := crtc_index_of crtcs crtc 0 in
      let sys := set_plane_id 0 sys in
      match caps_planes caps with
      | Some (pl :: planes) => Some (scan_planes (pl :: planes) crtc_index sys tbl)
      | _ => Some (true, sys, tbl)
      end
  end.

(** [for (; c < ARRAY_SIZE(fourccmatching); c++) if (hit) { ...; return }]
    over the entries [rest] that start at index [c]: the entry hit, if any,
    and the value [c] has when the loop is left. *)
Fixpoint table_loop (hit : fourccmatching_t → bool) (rest : list fourccmatching_t)
    (c : nat) : option fourccmatching_t * nat :=
  match rest with
  | [] => (None, c)
  | e :: rest' => if hit e then (Some e, c) else table_loop hit rest' (S c)
  end.

Definition for_c (hit : fourccmatching_t → bool) (tbl : list fourccmatching_t)
    (c : nat) : option fourccmatching_t * nat :=
  table_loop hit (drop c tbl) c.

(** [if (!sys->forced_drm_fourcc) { sys->drm_fourcc = ...; sys->plane_id = ...; }] *)
Definition adopt_drm (e : fourccmatching_t) (sys : vout_display_sys_t)
  : vout_display_sys_t :=
  if negb (sys_forced_drm_fourcc sys)
  then set_plane_id (fm_plane_id e) (set_drm_fourcc (fm_drm e) sys)
  else sys.

(** The body of a hit in the two family loops. *)
Definition adopt_family (e : fourccmatching_t) (sys : vout_display_sys_t)
  : vout_display_sys_t :=
  set_vlc_fourcc (fm_vlc e) (adopt_drm e sys).

Section Negotiation.

(** [vlc_fourcc_IsYUV] of the VLC core, a parameter here. *)
Variable vlc_fourcc_IsYUV : Z → bool.

(** The third loop ([isYUV == YUVFormat && present], from [c = 0]) and the
    fourth one ([!isYUV != YUVFormat && present], from the [c] the third
    loop ended with: its initialiser is [i = 0]). *)
Definition family_fallback (sys : vout_display_sys_t) (tbl : list fourccmatching_t)
  : bool * vout_display_sys_t * list msg :=
  let YUVFormat := vlc_fourcc_IsYUV (sys_vlc_fourcc sys) in
  match for_c (λ e, bool_decide (fm_isYUV e = YUVFormat) && fm_present e) tbl 0 with
  | (Some e, _) => (true, adopt_family e sys, [])
  | (None, c) =>
      match for_c (λ e, bool_decide (negb (fm_isYUV e) ≠ YUVFormat) && fm_present e)
                  tbl c with
      | (Some e, _) => (true, adopt_family e sys, [])
      | (None, _) => (false, sys, [])
      end
  end.

(** The part of [ChromaNegotiation] after the plane scan. *)
Definition negotiate (sys : vout_display_sys_t) (tbl : list fourccmatching_t)
  : bool * vout_display_sys_t * list msg :=
  if sys_forced_drm_fourcc sys then
    let sys :=
      match for_c (λ e, fm_drm e =? sys_drm_fourcc sys) tbl 0 with
      | (Some e, _) => set_vlc_fourcc (fm_vlc e) sys
      | (None, _) => sys
      end in
    if sys_plane_id sys =? 0
    then (false, sys, [Err_forced_drm (sys_drm_fourcc sys)])
    else (true, sys, [])
  else
    (* favor yuv format according to YUVFormat flag.
       check for exact match first, then YUVFormat and then !YUVFormat *)
    match for_c (λ e, fm_vlc e =? sys_vlc_fourcc sys) tbl 0 with
    | (Some e, _) =>
        let sys :=
          if negb (sys_forced_drm_fourcc sys) && fm_present e
          then set_plane_id (fm_plane_id e) (set_drm_fourcc (fm_drm e) sys)
          else sys in
        if sys_drm_fourcc sys =? 0
        then (false, sys, [Err_forced_vlc (sys_vlc_fourcc sys)])
        else (true, sys, [])
    | (None, _) => family_fallback sys tbl
    end.

(** [ChromaNegotiation(vd)] *)
Definition ChromaNegotiation (caps : drm_caps) (crtc : Z)
    (sys : vout_display_sys_t) (tbl : list fourccmatching_t)
  : bool * vout_display_sys_t * list fourccmatching_t * list msg :=
  match plane_scan caps crtc sys tbl with
  | None => (false, sys, tbl, [])
  | Some (false, sys, tbl) => (false, sys, tbl, [Err_format_list])
  | Some (true, sys, tbl) =>
      let '(res, sys, msgs) := negotiate sys tbl in (res, sys, tbl, msgs)
  end.

End Negotiation.

(** ** The presentation cycle: [Prepare] and [Display] *)

(** How a call leaves: by returning, by a failed [assert], or by an access
    C does not define (a NULL picture, an index outside an array). *)
Inductive exit := Returned | Aborted | Undefined.

Definition EINVAL : Z := 22.

(** The inputs of [Display] that come from the core: the placement computed
    by [vout_display_PlacePicture] and the crop of [vd->fmt]. *)
Record geometry := Geometry {
  geo_crtc : Z;                        (* wnd->handle.crtc *)
  geo_place : Z * Z * Z * Z;           (* place.x, .y, .width, .height *)
  geo_x_offset : Z; geo_y_offset : Z;
  geo_visible_width : Z; geo_visible_height : Z
}.

Definition set_p_pixels (v : Z) (pl : plane_t) : plane_t :=
  Plane v (i_lines pl) (i_pitch pl).

(** [for (int i = 0; i < PICTURE_PLANE_MAX; i++)
      sys->picture->p[i].p_pixels = sys->map[buf] + sys->offsets[i];] *)
Definition repoint (base : Z) (offsets : list Z) (pic : picture_t) : picture_t :=
  Picture (pic_chroma pic) (pic_width pic) (pic_height pic)
    (foldl (λ p i, alter (set_p_pixels (base + offsets !!! i)) i p)
           (pic_p pic) (seq 0 PICTURE_PLANE_MAX)).

(** The call of [drmModeSetPlane] in [Display] for the framebuffer [fb]; the
    source rectangle is in 16.16 fixed point. *)
Definition Display_commit (geo : geometry) (d : Drm.dev)
    (sys : vout_display_sys_t) (fb : Z) : Z * Drm.dev :=
  Drm.ModeSetPlane (sys_plane_id sys) (geo_crtc geo) fb (geo_place geo)
    (wrap32 (Z.shiftl (geo_x_offset geo) 16),
     wrap32 (Z.shiftl (geo_y_offset geo) 16),
     wrap32 (Z.shiftl (geo_visible_width geo) 16),
     wrap32 (Z.shiftl (geo_visible_height geo) 16)) d.

(** [sys->front_buf++; sys->front_buf %= MAXHWBUF;] *)
Definition next_front_buf (front_buf : Z) : Z :=
  wrap32 (front_buf + 1) mod Z.of_nat MAXHWBUF.

(** [Display(vd, picture)]; [ndebug] tells whether [assert] is compiled out. *)
Definition Display (ndebug : bool) (geo : geometry) (d : Drm.dev)
    (sys : vout_display_sys_t) : exit * list msg * Drm.dev * vout_display_sys_t :=
  match sys_fb sys !! Z.to_nat (sys_front_buf sys) with
  | None => (Undefined, [], d, sys)
  | Some fb =>
      let '(ret, d) := Display_commit geo d sys fb in
      if negb (ret =? 0) then
        let msgs := [Err_set_plane (sys_plane_id sys) fb] in
        if negb ndebug && (ret =? - EINVAL)
        then (Aborted, msgs, d, sys)
        else (Returned, msgs, d, sys)
      else
        let sys := set_front_buf (next_front_buf (sys_front_buf sys)) sys in
        match sys_picture sys, sys_map sys !! Z.to_nat (sys_front_buf sys) with
        | Some pic, Some base =>
            (Returned, [], d,
             set_picture (Some (repoint base (sys_offsets sys) pic)) sys)
        | _, _ => (Undefined, [], d, sys)
        end
  end.

(** Modelled from the spec: [picture_Copy] of the VLC core, which "copies
    sourceFrame's pixel content into the session's externally-visible image
    view".  Memory is kept per plane: the address a plane of the view points
    at receives the frame. *)
Definition picture_Copy (dst : picture_t) (frame : Z) (mem : gmap Z Z) : gmap Z Z :=
  foldl (λ m pl, <[p_pixels pl := frame]> m) mem (pic_p dst).

(** [Prepare(vd, pic, subpic, date)] *)
Definition Prepare (sys : vout_display_sys_t) (frame : Z) (mem : gmap Z Z)
  : option (gmap Z Z) :=
  match sys_picture sys with
  | Some dst => Some (picture_Copy dst frame mem)
  | None => None
  end.

(** ** [Close] and [Open] *)

(** [Close(vd)]: the device after [CustomDestroyPicture], and the picture
    handed to [picture_Release], if [sys->picture] is not NULL.
    [picture_Release] touches neither the device nor [sys]: [sys->picture]
    keeps pointing at the released picture. *)
Definition Close (d : Drm.dev) (sys : vout_display_sys_t)
  : Drm.dev * option picture_t :=
  (CustomDestroyPicture d sys, sys_picture sys).

Inductive open_ret :=
| VLC_SUCCESS | VLC_EGENERIC | VLC_ENOMEM
| ret_CreateFB (ret : deviceRval).    (* [return ret;] in the buffer loop *)

Global Instance open_ret_eq_dec : EqDecision open_ret.
Proof. solve_decision. Defined.

(** What [Open] reads from its surroundings. *)
Record open_env := OpenEnv {
  env_kms : bool;                 (* window type is VOUT_WINDOW_TYPE_KMS *)
  env_calloc : bool;              (* vlc_obj_calloc succeeded *)
  env_vlc_chroma : option Z;      (* kms-vlc-chroma, if set, through
                                     vlc_fourcc_GetCodecFromString *)
  env_drm_chroma : option Z;      (* kms-drm-chroma, if set, through VLC_FOURCC *)
  env_source_chroma : Z;          (* vd->source->i_chroma *)
  env_crtc : Z;                   (* wnd->handle.crtc *)
  env_caps : drm_caps;
  env_visible_width : Z;          (* of fmt after video_format_ApplyRotation *)
  env_visible_height : Z;
  env_picture : bool              (* picture_NewFromResource succeeded *)
}.

(** The two overrides (the code of [Open] up to the call of [OpenDisplay]). *)
Definition Open_chromas (env : open_env) (sys : vout_display_sys_t)
  : vout_display_sys_t :=
  let sys :=
    match env_vlc_chroma env with
    | Some local_vlc_chroma =>
        if negb (local_vlc_chroma =? 0)
        then set_vlc_fourcc local_vlc_chroma sys
        else set_vlc_fourcc (env_source_chroma env) sys
    | None => set_vlc_fourcc (env_source_chroma env) sys
    end in
  match env_drm_chroma env with
  | Some local_drm_chroma =>
      if negb (local_drm_chroma =? 0)
      then set_drm_fourcc local_drm_chroma (set_forced_drm_fourcc true sys)
      else sys
  | None => sys
  end.

(** [for (int c = 0; c < MAXHWBUF; c++)] of [Open], over the indices [cs]
    still to come. *)
Fixpoint Open_buffers (cs : list nat) (d : Drm.dev) (sys : vout_display_sys_t)
  : deviceRval * Drm.dev * vout_display_sys_t :=
  match cs with
  | [] => (drvSuccess, d, sys)
  | c :: cs' =>
      let '(ret, d, sys) := CreateFB d sys c in
      if bool_decide (ret ≠ drvSuccess)
      then (ret, DestroyFB_each (seq 0 c) d sys, sys)
      else Open_buffers cs' d sys
  end.

(** The picture [picture_NewFromResource(&fmt, &rsc)] gives for the zeroed
    resource [rsc], and the loop of [Open] that points it at buffer 0. *)
Definition Open_picture (sys : vout_display_sys_t) : picture_t :=
  let pic := Picture (sys_vlc_fourcc sys) (sys_width sys) (sys_height sys)
               (replicate PICTURE_PLANE_MAX (Plane 0 0 0)) in
  Picture (pic_chroma pic) (pic_width pic) (pic_height pic)
    (foldl (λ p i, alter (λ _, Plane (sys_map sys !!! 0%nat + sys_offsets sys !!! i)
                                     (sys_height sys) (sys_stride sys)) i p)
           (pic_p pic) (seq 0 PICTURE_PLANE_MAX)).

(** The state [Open] leaves behind. *)
Record opened := Opened {
  o_ret : open_ret;
  o_dev : Drm.dev;
  o_sys : option vout_display_sys_t;     (* vd->sys *)
  o_tbl : list fourccmatching_t;
  o_msgs : list msg;
  o_ops : bool                           (* vd->ops = &ops *)
}.

Section Open.

Variable vlc_fourcc_IsYUV : Z → bool.

(** [OpenDisplay(vd)] *)
Definition OpenDisplay (caps : drm_caps) (crtc : Z) (sys : vout_display_sys_t)
    (tbl : list fourccmatching_t)
  : open_ret * vout_display_sys_t * list fourccmatching_t * list msg :=
  let '(ok, sys, tbl, msgs) := ChromaNegotiation vlc_fourcc_IsYUV caps crtc sys tbl in
  if negb ok then (VLC_EGENERIC, sys, tbl, msgs)
  else (VLC_SUCCESS, sys, tbl, msgs).

(** [Open(vd, fmtp, context)] *)
Definition Open (env : open_env) (d : Drm.dev) (tbl : list fourccmatching_t)
  : opened :=
  if negb (env_kms env) then Opened VLC_EGENERIC d None tbl [] false
  else if negb (env_calloc env) then Opened VLC_ENOMEM d None tbl [] false
  else
    let sys := Open_chromas env sys_calloc in
    let '(rc, sys, tbl, msgs) :=
      OpenDisplay (env_caps env) (env_crtc env) sys tbl in
    if bool_decide (rc ≠ VLC_SUCCESS) then
      let d := (Close d sys).1 in
      Opened VLC_EGENERIC d (Some sys) tbl msgs false
    else
      let sys := set_width (env_visible_width env) sys in
      let sys := set_height (env_visible_height env) sys in
      let '(ret, d, sys) := Open_buffers (seq 0 MAXHWBUF) d sys in
      if bool_decide (ret ≠ drvSuccess)
      then Opened (ret_CreateFB ret) d (Some sys) tbl msgs false
      else if negb (env_picture env)
      then (* goto error *) Opened VLC_EGENERIC d (Some sys) tbl msgs false
      else
        let sys := set_picture (Some (Open_picture sys)) sys in
        Opened VLC_SUCCESS d (Some sys) tbl msgs true.

End Open.

(** A finite part of what [vlc_fourcc_IsYUV] answers: the YUV codes of the
    table and I420 are YUV, the RGB codes are not. *)
Definition IsYUV_sample (fourcc : Z) : bool :=
  bool_decide (fourcc ∈ [VLC_CODEC_I420; VLC_CODEC_P010; VLC_CODEC_NV12;
                         VLC_CODEC_YUYV; VLC_CODEC_YVYU; VLC_CODEC_UYVY;
                         VLC_CODEC_VYUY]).

(** A device that holds nothing; its driver sizes a dumb buffer as rows of
    [width * bpp / 8] bytes. *)
Definition idle_dev (script : list Z) : Drm.dev :=
  Drm.Dev ∅ ∅ ∅ (λ w h bpp, w * (bpp / 8) * h) script [].

(** ** The layout rule of the specification *)

Record layout := Layout {
  l_stride : Z;            (* strideBytes *)
  l_chroma_offset : Z;     (* offset of the second plane, 0 if there is none *)
  l_alloc_height : Z       (* rows requested from the device *)
}.

(** Section 4.4 in its own words, over the integers: the wide two-plane
    formats, the 8-bit two-plane format, and the default. *)
Definition spec_layout (fourcc width height : Z) : layout :=
  if bool_decide (fourcc ∈ [DRM_FORMAT_P010; DRM_FORMAT_P012; DRM_FORMAT_P016]) then
    Layout (align_up (width * 2) 512)
           (align_up (width * 2) 512 * align_up height 16)
           (2 * align_up height 16)
  else if bool_decide (fourcc = DRM_FORMAT_NV12) then
    Layout (align_up width 512)
           (align_up width 512 * align_up height 16)
           (2 * align_up height 16)
  else
    Layout (align_up (width * 4) 512) 0 (align_up height 16).

(** The values of a layout are representable in the 32-bit fields that
    hold them. *)
Definition layout_fits (l : layout) : Prop :=
  (l_stride l < 2 ^ 32) ∧ (l_chroma_offset l < 2 ^ 32) ∧ (l_alloc_height l < 2 ^ 32).

(** The planes [CreateFB] hands to [drmModeAddFB2] for a buffer [handle]
    laid out as [l]: one plane, or two when the second offset is not 0. *)
Definition layout_planes (l : layout) (handle : Z) : list Z * list Z * list Z :=
  if l_chroma_offset l =? 0
  then ([handle; 0; 0; 0], [l_stride l; 0; 0; 0], [0; 0; 0; 0])
  else ([handle; handle; 0; 0], [l_stride l; l_stride l; 0; 0],
        [0; l_chroma_offset l; 0; 0]).

(** ** Accounting of device resources *)

(** What one ring buffer holds: its dumb buffer, its framebuffer object and
    its mapping. *)
Record buffer := Buffer { b_handle : Z; b_fb : Z; b_addr : Z; b_len : Z }.

(** The buffer [sys] records at index [i]; [DestroyFB] releases just that. *)
Definition buffer_of (sys : vout_display_sys_t) (i : nat) : buffer :=
  Buffer (sys_handle sys !!! i) (sys_fb sys !!! i) (sys_map sys !!! i) (sys_size sys).

Definition add_buf (b : buffer) (H : gset Z * gset Z * gmap Z Z)
  : gset Z * gset Z * gmap Z Z :=
  ({[b_handle b]} ∪ H.1.1, {[b_fb b]} ∪ H.1.2, <[b_addr b := b_len b]> H.2).

Definition del_buf (b : buffer) (H : gset Z * gset Z * gmap Z Z)
  : gset Z * gset Z * gmap Z Z :=
  (H.1.1 ∖ {[b_handle b]}, H.1.2 ∖ {[b_fb b]},
   if bool_decide (H.2 !! b_addr b = Some (b_len b)) then delete (b_addr b) H.2
   else H.2).

Definition fresh_for (b : buffer) (H : gset Z * gset Z * gmap Z Z) : Prop :=
  (b_handle b ∉ H.1.1) ∧ (b_fb b ∉ H.1.2) ∧ H.2 !! b_addr b = None.

(** [stacked base bs H]: the holdings [H] are [base] plus the buffers [bs],
    the most recent first, each made of identifiers unused when it was
    created. *)
Inductive stacked (base : gset Z * gset Z * gmap Z Z)
  : list buffer → gset Z * gset Z * gmap Z Z → Prop :=
| stacked_nil : stacked base [] base
| stacked_cons b bs H :
    stacked base bs H → fresh_for b H → stacked base (b :: bs) (add_buf b H).

(** The buffers of the indices below [c], the most recent first. *)
Definition ring (sys : vout_display_sys_t) (c : nat) : list buffer :=
  reverse (buffer_of sys <$> seq 0 c).

(** Requests that give a resource back. *)
Definition is_release (r : Drm.request) : bool :=
  match r with
  | Drm.MUNMAP _ _ | Drm.RMFB _ | Drm.DESTROY_DUMB _ => true
  | _ => false
  end.

(** The rows [CreateFB] asks for and the size the driver answers with; both
    depend on the format and the dimensions only. *)
Definition expected_size (d : Drm.dev) (sys : vout_display_sys_t) : Z :=
  wrap32 (wrap64 (Drm.dumb_size d (sys_width sys) (CreateFB_layout sys).2 32)).

(** The fixed sizes of the arrays of [vout_display_sys_t]. *)
Definition sys_wf (sys : vout_display_sys_t) : Prop :=
  length (sys_handle sys) = MAXHWBUF ∧ length (sys_map sys) = MAXHWBUF
  ∧ length (sys_fb sys) = MAXHWBUF ∧ length (sys_offsets sys) = PICTURE_PLANE_MAX.

(** The two requests [CreateFB] starts with, as functions of their results. *)
Definition req_create (sys : vout_display_sys_t) (res : option (Z * Z)) : Drm.request :=
  Drm.CREATE_DUMB (sys_width sys) (CreateFB_layout sys).2 32 res.

Definition req_addfb (sys : vout_display_sys_t) (handle : Z) (res : option Z)
  : Drm.request :=
  let '(handles, pitches, offsets) :=
    CreateFB_planes 4 0 handle (CreateFB_layout sys).1
      ([0; 0; 0; 0], [0; 0; 0; 0], [0; 0; 0; 0]) in
  Drm.ADDFB2 (sys_width sys) (sys_height sys) (sys_drm_fourcc sys)
    handles pitches offsets res.

(** The request that gives back what a successful request acquired. *)
Definition undo_of (r : Drm.request) : list Drm.request :=
  match r with
  | Drm.CREATE_DUMB _ _ _ (Some (handle, _)) => [Drm.DESTROY_DUMB handle]
  | Drm.ADDFB2 _ _ _ _ _ _ (Some fb) => [Drm.RMFB fb]
  | Drm.MMAP length (Some addr) => [Drm.MUNMAP addr length]
  | _ => []
  end.

(** The steps done, undone last first. *)
Definition unwind (steps : list Drm.request) : list Drm.request :=
  mjoin (undo_of <$> reverse steps).

(** A request that was refused. *)
Definition is_refused (r : Drm.request) : bool :=
  match r with
  | Drm.CREATE_DUMB _ _ _ None | Drm.ADDFB2 _ _ _ _ _ _ None
  | Drm.MAP_DUMB _ false | Drm.MMAP _ None => true
  | _ => false
  end.

(** What [CreateFB (_, sys, buf)] leaves alone on the way to [sys']. *)
Definition frame (sys sys' : vout_display_sys_t) (buf : nat) : Prop :=
  sys_width sys' = sys_width sys ∧ sys_height sys' = sys_height sys
  ∧ sys_drm_fourcc sys' = sys_drm_fourcc sys
  ∧ sys_vlc_fourcc sys' = sys_vlc_fourcc sys
  ∧ sys_plane_id sys' = sys_plane_id sys
  ∧ sys_forced_drm_fourcc sys' = sys_forced_drm_fourcc sys
  ∧ sys_front_buf sys' = sys_front_buf sys
  ∧ sys_picture sys' = sys_picture sys
  ∧ sys_stride sys' = sys_stride (CreateFB_layout sys).1
  ∧ sys_offsets sys' = sys_offsets (CreateFB_layout sys).1
  ∧ sys_wf sys'
  ∧ (∀ i, i ≠ buf → sys_handle sys' !!! i = sys_handle sys !!! i)
  ∧ (∀ i, i ≠ buf → sys_fb sys' !!! i = sys_fb sys !!! i)
  ∧ (∀ i, i ≠ buf → sys_map sys' !!! i = sys_map sys !!! i).

(** The device holds all of the buffer [b]. *)
Definition held_by (b : buffer) (H : gset Z * gset Z * gmap Z Z) : Prop :=
  (b_handle b ∈ H.1.1) ∧ (b_fb b ∈ H.1.2) ∧ H.2 !! b_addr b = Some (b_len b).


(** The fields the negotiation does not touch. *)
Definition same_buffers (sys sys' : vout_display_sys_t) : Prop :=
  sys_width sys' = sys_width sys ∧ sys_height sys' = sys_height sys
  ∧ sys_stride sys' = sys_stride sys ∧ sys_size sys' = sys_size sys
  ∧ sys_offsets sys' = sys_offsets sys ∧ sys_handle sys' = sys_handle sys
  ∧ sys_map sys' = sys_map sys ∧ sys_fb sys' = sys_fb sys
  ∧ sys_picture sys' = sys_picture sys ∧ sys_front_buf sys' = sys_front_buf sys
  ∧ sys_forced_drm_fourcc sys' = sys_forced_drm_fourcc sys.

(** The parts of the result of [CreateFB] and of [Open_buffers]. *)
Definition ret_of (x : deviceRval * Drm.dev * vout_display_sys_t) : deviceRval := x.1.1.
Definition dev_of (x : deviceRval * Drm.dev * vout_display_sys_t) : Drm.dev := x.1.2.
Definition sys_of (x : deviceRval * Drm.dev * vout_display_sys_t)
  : vout_display_sys_t := x.2.

(** The state with which [Open] enters its buffer loop, when it gets that
    far: the negotiated formats and the visible size. *)
Definition Open_ready (vlc_fourcc_IsYUV : Z → bool) (env : open_env)
    (tbl : list fourccmatching_t) : option vout_display_sys_t :=
  if env_kms env && env_calloc env then
    match OpenDisplay vlc_fourcc_IsYUV (env_caps env) (env_crtc env)
            (Open_chromas env sys_calloc) tbl with
    | (VLC_SUCCESS, sys, _, _) =>
        Some (set_height (env_visible_height env)
                (set_width (env_visible_width env) sys))
    | _ => None
    end
  else None.

(** ** Sample surroundings

    A display whose only CRTC has id 40 and whose planes can all be routed
    to it: plane 31 scans out RGB, plane 32 the 4:2:0 format NV12 and the
    4:2:2 format YUYV. *)
Definition rgb_plane : drmModePlane :=
  ModePlane 31 1 [DRM_FORMAT_XRGB8888; DRM_FORMAT_RGB565].
Definition yuv_plane : drmModePlane :=
  ModePlane 32 1 [DRM_FORMAT_NV12; DRM_FORMAT_YUYV].
Definition yuyv_plane : drmModePlane := ModePlane 33 1 [DRM_FORMAT_YUYV].

Definition sample_caps (planes : list drmModePlane) : drm_caps :=
  Caps (Some [40]) (Some (Some <$> planes)).

(** A 640 x 480 source of the given chroma on such a display, with the
    given overrides. *)
Definition sample_env (vlc_chroma drm_chroma : option Z) (source : Z)
    (planes : list drmModePlane) (picture : bool) : open_env :=
  OpenEnv true true vlc_chroma drm_chroma source 40 (sample_caps planes)
    640 480 picture.

Definition sample_geometry : geometry := Geometry 40 (0, 0, 640, 480) 0 0 640 480.

(** [Open] for an NV12 source on the RGB and YUV planes; the twelve requests
    of the three buffers succeed and [script] is what the device answers
    after that. *)
Definition sample_open (script : list Z) : opened :=
  Open IsYUV_sample
    (sample_env None None VLC_CODEC_NV12 [rgb_plane; yuv_plane] true)
    (idle_dev (replicate 12 0 ++ script)) fourccmatching.

Definition sample_sys : vout_display_sys_t := default sys_calloc (o_sys (sample_open [])).


(** A buffer request before any buffer exists. *)
Definition sample_request (drm_fourcc width height : Z) : vout_display_sys_t :=
  set_height height (set_width width (set_drm_fourcc drm_fourcc sys_calloc)).

(** ** The negotiation of the specification

    Section 4.3 in its own words, for the case without a forced hardware
    format: the exact logical match, which fails for an absent format only
    when an override asked for it ([overridden]), then the first present
    entry of the same family, then the first present entry of the opposite
    family. *)
Definition spec_family_fallback (vlc_fourcc_IsYUV : Z → bool)
    (sys : vout_display_sys_t) (tbl : list fourccmatching_t)
  : bool * vout_display_sys_t * list msg :=
  let YUVFormat := vlc_fourcc_IsYUV (sys_vlc_fourcc sys) in
  match list_find (λ e, fm_present e = true ∧ fm_isYUV e = YUVFormat) tbl with
  | Some (_, e) => (true, adopt_family e sys, [])
  | None =>
      match list_find (λ e, fm_present e = true ∧ fm_isYUV e ≠ YUVFormat) tbl with
      | Some (_, e) => (true, adopt_family e sys, [])
      | None => (false, sys, [])
      end
  end.

Definition spec_negotiate (vlc_fourcc_IsYUV : Z → bool) (overridden : bool)
    (sys : vout_display_sys_t) (tbl : list fourccmatching_t)
  : bool * vout_display_sys_t * list msg :=
  match list_find (λ e, fm_vlc e = sys_vlc_fourcc sys ∧ fm_present e = true) tbl with
  | Some (_, e) => (true, adopt_drm e sys, [])
  | None =>
      if overridden then (false, sys, [Err_forced_vlc (sys_vlc_fourcc sys)])
      else spec_family_fallback vlc_fourcc_IsYUV sys tbl
  end.


(** The formats the scan leaves alone. *)
Definition same_formats (sys sys' : vout_display_sys_t) : Prop :=
  sys_forced_drm_fourcc sys' = sys_forced_drm_fourcc sys
  ∧ sys_drm_fourcc sys' = sys_drm_fourcc sys
  ∧ sys_vlc_fourcc sys' = sys_vlc_fourcc sys
  ∧ (sys_forced_drm_fourcc sys = false → sys_plane_id sys' = sys_plane_id sys).

(** ** Notions for the scan and for a running session *)

(** The test of the scan on [plane->possible_crtcs]: the plane can be
    routed to the CRTC of index [crtc_index]. *)
Definition plane_usable (crtc_index : Z) (pl : drmModePlane) : bool :=
  negb (Z.land (possible_crtcs pl) (wrap32 (Z.shiftl 1 crtc_index)) =? 0).

(** Among [planes], a plane of id [p] that can be routed to the CRTC lists
    the format [f]. *)
Definition offers (planes : list (option drmModePlane)) (crtc_index f p : Z) : Prop :=
  ∃ pl, Some pl ∈ planes ∧ plane_usable crtc_index pl = true
        ∧ f ∈ formats pl ∧ plane_id pl = p.

(** The same for the answers of the capability queries. *)
Definition offered (caps : drm_caps) (crtc f p : Z) : Prop :=
  ∃ crtcs planes, caps_crtcs caps = Some crtcs ∧ caps_planes caps = Some planes
                  ∧ offers planes (crtc_index_of crtcs crtc 0) f p.

(** How an entry may differ after calls of [CheckFourCCList]: not at all, or
    by having been found, on a plane [p] with [found (fm_drm e) p]. *)
Definition marked (found : Z → Z → Prop) (e e' : fourccmatching_t) : Prop :=
  e' = e ∨ (fm_present e = false ∧ ∃ p, found (fm_drm e) p ∧ e' = mark_present e p).

(** Handles, framebuffer ids and mappings of a buffer are valid ones. *)
Definition buffer_valid (b : buffer) : Prop :=
  b_handle b ≠ 0 ∧ b_fb b ≠ 0 ∧ b_addr b ≠ 0 ∧ b_addr b ≠ Drm.MAP_FAILED.

(** Every plane of the picture points into buffer [buf], at its offset. *)
Definition view_on (sys : vout_display_sys_t) (buf : nat) (pic : picture_t) : Prop :=
  length (pic_p pic) = PICTURE_PLANE_MAX
  ∧ ∀ i pl, pic_p pic !! i = Some pl →
      p_pixels pl = sys_map sys !!! buf + sys_offsets sys !!! i.

(** The state of a session between [Open] and [Close]: the arrays have their
    sizes, [front_buf] is an index of the ring and the picture is a view
    on that buffer. *)
Definition session_ok (sys : vout_display_sys_t) : Prop :=
  sys_wf sys ∧ 0 ≤ sys_front_buf sys < Z.of_nat MAXHWBUF
  ∧ ∃ pic, sys_picture sys = Some pic
           ∧ view_on sys (Z.to_nat (sys_front_buf sys)) pic.

(** No object of the device has the id 0, nothing is mapped at NULL. *)
Definition dev_sane (d : Drm.dev) : Prop :=
  (0 ∉ Drm.dumbs d) ∧ (0 ∉ Drm.fbs d) ∧ Drm.maps d !! 0 = None.

(** Releasing buffers one after the other. *)
Definition del_bufs (bs : list buffer) (H : gset Z * gset Z * gmap Z Z)
  : gset Z * gset Z * gmap Z Z :=
  foldl (λ H b, del_buf b H) H bs.

(** The CRTC of the window is one of those the device lists, at an index
    for which [1 << crtc_index] is a bit of a 32-bit mask.  Otherwise the
    shift of the scan is one C leaves undefined. *)
Definition crtc_listed (caps : drm_caps) (crtc : Z) : Prop :=
  ∃ crtcs, caps_crtcs caps = Some crtcs ∧ 0 ≤ crtc_index_of crtcs crtc 0 < 32.

(** The values of a layout as 32-bit fields hold them. *)
Definition wrap_layout (l : layout) : layout :=
  Layout (wrap32 (l_stride l)) (wrap32 (l_chroma_offset l)) (wrap32 (l_alloc_height l)).

(** [tbl'] is [tbl] with some absent entries found. *)
Definition tbl_marked (found : Z → Z → Prop) (tbl tbl' : list fourccmatching_t) : Prop :=
  length tbl' = length tbl
  ∧ ∀ i e, tbl !! i = Some e → ∃ e', tbl' !! i = Some e' ∧ marked found e e'.

(** What the scan has bound for a forced format is a plane that lists it. *)
Definition bound_ok (planes : list (option drmModePlane)) (idx : Z)
    (sys : vout_display_sys_t) : Prop :=
  sys_plane_id sys = 0 ∨ offers planes idx (sys_drm_fourcc sys) (sys_plane_id sys).

(** Nothing of [b] is left in [H]. *)
Definition released (b : buffer) (H : gset Z * gset Z * gmap Z Z) : Prop :=
  (b_handle b ∉ H.1.1) ∧ (b_fb b ∉ H.1.2) ∧ H.2 !! b_addr b ≠ Some (b_len b).

(** * Properties *)

Set Warnings "-clear-no-such-hyp".

Ltac split_holding :=
  repeat match goal with |- (_, _) = (_, _) => f_equal end.

(** ** Alignment *)

(** For a power of two, the mask of [vlc_align] rounds up to a multiple. *)
Lemma vlc_align_pow2 v k :
  0 ≤ k → 0 ≤ v → v + 2 ^ k - 1 < 2 ^ 64 →
  vlc_align v (2 ^ k) = align_up v (2 ^ k).
Proof.
  intros Hk Hv Hlt. unfold vlc_align, align_up, wrap64.
  assert (0 < 2 ^ k) by (apply Z.pow_pos_nonneg; lia).
  rewrite (Z.mod_small (v + (2 ^ k - 1))) by lia.
  rewrite <- Z.ldiff_land.
  replace (2 ^ k - 1) with (Z.ones k) by (rewrite Z.ones_equiv; lia).
  rewrite Z.ldiff_ones_r by done.
  rewrite Z.shiftl_mul_pow2, Z.shiftr_div_pow2 by done.
  rewrite Z.ones_equiv. replace (v + Z.pred (2 ^ k)) with (v + 2 ^ k - 1) by lia.
  apply Z.mod_small.
  pose proof (Z.mul_div_le (v + 2 ^ k - 1) (2 ^ k)).
  assert (0 ≤ (v + 2 ^ k - 1) / 2 ^ k) by (apply Z.div_pos; lia).
  nia.
Qed.

Lemma vlc_align_tile_width v :
  0 ≤ v < 2 ^ 32 → vlc_align v tile_width = align_up v 512.
Proof. intros ?. apply (vlc_align_pow2 v 9); lia. Qed.

Lemma vlc_align_tile_height v :
  0 ≤ v < 2 ^ 32 → vlc_align v tile_height = align_up v 16.
Proof. intros ?. apply (vlc_align_pow2 v 4); lia. Qed.

Lemma align_up_bounds v a : 0 < a → 0 ≤ v → v ≤ align_up v a < v + a.
Proof.
  intros Ha Hv. unfold align_up.
  pose proof (Z.mul_div_le (v + a - 1) a Ha).
  pose proof (Z.mod_pos_bound (v + a - 1) a Ha).
  pose proof (Z.div_mod (v + a - 1) a). nia.
Qed.

(** ** The format table *)

Lemma CheckFourCCList_find tbl drmfourcc plane_id :
  CheckFourCCList drmfourcc plane_id tbl =
    match list_find (λ e, fm_drm e = drmfourcc) tbl with
    | Some (i, e) =>
        if fm_present e then tbl else <[i := mark_present e plane_id]> tbl
    | None => tbl
    end.
Proof.
  induction tbl as [|e rest IH]; simpl; [done|].
  destruct (Z.eqb_spec (fm_drm e) drmfourcc) as [Heq|Hne].
  - rewrite decide_True by done. by destruct (fm_present e).
  - rewrite decide_False by done. rewrite IH.
    destruct (list_find _ rest) as [[i x]|]; simpl; [|done].
    by destruct (fm_present x).
Qed.

(** An entry that is present is never written again. *)
Lemma CheckFourCCList_present_stable tbl drmfourcc plane_id i e :
  tbl !! i = Some e → fm_present e = true →
  CheckFourCCList drmfourcc plane_id tbl !! i = Some e.
Proof.
  revert i. induction tbl as [|x rest IH]; intros i Hi Hp; simpl; [done|].
  destruct (fm_drm x =? drmfourcc).
  - destruct (fm_present x) eqn:Hx; [done|].
    destruct i as [|i]; simpl in *; [|done].
    congruence.
  - destruct i as [|i]; simpl in *; [done|]. by apply IH.
Qed.

Lemma CheckFourCCList_seq_present_stable calls tbl i e :
  tbl !! i = Some e → fm_present e = true →
  CheckFourCCList_seq calls tbl !! i = Some e.
Proof.
  revert tbl. induction calls as [|[f p] calls IH]; intros tbl Hi Hp; simpl; [done|].
  apply IH; [|done]. by apply CheckFourCCList_present_stable.
Qed.

Lemma CheckFourCCList_idem tbl drmfourcc p p' :
  CheckFourCCList drmfourcc p' (CheckFourCCList drmfourcc p tbl)
  = CheckFourCCList drmfourcc p tbl.
Proof.
  induction tbl as [|e rest IH]; simpl; [done|].
  destruct (fm_drm e =? drmfourcc) eqn:He.
  - destruct (fm_present e) eqn:Hp; simpl; rewrite ?He, ?Hp; done.
  - simpl. rewrite He. by rewrite IH.
Qed.

(** ** Device requests *)

Module DrmFacts.
Import Drm.
Lemma fresh_id_spec X : (fresh_id X ∉ X) ∧ fresh_id X ≠ 0.
Proof.
  unfold fresh_id. pose proof (is_fresh ({[0]} ∪ X)) as Hf.
  split; [set_solver|]. intros Heq. rewrite Heq in Hf. set_solver.
Qed.

Lemma fresh_addr_spec (m : gmap Z Z) :
  m !! fresh_addr m = None ∧ fresh_addr m ≠ 0 ∧ fresh_addr m ≠ MAP_FAILED.
Proof.
  unfold fresh_addr. pose proof (is_fresh ({[0; MAP_FAILED]} ∪ dom m)) as Hf.
  split_and!.
  - apply not_elem_of_dom. set_solver.
  - intros Heq. rewrite Heq in Hf. set_solver.
  - intros Heq. rewrite Heq in Hf. set_solver.
Qed.

(** [errno] only consumes the script. *)
Lemma errno_spec d e d0 :
  errno d = (e, d0) →
  dumbs d0 = dumbs d ∧ fbs d0 = fbs d ∧ maps d0 = maps d
  ∧ dumb_size d0 = dumb_size d ∧ log d0 = log d.
Proof.
  unfold errno. destruct (script d); intros [= <- <-]; done.
Qed.

Lemma ioctl_CREATE_DUMB_spec req d ret req' d' :
  ioctl_CREATE_DUMB req d = (ret, req', d') →
  dumb_size d' = dumb_size d ∧ fbs d' = fbs d ∧ maps d' = maps d ∧
  ((ret = -1 ∧ req' = req ∧ dumbs d' = dumbs d
    ∧ log d' = log d ++ [CREATE_DUMB (cd_width req) (cd_height req) (cd_bpp req) None])
   ∨ (ret = 0 ∧ ∃ h,
        let sz := wrap64 (dumb_size d (cd_width req) (cd_height req) (cd_bpp req)) in
        (h ∉ dumbs d) ∧ h ≠ 0
        ∧ req' = CreateDumb (cd_width req) (cd_height req) (cd_bpp req) h sz
        ∧ dumbs d' = {[h]} ∪ dumbs d
        ∧ log d' = log d ++ [CREATE_DUMB (cd_width req) (cd_height req) (cd_bpp req)
                               (Some (h, sz))])).
Proof.
  unfold ioctl_CREATE_DUMB. destruct (errno d) as [e d0] eqn:He.
  apply errno_spec in He as (Hd & Hf & Hm & Hs & Hl).
  destruct (e =? 0); intros [= <- <- <-]; simpl; rewrite ?Hd, ?Hf, ?Hm, ?Hs, ?Hl.
  - split_and!; try done. right. split; [done|].
    exists (fresh_id (dumbs d)). destruct (fresh_id_spec (dumbs d)). done.
  - split_and!; try done. by left.
Qed.

Lemma ModeAddFB2_spec w h f handles pitches offsets d ret res d' :
  ModeAddFB2 w h f handles pitches offsets d = (ret, res, d') →
  handles !!! 0%nat ∈ dumbs d →
  dumb_size d' = dumb_size d ∧ dumbs d' = dumbs d ∧ maps d' = maps d ∧
  ((ret ≠ 0 ∧ res = None ∧ fbs d' = fbs d
    ∧ log d' = log d ++ [ADDFB2 w h f handles pitches offsets None])
   ∨ (ret = 0 ∧ ∃ fb, (fb ∉ fbs d) ∧ fb ≠ 0 ∧ res = Some fb
        ∧ fbs d' = {[fb]} ∪ fbs d
        ∧ log d' = log d ++ [ADDFB2 w h f handles pitches offsets (Some fb)])).
Proof.
  unfold ModeAddFB2. destruct (errno d) as [e d0] eqn:He.
  apply errno_spec in He as (Hd & Hf & Hm & Hs & Hl). intros Hres Hlive.
  rewrite Hd, bool_decide_eq_true_2, andb_true_r in Hres by done.
  destruct (Z.eqb_spec e 0); injection Hres as <- <- <-; simpl;
    rewrite ?Hd, ?Hf, ?Hm, ?Hs, ?Hl.
  - split_and!; try done. right. split; [done|].
    exists (fresh_id (fbs d)). destruct (fresh_id_spec (fbs d)). done.
  - split_and!; try done. left. split_and!; try done. lia.
Qed.

Lemma ioctl_MAP_DUMB_spec handle d ret d' :
  ioctl_MAP_DUMB handle d = (ret, d') →
  dumb_size d' = dumb_size d ∧ dumbs d' = dumbs d ∧ fbs d' = fbs d
  ∧ maps d' = maps d
  ∧ ((ret = -1 ∧ log d' = log d ++ [MAP_DUMB handle false])
     ∨ (ret = 0 ∧ log d' = log d ++ [MAP_DUMB handle true])).
Proof.
  unfold ioctl_MAP_DUMB. destruct (errno d) as [e d0] eqn:He.
  apply errno_spec in He as (Hd & Hf & Hm & Hs & Hl).
  destruct (_ && _); intros [= <- <-]; simpl; rewrite ?Hd, ?Hf, ?Hm, ?Hs, ?Hl;
    split_and!; try done; [by right|by left].
Qed.

Lemma mmap_spec len d addr d' :
  mmap len d = (addr, d') →
  dumb_size d' = dumb_size d ∧ dumbs d' = dumbs d ∧ fbs d' = fbs d ∧
  ((addr = MAP_FAILED ∧ maps d' = maps d ∧ log d' = log d ++ [MMAP len None])
   ∨ (addr ≠ MAP_FAILED ∧ addr ≠ 0 ∧ maps d !! addr = None
      ∧ maps d' = <[addr := len]> (maps d)
      ∧ log d' = log d ++ [MMAP len (Some addr)])).
Proof.
  unfold mmap. destruct (errno d) as [e d0] eqn:He.
  apply errno_spec in He as (Hd & Hf & Hm & Hs & Hl).
  destruct (_ && _); intros [= <- <-]; simpl; rewrite ?Hd, ?Hf, ?Hm, ?Hs, ?Hl;
    split_and!; try done; [right|by left].
  destruct (fresh_addr_spec (maps d)) as (? & ? & ?). done.
Qed.

(** Each request that can be refused takes the next answer of the device. *)
Lemma errno_answer d e d0 :
  errno d = (e, d0) → e = answer d 0 ∧ ∀ k, answer d0 k = answer d (S k).
Proof.
  unfold errno, answer. destruct (script d) as [|e' s] eqn:Hs; intros [= <- <-].
  - rewrite Hs. done.
  - done.
Qed.

Lemma ioctl_CREATE_DUMB_answer req d ret req' d' :
  ioctl_CREATE_DUMB req d = (ret, req', d') →
  (ret = 0 ↔ answer d 0 = 0) ∧ ∀ k, answer d' k = answer d (S k).
Proof.
  unfold ioctl_CREATE_DUMB. destruct (errno d) as [e d0] eqn:He.
  apply errno_answer in He as [-> Hk].
  destruct (Z.eqb_spec (answer d 0) 0); intros [= <- <- <-]; (split; [|exact Hk]);
    split; try done; lia.
Qed.

Lemma ModeAddFB2_answer w h f handles pitches offsets d ret res d' :
  ModeAddFB2 w h f handles pitches offsets d = (ret, res, d') →
  (ret = 0 ↔ answer d 0 = 0 ∧ handles !!! 0%nat ∈ dumbs d)
  ∧ ∀ k, answer d' k = answer d (S k).
Proof.
  unfold ModeAddFB2. destruct (errno d) as [e d0] eqn:He.
  pose proof (errno_spec _ _ _ He) as (Hd & _).
  apply errno_answer in He as [-> Hk]. rewrite Hd.
  destruct (Z.eqb_spec (answer d 0) 0) as [H0|H0]; simpl;
    [case_bool_decide|]; intros [= <- <- <-]; (split; [|exact Hk]);
    split; try done; try lia; naive_solver.
Qed.

Lemma ioctl_MAP_DUMB_answer handle d ret d' :
  ioctl_MAP_DUMB handle d = (ret, d') →
  (ret = 0 ↔ answer d 0 = 0 ∧ handle ∈ dumbs d)
  ∧ ∀ k, answer d' k = answer d (S k).
Proof.
  unfold ioctl_MAP_DUMB. destruct (errno d) as [e d0] eqn:He.
  pose proof (errno_spec _ _ _ He) as (Hd & _).
  apply errno_answer in He as [-> Hk]. rewrite Hd.
  destruct (Z.eqb_spec (answer d 0) 0) as [H0|H0]; simpl;
    [case_bool_decide|]; intros [= <- <-]; (split; [|exact Hk]);
    split; try done; naive_solver.
Qed.

Lemma mmap_answer len d addr d' :
  mmap len d = (addr, d') →
  (addr ≠ MAP_FAILED ↔ answer d 0 = 0 ∧ len ≠ 0)
  ∧ ∀ k, answer d' k = answer d (S k).
Proof.
  unfold mmap. destruct (errno d) as [e d0] eqn:He.
  pose proof (errno_spec _ _ _ He) as (_ & _ & Hm & _).
  apply errno_answer in He as [-> Hk].
  destruct (Z.eqb_spec (answer d 0) 0) as [H0|H0]; simpl;
    [destruct (Z.eqb_spec len 0)|]; simpl; intros [= <- <-]; (split; [|exact Hk]);
    split; try done; try naive_solver.
  intros _. destruct (fresh_addr_spec (maps d0)) as (_ & _ & ?). done.
Qed.

(** [drmModeAddFB2] whatever its handles are. *)
Lemma ModeAddFB2_any w h f handles pitches offsets d ret res d' :
  ModeAddFB2 w h f handles pitches offsets d = (ret, res, d') →
  dumb_size d' = dumb_size d ∧ dumbs d' = dumbs d ∧ maps d' = maps d ∧
  ((ret ≠ 0 ∧ res = None ∧ fbs d' = fbs d
    ∧ log d' = log d ++ [ADDFB2 w h f handles pitches offsets None])
   ∨ (ret = 0 ∧ ∃ fb, (fb ∉ fbs d) ∧ fb ≠ 0 ∧ res = Some fb
        ∧ fbs d' = {[fb]} ∪ fbs d
        ∧ log d' = log d ++ [ADDFB2 w h f handles pitches offsets (Some fb)])).
Proof.
  unfold ModeAddFB2. destruct (errno d) as [e d0] eqn:He.
  apply errno_spec in He as (Hd & Hf & Hm & Hs & Hl).
  destruct (Z.eqb_spec e 0); simpl; [case_bool_decide|]; intros [= <- <- <-]; simpl;
    rewrite ?Hd, ?Hf, ?Hm, ?Hs, ?Hl; split_and!; try done.
  - right. split; [done|].
    exists (fresh_id (fbs d)). destruct (fresh_id_spec (fbs d)). done.
  - left. split_and!; done.
  - left. split_and!; try done. lia.
Qed.
End DrmFacts.

Import DrmFacts.

(** ** Accounting *)

Section accounting.
Implicit Types (H base : gset Z * gset Z * gmap Z Z) (b : buffer).
Lemma del_add_buf b H : fresh_for b H → del_buf b (add_buf b H) = H.
Proof.
  destruct H as [[D F] M]. intros (Hd & Hf & Hm); simpl in *.
  unfold del_buf, add_buf; simpl.
  rewrite lookup_insert_eq, bool_decide_eq_true_2 by done.
  rewrite delete_insert_eq, delete_id by done.
  split_holding; set_solver.
Qed.

Lemma held_by_add b H : held_by b (add_buf b H).
Proof.
  destruct H as [[D F] M]. unfold held_by, add_buf; simpl.
  rewrite lookup_insert_eq. set_solver.
Qed.

Lemma held_by_add_other b b' H :
  fresh_for b' H → held_by b H → held_by b (add_buf b' H).
Proof.
  destruct H as [[D F] M]. unfold held_by, add_buf, fresh_for; simpl.
  intros (Hd & Hf & Hm) (Hd' & Hf' & Hm').
  rewrite lookup_insert_ne by congruence. set_solver.
Qed.

Lemma stacked_held_by base bs H b :
  stacked base bs H → b ∈ bs → held_by b H.
Proof.
  induction 1 as [|b' bs H Hst IH Hfr]; intros Hin.
  - by apply elem_of_nil in Hin.
  - apply elem_of_cons in Hin as [->|Hin].
    + apply held_by_add.
    + by apply held_by_add_other; [|apply IH].
Qed.

Lemma del_add_buf_comm b b' H :
  held_by b H → fresh_for b' H →
  del_buf b (add_buf b' H) = add_buf b' (del_buf b H) ∧ fresh_for b' (del_buf b H).
Proof.
  destruct H as [[D F] M]. unfold held_by, fresh_for, del_buf, add_buf; simpl.
  intros (Hd & Hf & Hm) (Hd' & Hf' & Hm').
  assert (b_addr b' ≠ b_addr b) by congruence.
  assert (b_handle b' ≠ b_handle b) by (intros Heq; by rewrite Heq in Hd').
  assert (b_fb b' ≠ b_fb b) by (intros Heq; by rewrite Heq in Hf').
  rewrite lookup_insert_ne by done.
  rewrite !bool_decide_eq_true_2 by done.
  rewrite delete_insert_ne by done. rewrite lookup_delete_ne by done.
  split; [|split_and!; [set_solver..|done]].
  split_holding; set_solver.
Qed.

(** Releasing the oldest buffer of a stack leaves the stack of the others. *)
Lemma stacked_del_oldest base bs b H :
  stacked base (bs ++ [b]) H → stacked base bs (del_buf b H).
Proof.
  revert H. induction bs as [|b' bs IH]; intros H Hst; simpl in *.
  - inversion Hst as [|? ? H0 Hst0 Hfr]; subst.
    inversion Hst0; subst. rewrite del_add_buf by done. constructor.
  - inversion Hst as [|? ? H0 Hst0 Hfr]; subst.
    assert (held_by b H0) as Hb.
    { eapply stacked_held_by; [done|]. set_solver. }
    destruct (del_add_buf_comm b b' H0 Hb Hfr) as [-> Hfr'].
    constructor; [by apply IH|done].
Qed.

Lemma held_DestroyFB d sys i :
  Drm.held (DestroyFB d sys i) = del_buf (buffer_of sys i) (Drm.held d).
Proof.
  unfold DestroyFB, Drm.held, del_buf, Drm.munmap; simpl.
  by case_bool_decide.
Qed.

(** [DestroyFB] over a stack of buffers, oldest first, gives [base] back. *)
Lemma held_DestroyFB_each base sys n start d :
  stacked base (reverse (buffer_of sys <$> seq start n)) (Drm.held d) →
  Drm.held (DestroyFB_each (seq start n) d sys) = base.
Proof.
  revert start d. induction n as [|n IH]; intros start d Hst; simpl in *.
  - by inversion Hst.
  - rewrite reverse_cons in Hst. apply stacked_del_oldest in Hst.
    rewrite <- held_DestroyFB in Hst. by apply IH in Hst.
Qed.
End accounting.

(** ** One buffer *)
Lemma CreateFB_layout_frame sys :
  let L := (CreateFB_layout sys).1 in
  sys_width L = sys_width sys ∧ sys_height L = sys_height sys
  ∧ sys_size L = sys_size sys ∧ sys_handle L = sys_handle sys
  ∧ sys_map L = sys_map sys ∧ sys_fb L = sys_fb sys
  ∧ sys_picture L = sys_picture sys ∧ sys_front_buf L = sys_front_buf sys
  ∧ sys_forced_drm_fourcc L = sys_forced_drm_fourcc sys
  ∧ sys_drm_fourcc L = sys_drm_fourcc sys ∧ sys_vlc_fourcc L = sys_vlc_fourcc sys
  ∧ sys_plane_id L = sys_plane_id sys
  ∧ length (sys_offsets L) = length (sys_offsets sys).
Proof.
  unfold CreateFB_layout.
  destruct (_ || _); [|destruct (_ =? _)]; simpl; rewrite ?length_insert; done.
Qed.

Lemma CreateFB_planes_ext n i h sys sys' arrs :
  sys_offsets sys' = sys_offsets sys → sys_stride sys' = sys_stride sys →
  CreateFB_planes n i h sys' arrs = CreateFB_planes n i h sys arrs.
Proof.
  intros Ho Hs. revert i arrs. induction n as [|n IH]; intros i arrs; simpl; [done|].
  rewrite Ho, Hs. destruct (_ || _); [|done]. destruct arrs as [[? ?] ?]. apply IH.
Qed.

Lemma CreateFB_planes_first n i h sys hs ps os :
  (0 < i)%nat →
  (CreateFB_planes n i h sys (hs, ps, os)).1.1 !!! 0%nat = hs !!! 0%nat.
Proof.
  revert i hs ps os. induction n as [|n IH]; intros i hs ps os Hi; simpl; [done|].
  destruct (_ || _); [|done]. rewrite IH by lia.
  apply list_lookup_total_insert_ne. lia.
Qed.

Lemma CreateFB_planes_handle0 h sys :
  (CreateFB_planes 4 0 h sys ([0; 0; 0; 0], [0; 0; 0; 0], [0; 0; 0; 0])).1.1 !!! 0%nat = h.
Proof.
  cbn [CreateFB_planes]. rewrite bool_decide_eq_true_2, orb_true_r by lia.
  repeat destruct (_ || _); done.
Qed.

Local Arguments CreateFB_planes : simpl never.

(** The fields [CreateFB] may write, and those it may not. *)
Lemma frame_intro sys buf (sysX : vout_display_sys_t) :
  let L := (CreateFB_layout sys).1 in
  sys_wf sys →
  sys_width sysX = sys_width L → sys_height sysX = sys_height L →
  sys_drm_fourcc sysX = sys_drm_fourcc L → sys_vlc_fourcc sysX = sys_vlc_fourcc L →
  sys_plane_id sysX = sys_plane_id L →
  sys_forced_drm_fourcc sysX = sys_forced_drm_fourcc L →
  sys_front_buf sysX = sys_front_buf L → sys_picture sysX = sys_picture L →
  sys_stride sysX = sys_stride L → sys_offsets sysX = sys_offsets L →
  (sys_handle sysX = sys_handle L
   ∨ ∃ x, sys_handle sysX = <[buf:=x]> (sys_handle L)) →
  (sys_fb sysX = sys_fb L ∨ (∃ x, sys_fb sysX = <[buf:=x]> (sys_fb L))
   ∨ ∃ x y, sys_fb sysX = <[buf:=y]> (<[buf:=x]> (sys_fb L))) →
  (sys_map sysX = sys_map L ∨ ∃ x, sys_map sysX = <[buf:=x]> (sys_map L)) →
  frame sys sysX buf.
Proof.
  intros L (Hlh & Hlm & Hlf & Hlo) X1 X2 X3 X4 X5 X6 X7 X8 Hs Ho Hx Hy Hw.
  destruct (CreateFB_layout_frame sys)
    as (Lw & Lh & Lsz & Lha & Lm & Lf & Lp & Lfr & Lfo & Ldr & Lv & Lpl & Llen).
  fold L in Lw, Lh, Lsz, Lha, Lm, Lf, Lp, Lfr, Lfo, Ldr, Lv, Lpl, Llen.
  unfold frame, sys_wf. fold L.
  rewrite X1, X2, X3, X4, X5, X6, X7, X8, Hs, Ho.
  split_and!; try done.
  - destruct Hx as [->|[? ->]]; rewrite ?length_insert; congruence.
  - destruct Hw as [->|[? ->]]; rewrite ?length_insert; congruence.
  - destruct Hy as [->|[[? ->]|(? & ? & ->)]]; rewrite ?length_insert; congruence.
  - congruence.
  - intros i Hi. destruct Hx as [->|[? ->]];
      rewrite ?list_lookup_total_insert_ne by done; congruence.
  - intros i Hi. destruct Hy as [->|[[? ->]|(? & ? & ->)]];
      rewrite ?list_lookup_total_insert_ne by done; congruence.
  - intros i Hi. destruct Hw as [->|[? ->]];
      rewrite ?list_lookup_total_insert_ne by done; congruence.
Qed.

Lemma wrap32_minus_1 : (wrap32 (-1) <? 0) = false.
Proof. done. Qed.

(** [CreateFB] after a refused CREATE_DUMB.  The test [ret < 0] does not
    see the refusal: the handle 0 and the size 0 of the untouched request
    are recorded, and the calls that follow fail, at the latest the mapping
    of length 0. *)
Lemma CreateFB_create_refused d sys buf r d' sys' :
  sys_wf sys → (buf < MAXHWBUF)%nat → Drm.answer d 0 ≠ 0 →
  CreateFB d sys buf = (r, d', sys') →
  frame sys sys' buf ∧ Drm.dumb_size d' = Drm.dumb_size d
  ∧ r = drvFail
  ∧ Drm.held d' = (Drm.dumbs d ∖ {[0]}, Drm.fbs d, Drm.maps d)
  ∧ sys_size sys' = 0 ∧ sys_handle sys' !!! buf = 0
  ∧ ∃ rs, Drm.log d' = Drm.log d ++ req_create sys None :: rs
          ∧ Forall (λ q, Drm.is_alloc q = false) rs.
Proof.
  intros Hwf Hbuf Hans. pose proof Hwf as (Hlh & Hlm & Hlf & Hlo).
  unfold CreateFB, req_create.
  pose proof (λ X, frame_intro sys buf X Hwf) as Hframe.
  pose proof (CreateFB_layout_frame sys) as HL.
  destruct (CreateFB_layout sys) as [L H] eqn:HLeq; simpl in HL, Hframe |- *.
  destruct HL as (Lw & Lh & Lsz & Lha & Lm & Lf & Lp & Lfr & Lfo & Ldr & Lv & Lpl & Llen).
  destruct (Drm.ioctl_CREATE_DUMB _ d) as [[ret req'] d1] eqn:E1.
  pose proof (ioctl_CREATE_DUMB_answer _ _ _ _ _ E1) as [A1 _].
  apply ioctl_CREATE_DUMB_spec in E1
    as (S1 & F1 & M1 & [(-> & -> & D1 & G1)|(-> & _)]);
    [|exfalso; by apply Hans, A1].
  rewrite wrap32_minus_1. simpl in *. rewrite Lw in *.
  assert (<[buf:=0]> (sys_handle L) !!! buf = 0) as HhA.
  { apply list_lookup_total_insert_eq. rewrite Lha, Hlh. done. }
  set (sysA := set_handle _ (set_size _ L)).
  rewrite (CreateFB_planes_ext 4 0 0 L sysA) by done.
  destruct (CreateFB_planes 4 0 0 L _) as [[hs ps] os] eqn:EP.
  destruct (Drm.ModeAddFB2 _ _ _ _ _ _ d1) as [[ret2 res2] d2] eqn:E2.
  apply ModeAddFB2_any in E2 as (S2 & D2 & M2 & E2).
  subst sysA; simpl in *.
  destruct E2 as [(Hret & -> & F2 & G2)|(-> & fb & Hfb & Hfb0 & -> & F2 & G2)].
  { rewrite (proj2 (Z.eqb_neq _ _) Hret); simpl.
    intros [= <- <- <-]; simpl. split; [apply Hframe; simpl; eauto|].
    rewrite HhA. unfold Drm.held; simpl.
    rewrite D2, D1, F2, F1, M2, M1, G2, G1, <- !app_assoc.
    split_and!; try congruence; try done.
    eexists. split; [done|]. by repeat constructor. }
  simpl. rewrite HhA. rewrite F1 in Hfb.
  assert (<[buf:=fb]> (sys_fb L) !!! buf = fb) as HfB.
  { apply list_lookup_total_insert_eq. rewrite Lf, Hlf. done. }
  destruct (Drm.ioctl_MAP_DUMB 0 d2) as [ret3 d3] eqn:E3.
  apply ioctl_MAP_DUMB_spec in E3 as (S3 & D3 & F3 & M3 & [(-> & G3)|(-> & G3)]); simpl.
  { unfold CreateFB_err_fb, CreateFB_err_destroy; simpl.
    intros [= <- <- <-]; simpl. split; [apply Hframe; simpl; eauto 10|].
    rewrite HhA, HfB. unfold Drm.held; simpl.
    rewrite D3, D2, D1, F3, F2, F1, M3, M2, M1, G3, G2, G1, <- !app_assoc.
    split_and!; try congruence; try done.
    - split_holding; set_solver.
    - eexists. split; [done|]. by repeat constructor. }
  destruct (Drm.mmap _ d3) as [addr d4] eqn:E4.
  pose proof (mmap_answer _ _ _ _ E4) as [A4 _].
  apply mmap_spec in E4
    as (S4 & D4 & F4 & [(-> & M4 & G4)|(Ha1 & _)]); [|apply A4 in Ha1 as [_ ?]; done].
  simpl. unfold CreateFB_err_fb, CreateFB_err_destroy; simpl.
  intros [= <- <- <-]; simpl. split; [apply Hframe; simpl; eauto 10|].
  rewrite HhA, HfB. unfold Drm.held; simpl.
  rewrite D4, D3, D2, D1, F4, F3, F2, F1, M4, M3, M2, M1, G4, G3, G2, G1, <- !app_assoc.
  split_and!; try congruence; try done.
  - split_holding; set_solver.
  - eexists. split; [done|]. by repeat constructor.
Qed.

(** The ways through [CreateFB], by the answers of the device: the
    allocation refused, or granted and then each of the three requests that
    follow refused in turn (the mapping also for a length of 0), or all of
    them granted.  For each, what [sys] records, what the device holds and
    what was requested. *)
Lemma CreateFB_cases d sys buf r d' sys' :
  sys_wf sys → (buf < MAXHWBUF)%nat → CreateFB d sys buf = (r, d', sys') →
  let sz := wrap64 (Drm.dumb_size d (sys_width sys) (CreateFB_layout sys).2 32) in
  frame sys sys' buf ∧ Drm.dumb_size d' = Drm.dumb_size d ∧
  ((Drm.answer d 0 ≠ 0 ∧ r = drvFail
    ∧ Drm.held d' = (Drm.dumbs d ∖ {[0]}, Drm.fbs d, Drm.maps d)
    ∧ sys_size sys' = 0 ∧ sys_handle sys' !!! buf = 0
    ∧ ∃ rs, Drm.log d' = Drm.log d ++ req_create sys None :: rs
            ∧ Forall (λ q, Drm.is_alloc q = false) rs)
   ∨ Drm.answer d 0 = 0
     ∧ ∃ h, (h ∉ Drm.dumbs d) ∧ h ≠ 0 ∧ sys_handle sys' !!! buf = h
       ∧ sys_size sys' = wrap32 sz ∧
     ((Drm.answer d 1 ≠ 0 ∧ r = drvFail ∧ Drm.held d' = Drm.held d
       ∧ Drm.log d' = Drm.log d ++
           [req_create sys (Some (h, sz)); req_addfb sys h None; Drm.DESTROY_DUMB h])
      ∨ Drm.answer d 1 = 0 ∧ ∃ fb, (fb ∉ Drm.fbs d) ∧ fb ≠ 0 ∧
        ((Drm.answer d 2 ≠ 0 ∧ r = drvFail ∧ Drm.held d' = Drm.held d
          ∧ Drm.log d' = Drm.log d ++
              [req_create sys (Some (h, sz)); req_addfb sys h (Some fb);
               Drm.MAP_DUMB h false; Drm.RMFB fb; Drm.DESTROY_DUMB h])
         ∨ (Drm.answer d 2 = 0 ∧ (Drm.answer d 3 ≠ 0 ∨ wrap32 sz = 0)
            ∧ r = drvFail ∧ Drm.held d' = Drm.held d
            ∧ Drm.log d' = Drm.log d ++
                [req_create sys (Some (h, sz)); req_addfb sys h (Some fb);
                 Drm.MAP_DUMB h true; Drm.MMAP (wrap32 sz) None;
                 Drm.RMFB fb; Drm.DESTROY_DUMB h])
         ∨ (Drm.answer d 2 = 0 ∧ Drm.answer d 3 = 0 ∧ wrap32 sz ≠ 0
            ∧ r = drvSuccess ∧ ∃ a, a ≠ 0 ∧ a ≠ Drm.MAP_FAILED
            ∧ buffer_of sys' buf = Buffer h fb a (wrap32 sz)
            ∧ fresh_for (Buffer h fb a (wrap32 sz)) (Drm.held d)
            ∧ Drm.held d' = add_buf (Buffer h fb a (wrap32 sz)) (Drm.held d)
            ∧ Drm.log d' = Drm.log d ++
                [req_create sys (Some (h, sz)); req_addfb sys h (Some fb);
                 Drm.MAP_DUMB h true; Drm.MMAP (wrap32 sz) (Some a)]
            ∧ ∀ k, Drm.answer d' k = Drm.answer d (4 + k))))).
Proof.
  intros Hwf Hbuf Hc.
  destruct (decide (Drm.answer d 0 = 0)) as [Hans|Hans]; first last.
  { destruct (CreateFB_create_refused _ _ _ _ _ _ Hwf Hbuf Hans Hc)
      as (? & ? & ? & ? & ? & ? & ?).
    split; [done|]. split; [done|]. left. done. }
  revert Hc. pose proof Hwf as (Hlh & Hlm & Hlf & Hlo).
  unfold CreateFB, req_create, req_addfb.
  pose proof (λ X, frame_intro sys buf X Hwf) as Hframe.
  pose proof (CreateFB_layout_frame sys) as HL.
  destruct (CreateFB_layout sys) as [L H] eqn:HLeq; simpl in HL, Hframe |- *.
  destruct HL as (Lw & Lh & Lsz & Lha & Lm & Lf & Lp & Lfr & Lfo & Ldr & Lv & Lpl & Llen).
  destruct (Drm.ioctl_CREATE_DUMB _ d) as [[ret req'] d1] eqn:E1.
  pose proof (ioctl_CREATE_DUMB_answer _ _ _ _ _ E1) as [A1 K1].
  apply ioctl_CREATE_DUMB_spec in E1
    as (S1 & F1 & M1 & [(-> & _)|(-> & h & Hh & Hh0 & -> & D1 & G1)]);
    [by apply A1 in Hans|].
  change (wrap32 0 <? 0) with false. simpl in *.
  rewrite Lw in *.
  set (sz := wrap64 (Drm.dumb_size d (sys_width sys) H 32)) in *.
  set (sysA := set_handle _ (set_size _ L)).
  rewrite (CreateFB_planes_ext 4 0 h L sysA) by done.
  pose proof (CreateFB_planes_handle0 h L) as HP0.
  destruct (CreateFB_planes 4 0 h L _) as [[hs ps] os] eqn:EP; simpl in HP0.
  assert (<[buf:=h]> (sys_handle L) !!! buf = h) as HhA.
  { apply list_lookup_total_insert_eq. rewrite Lha, Hlh. done. }
  assert (h ∈ Drm.dumbs d1) as Hlive by (rewrite D1; set_solver).
  destruct (Drm.ModeAddFB2 _ _ _ _ _ _ d1) as [[ret2 res2] d2] eqn:E2.
  pose proof (ModeAddFB2_answer _ _ _ _ _ _ _ _ _ _ E2) as [A2 K2].
  simpl in A2. rewrite HP0, K1 in A2.
  apply ModeAddFB2_spec in E2 as (S2 & D2 & M2 & E2); [|simpl; by rewrite HP0].
  subst sysA; simpl in *. rewrite Lh, Ldr in *.
  destruct E2 as [(Hret & -> & F2 & G2)|(-> & fb & Hfb & Hfb0 & -> & F2 & G2)].
  { rewrite (proj2 (Z.eqb_neq _ _) Hret); simpl.
    intros [= <- <- <-]; simpl. split; [|split; [congruence|]].
    - apply Hframe; simpl; eauto.
    - right. split; [done|]. exists h. rewrite EP, HhA. split_and!; try done. left.
      unfold Drm.held; simpl. rewrite D2, D1, F2, F1, M2, M1, G2, G1.
      split_and!; [naive_solver| done | |by rewrite <- !app_assoc].
      split_holding. set_solver. }
  assert (Drm.answer d 1 = 0) as Hans1 by (by apply A2).
  simpl. rewrite HhA. rewrite F1 in Hfb.
  assert (<[buf:=fb]> (sys_fb L) !!! buf = fb) as HfB.
  { apply list_lookup_total_insert_eq. rewrite Lf, Hlf. done. }
  destruct (Drm.ioctl_MAP_DUMB h d2) as [ret3 d3] eqn:E3.
  pose proof (ioctl_MAP_DUMB_answer _ _ _ _ E3) as [A3 K3].
  rewrite K2, K1, D2 in A3.
  apply ioctl_MAP_DUMB_spec in E3 as (S3 & D3 & F3 & M3 & [(-> & G3)|(-> & G3)]); simpl.
  { unfold CreateFB_err_fb, CreateFB_err_destroy; simpl.
    intros [= <- <- <-]; simpl. split; [|split; [congruence|]].
    - apply Hframe; simpl; eauto 10.
    - right. split; [done|]. exists h. rewrite EP, HhA, HfB. split_and!; try done.
      right. split; [done|]. exists fb. split_and!; try done. left.
      unfold Drm.held; simpl. rewrite D3, D2, D1, F3, F2, F1, M3, M2, M1, G3, G2, G1.
      split_and!; [naive_solver|done| |by rewrite <- !app_assoc].
      split_holding; set_solver. }
  assert (Drm.answer d 2 = 0) as Hans2 by (by apply A3).
  destruct (Drm.mmap _ d3) as [addr d4] eqn:E4.
  pose proof (mmap_answer _ _ _ _ E4) as [A4 K4].
  rewrite K3, K2, K1 in A4.
  apply mmap_spec in E4
    as (S4 & D4 & F4 & [(-> & M4 & G4)|(Ha1 & Ha0 & Hafr & M4 & G4)]); simpl.
  { unfold CreateFB_err_fb, CreateFB_err_destroy; simpl.
    intros [= <- <- <-]; simpl. split; [|split; [congruence|]].
    - apply Hframe; simpl; eauto 10.
    - right. split; [done|]. exists h. rewrite EP, HhA, HfB. split_and!; try done.
      right. split; [done|]. exists fb. split_and!; try done. right; left.
      unfold Drm.held; simpl.
      rewrite D4, D3, D2, D1, F4, F3, F2, F1, M4, M3, M2, M1, G4, G3, G2, G1.
      split_and!; [done| |done| |by rewrite <- !app_assoc].
      + destruct (decide (Drm.answer d 3 = 0)) as [H3|H3]; [|by left].
        right. destruct (decide (wrap32 sz = 0)) as [?|Hsz0]; [done|].
        exfalso. by apply (proj2 A4).
      + split_holding; set_solver. }
  apply A4 in Ha1 as Hans34. destruct Hans34 as [Hans3 Hsz0].
  rewrite (proj2 (Z.eqb_neq _ _) Ha1).
  intros [= <- <- <-]; simpl. split; [|split; [congruence|]].
  - apply Hframe; simpl; eauto 10.
  - right. split; [done|]. exists h. rewrite EP, HhA. split_and!; try done.
    right. split; [done|]. exists fb. split_and!; try done.
    right; right. split; [done|]. split; [done|]. split; [done|]. split; [done|].
    exists addr.
    rewrite M3, M2, M1 in Hafr.
    unfold buffer_of, fresh_for, add_buf, Drm.held; simpl.
    rewrite HhA, HfB, list_lookup_total_insert_eq by (rewrite Lm, Hlm; done).
    rewrite D4, D3, D2, D1, F4, F3, F2, F1, M4, M3, M2, M1, G4, G3, G2, G1.
    split_and!; try done; [by rewrite <- !app_assoc|].
    intros k. by rewrite K4, K3, K2, K1.
Qed.

Lemma CreateFB_layout_height s1 s :
  sys_height s1 = sys_height s → sys_drm_fourcc s1 = sys_drm_fourcc s →
  (CreateFB_layout s1).2 = (CreateFB_layout s).2.
Proof.
  intros Hh Hf. unfold CreateFB_layout. rewrite Hf.
  destruct (_ || _); [|destruct (_ =? _)]; simpl; by rewrite Hh.
Qed.

Lemma is_release_req_addfb sys h res : is_release (req_addfb sys h res) = false.
Proof. unfold req_addfb. by destruct (CreateFB_planes _ _ _ _ _) as [[? ?] ?]. Qed.

Lemma CreateFB_summary d sys buf r d' sys' :
  sys_wf sys → (buf < MAXHWBUF)%nat → CreateFB d sys buf = (r, d', sys') →
  frame sys sys' buf ∧ expected_size d' sys' = expected_size d sys ∧
  ((r = drvSuccess ∧ sys_size sys' = expected_size d sys
    ∧ fresh_for (buffer_of sys' buf) (Drm.held d)
    ∧ Drm.held d' = add_buf (buffer_of sys' buf) (Drm.held d)
    ∧ b_handle (buffer_of sys' buf) ≠ 0
    ∧ (∀ k, Drm.answer d' k = Drm.answer d (4 + k))
    ∧ ∃ rs, Drm.log d' = Drm.log d ++ rs ∧ Forall (λ q, is_release q = false) rs)
   ∨ (r = drvFail ∧ Drm.answer d 0 = 0
      ∧ sys_size sys' = expected_size d sys ∧ Drm.held d' = Drm.held d)
   ∨ (r = drvFail ∧ Drm.answer d 0 ≠ 0 ∧ sys_size sys' = 0
      ∧ Drm.held d' = (Drm.dumbs d ∖ {[0]}, Drm.fbs d, Drm.maps d))).
Proof.
  intros Hwf Hbuf Hc.
  destruct (CreateFB_cases _ _ _ _ _ _ Hwf Hbuf Hc) as (Hfr & Hds & Hcases).
  split; [done|]. split.
  { unfold expected_size. rewrite Hds.
    destruct Hfr as (-> & Hh & Hf & _). by rewrite (CreateFB_layout_height sys' sys). }
  fold (expected_size d sys) in Hcases.
  destruct Hcases as [(? & -> & ? & ? & ? & ?)|(? & h & ? & ? & ? & Hsz & Hcases)].
  { right; right. done. }
  destruct Hcases as [(? & -> & ? & ?)|(? & fb & ? & ? & [(? & -> & ? & ?)|[(? & ? & -> & ? & ?)|(? & ? & ? & -> & a & ? & ? & Hb & ? & ? & Hlog & ?)]])];
    try (right; left; done).
  left. rewrite Hb. split_and!; try done.
  eexists; split; [done|]. repeat constructor. apply is_release_req_addfb.
Qed.

Lemma ring_S sys c : ring sys (S c) = buffer_of sys c :: ring sys c.
Proof. unfold ring. by rewrite seq_S, fmap_app, reverse_app. Qed.

Lemma ring_ext sys sys' c :
  (∀ i, (i < c)%nat → buffer_of sys' i = buffer_of sys i) → ring sys' c = ring sys c.
Proof.
  intros Hext. unfold ring. f_equal. apply list_fmap_ext.
  intros i x Hx%lookup_seq. apply Hext. lia.
Qed.

Lemma frame_buffer_of sys sys' buf i :
  frame sys sys' buf → sys_size sys' = sys_size sys → i ≠ buf →
  buffer_of sys' i = buffer_of sys i.
Proof.
  intros (_ & _ & _ & _ & _ & _ & _ & _ & _ & _ & _ & Hh & Hf & Hm) Hs Hi.
  unfold buffer_of. by rewrite Hh, Hf, Hm, Hs.
Qed.

Lemma frame_wf sys sys' buf : frame sys sys' buf → sys_wf sys'.
Proof. intros H. apply H. Qed.

(** The invariant of the buffer loop of [Open]: before index [c] the device
    holds [base] and the buffers [sys] records below [c].  The loop ends
    with all buffers stacked on [base], or it fails.  After a failure the
    device holds [base] again, provided no allocation was refused once a
    buffer existed: a refused allocation sets [sys->size] to 0, and the
    [munmap] of the buffers made before, with that length, releases
    nothing. *)
Lemma Open_buffers_inv base n c d sys r d' sys' :
  sys_wf sys → (c + n ≤ MAXHWBUF)%nat →
  stacked base (ring sys c) (Drm.held d) →
  ((0 < c)%nat → sys_size sys = expected_size d sys) →
  Open_buffers (seq c n) d sys = (r, d', sys') →
  (r = drvSuccess ∧ stacked base (ring sys' (c + n)) (Drm.held d')
   ∧ sys_wf sys'
   ∧ ∃ rs, Drm.log d' = Drm.log d ++ rs ∧ Forall (λ q, is_release q = false) rs)
  ∨ (r = drvFail
     ∧ (c = 0%nat ∨ Drm.answer d 0 = 0 →
        (∀ j, (0 < j < n)%nat → Drm.answer d (4 * j) = 0) →
        0 ∉ Drm.dumbs d →
        Drm.held d' = base)).
Proof.
  revert c d sys. induction n as [|n IH]; intros c d sys Hwf Hcn Hst Hsz; simpl.
  - intros [= <- <- <-]. left. rewrite Nat.add_0_r. split_and!; try done.
    exists []. by rewrite app_nil_r.
  - destruct (CreateFB d sys c) as [[r1 d1] sys1] eqn:Hc.
    apply CreateFB_summary in Hc as (Hfr & Hes & Hcases); [|done|lia].
    destruct Hcases
      as [(-> & Hsz' & Hfresh & Hheld & Hh0 & Hk & rs & Hlog & Hrs)
         |[(-> & Hans & Hsz' & Hheld)|(-> & Hans & Hsz' & Hheld)]].
    + assert (∀ i, (i < c)%nat → buffer_of sys1 i = buffer_of sys i) as Hring.
      { intros i Hi. eapply frame_buffer_of; [done| |lia].
        rewrite Hsz', Hsz; [done|lia]. }
      rewrite bool_decide_eq_false_2 by (by intros []).
      intros Hrest. pose proof Hrest as Hrest0. apply IH in Hrest; first last.
      * intros _. by rewrite Hes.
      * rewrite ring_S, (ring_ext sys sys1) by done. rewrite Hheld. by constructor.
      * lia.
      * by eapply frame_wf.
      * destruct Hrest as [(-> & Hst' & Hwf' & rs' & Hlog' & Hrs')|(-> & Hfail)].
        -- left. rewrite <- Nat.add_succ_comm. split_and!; try done.
           exists (rs ++ rs'). rewrite Hlog', Hlog, app_assoc. split; [done|].
           by apply Forall_app.
        -- right. split; [done|]. intros _ Hgranted Hd0.
           assert (n ≠ 0)%nat as Hn.
           { intros ->. simpl in Hrest0. done. }
           apply Hfail.
           ++ right. rewrite Hk. replace (4 + 0)%nat with (4 * 1)%nat by lia.
              apply Hgranted. lia.
           ++ intros j Hj. rewrite Hk.
              replace (4 + 4 * j)%nat with (4 * S j)%nat by lia. apply Hgranted. lia.
           ++ unfold Drm.held, add_buf in Hheld. simpl in Hheld.
              injection Hheld as -> _ _. set_solver.
    + assert (∀ i, (i < c)%nat → buffer_of sys1 i = buffer_of sys i) as Hring.
      { intros i Hi. eapply frame_buffer_of; [done| |lia].
        rewrite Hsz', Hsz; [done|lia]. }
      rewrite bool_decide_eq_true_2 by done. intros [= <- <- <-]. right.
      split; [done|]. intros _ _ _. apply held_DestroyFB_each.
      fold (ring sys1 c). rewrite (ring_ext sys sys1), Hheld by done. done.
    + rewrite bool_decide_eq_true_2 by done. intros [= <- <- <-]. right.
      split; [done|]. intros [->|?] _ Hd0; [|done]. simpl.
      rewrite Hheld. inversion Hst; subst.
      unfold Drm.held. split_holding. set_solver.
Qed.

(** * The claims *)

(** ** Format table *)

(** C9.  [CheckFourCCList] (markPresent) touches at most the first entry whose
    DRM code matches, and only when that entry is not yet present: it then
    becomes present with the given plane id, every other entry stays as it
    was.  A call for a format whose entry is already present changes
    nothing, so a second call for the same format is a no-op, and whatever
    calls follow, the entry keeps the plane id of the first call that
    found it. *)
Theorem CheckFourCCList_first_plane_wins
    (tbl : list fourccmatching_t) (drmfourcc plane_id : Z) :
  CheckFourCCList drmfourcc plane_id tbl =
    match list_find (λ e, fm_drm e = drmfourcc) tbl with
    | Some (i, e) =>
        if fm_present e then tbl else <[i := mark_present e plane_id]> tbl
    | None => tbl
    end
  ∧ (∀ plane_id',
       CheckFourCCList drmfourcc plane_id' (CheckFourCCList drmfourcc plane_id tbl)
       = CheckFourCCList drmfourcc plane_id tbl)
  ∧ (∀ i e calls,
       list_find (λ e, fm_drm e = drmfourcc) tbl = Some (i, e) →
       CheckFourCCList_seq calls (CheckFourCCList drmfourcc plane_id tbl) !! i
       = Some (if fm_present e then e else mark_present e plane_id)).
Proof.
  split_and!.
  - apply CheckFourCCList_find.
  - intros p'. apply CheckFourCCList_idem.
  - intros i e calls Hfind.
    apply CheckFourCCList_seq_present_stable.
    + rewrite CheckFourCCList_find, Hfind.
      apply list_find_Some in Hfind as (Hi & _ & _).
      destruct (fm_present e); [done|].
      apply list_lookup_insert_eq. by eapply lookup_lt_Some.
    + by destruct (fm_present e) eqn:Hp.
Qed.

(** The NV12 entry of the static table, found on plane 32 and then offered
    on planes 33 and 34, keeps plane 32. *)
Lemma CheckFourCCList_first_plane_wins_witness :
  CheckFourCCList_seq [(DRM_FORMAT_NV12, 33); (DRM_FORMAT_XRGB8888, 33);
                       (DRM_FORMAT_NV12, 34)]
    (CheckFourCCList DRM_FORMAT_NV12 32 fourccmatching) !! 3%nat
  = Some (Fourcc DRM_FORMAT_NV12 VLC_CODEC_NV12 32 true true).
Proof.
  exact (proj2 (proj2 (CheckFourCCList_first_plane_wins fourccmatching
                         DRM_FORMAT_NV12 32))
           3%nat (fm_static DRM_FORMAT_NV12 VLC_CODEC_NV12 true) _ eq_refl).
Defined.

(** ** Buffer layout *)

Lemma wrap32_small v : 0 ≤ v < 2 ^ 32 → wrap32 v = v.
Proof. intros ?. unfold wrap32. by apply Z.mod_small. Qed.

Lemma wrap64_small v : 0 ≤ v < 2 ^ 64 → wrap64 v = v.
Proof. intros ?. unfold wrap64. by apply Z.mod_small. Qed.

(** Under the bounds of [layout_fits] the switch of [CreateFB] computes the
    layout of the specification. *)
Lemma CreateFB_layout_exact sys o1 :
  let l := spec_layout (sys_drm_fourcc sys) (sys_width sys) (sys_height sys) in
  0 ≤ sys_width sys < 2 ^ 32 → 0 ≤ sys_height sys < 2 ^ 32 →
  layout_fits l →
  sys_offsets sys = [0; o1; 0; 0; 0] → o1 = 0 ∨ o1 = l_chroma_offset l →
  sys_stride (CreateFB_layout sys).1 = l_stride l
  ∧ sys_offsets (CreateFB_layout sys).1 = [0; l_chroma_offset l; 0; 0; 0]
  ∧ (CreateFB_layout sys).2 = l_alloc_height l.
Proof.
  intros l Hw Hh (Hs & Hc & Ha) Ho Ho1. subst l.
  unfold spec_layout, CreateFB_layout in *.
  pose proof (align_up_bounds (sys_height sys) 16 ltac:(lia) ltac:(lia)) as Bh.
  destruct (Z.eqb_spec (sys_drm_fourcc sys) DRM_FORMAT_P010) as [E0|N0];
  [|destruct (Z.eqb_spec (sys_drm_fourcc sys) DRM_FORMAT_P012) as [E1|N1];
    [|destruct (Z.eqb_spec (sys_drm_fourcc sys) DRM_FORMAT_P016) as [E2|N2]]].
  1-3: rewrite bool_decide_eq_true_2 in * by (rewrite ?E0, ?E1, ?E2; set_solver);
    simpl in *;
    pose proof (align_up_bounds (sys_width sys * 2) 512 ltac:(lia) ltac:(lia)) as Bw;
    rewrite (wrap32_small (sys_width sys * 2)) by lia;
    rewrite vlc_align_tile_width, vlc_align_tile_height by lia;
    rewrite (wrap32_small (align_up _ 512)) by lia;
    rewrite !wrap64_small, !wrap32_small by nia; by rewrite Ho.
  rewrite bool_decide_eq_false_2 in * by set_solver. simpl in *.
  destruct (Z.eqb_spec (sys_drm_fourcc sys) DRM_FORMAT_NV12) as [E3|N3].
  - rewrite bool_decide_eq_true_2 in * by done. simpl in *.
    pose proof (align_up_bounds (sys_width sys) 512 ltac:(lia) ltac:(lia)) as Bw.
    rewrite vlc_align_tile_width, vlc_align_tile_height by lia.
    rewrite (wrap32_small (align_up _ 512)) by lia.
    rewrite !wrap64_small, !wrap32_small by nia. by rewrite Ho.
  - rewrite bool_decide_eq_false_2 in * by done. simpl in *.
    pose proof (align_up_bounds (sys_width sys * 4) 512 ltac:(lia) ltac:(lia)) as Bw.
    rewrite (wrap32_small (sys_width sys * 4)) by lia.
    rewrite vlc_align_tile_width, vlc_align_tile_height by lia.
    rewrite !wrap32_small by lia. rewrite Ho. destruct Ho1; by subst.
Qed.

Lemma req_addfb_planes sys h res c :
  sys_offsets (CreateFB_layout sys).1 = [0; c; 0; 0; 0] →
  req_addfb sys h res =
    let l := Layout (sys_stride (CreateFB_layout sys).1) c 0 in
    let '(handles, pitches, offsets) := layout_planes l h in
    Drm.ADDFB2 (sys_width sys) (sys_height sys) (sys_drm_fourcc sys)
      handles pitches offsets res.
Proof.
  intros Ho. unfold req_addfb, layout_planes. cbv [CreateFB_planes].
  rewrite Ho. simpl. destruct (c =? 0); done.
Qed.

Lemma wrap32_wrap64 v : wrap32 (wrap64 v) = wrap32 v.
Proof. unfold wrap32, wrap64. apply Z.mod_mod_divide. by exists (2 ^ 32). Qed.

Lemma wrap32_bounds v : 0 ≤ wrap32 v < 2 ^ 32.
Proof. unfold wrap32. apply Z.mod_pos_bound. lia. Qed.

Lemma wrap32_mul_l a b : wrap32 (wrap32 a * b) = wrap32 (a * b).
Proof. unfold wrap32. by rewrite Z.mul_mod_idemp_l by lia. Qed.

(** Rounding up to the tile width commutes with the reduction. *)
Lemma wrap32_align_up v : wrap32 (align_up (wrap32 v) 512) = wrap32 (align_up v 512).
Proof.
  unfold wrap32, align_up.
  set (q := v / 2 ^ 32). set (r := v mod 2 ^ 32).
  assert (v + 512 - 1 = 2 ^ 23 * q * 512 + (r + 512 - 1)) as ->
    by (pose proof (Z.div_mod v (2 ^ 32)); subst q r; lia).
  rewrite Z.div_add_l by lia.
  replace ((2 ^ 23 * q + (r + 512 - 1) / 512) * 512)
    with ((r + 512 - 1) / 512 * 512 + q * 2 ^ 32) by lia.
  by rewrite Z.mod_add by lia.
Qed.

(** Whatever the dimensions, the switch of [CreateFB] computes the layout of
    the specification modulo 2^32. *)
Lemma CreateFB_layout_modulo sys o1 :
  let l := spec_layout (sys_drm_fourcc sys) (sys_width sys) (sys_height sys) in
  0 ≤ sys_width sys < 2 ^ 32 → 0 ≤ sys_height sys < 2 ^ 32 →
  sys_offsets sys = [0; o1; 0; 0; 0] → o1 = 0 ∨ o1 = wrap32 (l_chroma_offset l) →
  sys_stride (CreateFB_layout sys).1 = wrap32 (l_stride l)
  ∧ sys_offsets (CreateFB_layout sys).1 = [0; wrap32 (l_chroma_offset l); 0; 0; 0]
  ∧ (CreateFB_layout sys).2 = wrap32 (l_alloc_height l).
Proof.
  intros l Hw Hh Ho Ho1. subst l.
  unfold spec_layout, CreateFB_layout in *.
  destruct (Z.eqb_spec (sys_drm_fourcc sys) DRM_FORMAT_P010) as [E0|N0];
  [|destruct (Z.eqb_spec (sys_drm_fourcc sys) DRM_FORMAT_P012) as [E1|N1];
    [|destruct (Z.eqb_spec (sys_drm_fourcc sys) DRM_FORMAT_P016) as [E2|N2]]].
  1-3: rewrite bool_decide_eq_true_2 in * by (rewrite ?E0, ?E1, ?E2; set_solver);
    simpl in *;
    rewrite vlc_align_tile_width by apply wrap32_bounds;
    rewrite vlc_align_tile_height by lia;
    rewrite !wrap32_wrap64, wrap32_align_up, wrap32_mul_l; by rewrite Ho.
  rewrite bool_decide_eq_false_2 in * by set_solver. simpl in *.
  destruct (Z.eqb_spec (sys_drm_fourcc sys) DRM_FORMAT_NV12) as [E3|N3].
  - rewrite bool_decide_eq_true_2 in * by done. simpl in *.
    rewrite vlc_align_tile_width, vlc_align_tile_height by lia.
    rewrite !wrap32_wrap64, wrap32_mul_l. by rewrite Ho.
  - rewrite bool_decide_eq_false_2 in * by done. simpl in *.
    rewrite vlc_align_tile_width by apply wrap32_bounds.
    rewrite vlc_align_tile_height by lia.
    rewrite wrap32_align_up, Ho. destruct Ho1; by subst.
Qed.

(** A layout that fits is not changed by the reduction. *)
Lemma wrap_layout_fits fourcc width height :
  0 ≤ width → 0 ≤ height →
  layout_fits (spec_layout fourcc width height) →
  wrap_layout (spec_layout fourcc width height) = spec_layout fourcc width height.
Proof.
  intros Hw Hh.
  pose proof (align_up_bounds height 16 ltac:(lia) ltac:(lia)).
  pose proof (align_up_bounds width 512 ltac:(lia) ltac:(lia)).
  pose proof (align_up_bounds (width * 2) 512 ltac:(lia) ltac:(lia)).
  pose proof (align_up_bounds (width * 4) 512 ltac:(lia) ltac:(lia)).
  unfold spec_layout, layout_fits, wrap_layout.
  repeat case_bool_decide; simpl; intros (? & ? & ?);
    rewrite !wrap32_small by nia; done.
Qed.

(** C7, as amended.  For every width and height (32-bit values), on a
    state whose plane offsets are as [Open] and earlier calls leave them
    (zero, but for the second one, which may hold the chroma offset),
    [CreateFB] computes the specified layout with each value reduced modulo
    2^32: stride align(4 width, 512) and align(height, 16) rows with one
    plane at offset 0 by default; stride align(width, 512) for NV12 and
    align(2 width, 512) for P010, P012 and P016, with the second plane at
    stride * align(height, 16) and 2 * align(height, 16) rows.  The rows
    are those of the CREATE_DUMB request, the planes those of the ADDFB2
    request, which gets the second plane when its reduced offset is not 0.
    Whenever the specified values fit the 32-bit fields, the reduction
    changes nothing and the layout is exactly the specified one. *)
Theorem CreateFB_layout_as_specified
    (d : Drm.dev) (sys : vout_display_sys_t) (buf : nat) (o1 : Z) :
  let l := spec_layout (sys_drm_fourcc sys) (sys_width sys) (sys_height sys) in
  let lw := wrap_layout l in
  sys_wf sys → (buf < MAXHWBUF)%nat →
  0 ≤ sys_width sys < 2 ^ 32 → 0 ≤ sys_height sys < 2 ^ 32 →
  sys_offsets sys = [0; o1; 0; 0; 0] → o1 = 0 ∨ o1 = l_chroma_offset lw →
  (layout_fits l → lw = l)
  ∧ sys_stride (sys_of (CreateFB d sys buf)) = l_stride lw
  ∧ sys_offsets (sys_of (CreateFB d sys buf)) = [0; l_chroma_offset lw; 0; 0; 0]
  ∧ ∃ res rest,
      Drm.log (dev_of (CreateFB d sys buf)) =
        Drm.log d ++ Drm.CREATE_DUMB (sys_width sys) (l_alloc_height lw) 32 res :: rest
      ∧ ∀ handle sz, res = Some (handle, sz) →
          ∃ fb rest',
            rest = (let '(handles, pitches, offsets) := layout_planes lw handle in
                    Drm.ADDFB2 (sys_width sys) (sys_height sys) (sys_drm_fourcc sys)
                      handles pitches offsets fb) :: rest'.
Proof.
  intros l lw Hwf Hbuf Hw Hh Ho Ho1.
  split; [apply wrap_layout_fits; lia|].
  destruct (CreateFB_layout_modulo sys o1 Hw Hh Ho Ho1) as (Hs & Hos & Hah).
  fold l in Hs, Hos, Hah.
  change (wrap32 (l_stride l)) with (l_stride lw) in Hs.
  change (wrap32 (l_chroma_offset l)) with (l_chroma_offset lw) in Hos.
  change (wrap32 (l_alloc_height l)) with (l_alloc_height lw) in Hah.
  destruct (CreateFB d sys buf) as [[r d'] sys'] eqn:Hc. unfold sys_of, dev_of; simpl.
  destruct (CreateFB_cases _ _ _ _ _ _ Hwf Hbuf Hc) as (Hfr & _ & Hcases).
  destruct Hfr as (_ & _ & _ & _ & _ & _ & _ & _ & Hst' & Hof' & _).
  rewrite Hst', Hof', Hs, Hos. split; [done|]. split; [done|].
  assert (∀ handle fb,
    req_addfb sys handle fb =
      (let '(handles, pitches, offsets) := layout_planes lw handle in
       Drm.ADDFB2 (sys_width sys) (sys_height sys) (sys_drm_fourcc sys)
         handles pitches offsets fb)) as Hadd.
  { intros handle fb. rewrite (req_addfb_planes sys handle fb _ Hos), Hs.
    unfold layout_planes; simpl. done. }
  unfold req_create in Hcases. rewrite Hah in Hcases.
  destruct Hcases as [(_ & _ & _ & _ & _ & rs & Hlog & _)|(_ & h & _ & _ & _ & _ & Hcases)].
  { exists None, rs. split; [done|]. by intros. }
  destruct Hcases as [(_ & _ & _ & Hlog)|(_ & fb & _ & _ & [(_ & _ & _ & Hlog)|[(_ & _ & _ & _ & Hlog)|(_ & _ & _ & _ & a & _ & _ & _ & _ & _ & Hlog & _)]])];
    rewrite Hlog; (eexists (Some (h, _)), _; split; [done|];
    intros handle sz [= <- <-]; rewrite Hadd; by eexists _, _).
Qed.

(** Side conditions of the instances below, by evaluation. *)
Ltac side_condition :=
  first [ vm_compute; repeat split; congruence
        | vm_compute; lia ].

(** A 640 x 480 NV12 buffer on an idle device. *)
Lemma CreateFB_layout_as_specified_witness :
  sys_stride (sys_of (CreateFB (idle_dev []) (sample_request DRM_FORMAT_NV12 640 480) 0))
  = 1024
  ∧ sys_offsets (sys_of (CreateFB (idle_dev [])
                           (sample_request DRM_FORMAT_NV12 640 480) 0))
    = [0; 491520; 0; 0; 0].
Proof.
  destruct (CreateFB_layout_as_specified (idle_dev [])
              (sample_request DRM_FORMAT_NV12 640 480) 0 0) as (_ & Hs & Ho & _);
    [side_condition ..|left; reflexivity|].
  split; [exact Hs|exact Ho].
Defined.

(** C7 as stated fails: for a width of 2^30 and the default layout,
    [sys->width * 4] wraps to 0 and the stride is 0, not 2^32. *)
Lemma CreateFB_layout_wraps :
  sys_stride (sys_of (CreateFB (idle_dev [])
                        (sample_request DRM_FORMAT_XRGB8888 (2 ^ 30) 480) 0))
  ≠ l_stride (spec_layout DRM_FORMAT_XRGB8888 (2 ^ 30) 480).
Proof. vm_compute. discriminate. Qed.

(** ** Negotiation leaves the buffers alone *)

Lemma same_buffers_refl sys : same_buffers sys sys.
Proof. by repeat split. Qed.

Lemma same_buffers_trans s1 s2 s3 :
  same_buffers s1 s2 → same_buffers s2 s3 → same_buffers s1 s3.
Proof.
  unfold same_buffers. intros H1 H2. destruct_and!. split_and!; congruence.
Qed.

Lemma same_buffers_wf s1 s2 : same_buffers s1 s2 → sys_wf s1 → sys_wf s2.
Proof.
  unfold same_buffers, sys_wf. intros H1 H2. destruct_and!. split_and!; congruence.
Qed.

Lemma scan_format_same_buffers pl sys tbl f :
  same_buffers sys (scan_format pl (sys, tbl) f).1.
Proof. unfold scan_format; simpl. destruct (_ && _); by repeat split. Qed.

Lemma scan_formats_same_buffers pl fs sys tbl :
  same_buffers sys (foldl (scan_format pl) (sys, tbl) fs).1.
Proof.
  revert sys tbl. induction fs as [|f fs IH]; intros sys tbl; cbn [foldl].
  - apply same_buffers_refl.
  - destruct (scan_format pl (sys, tbl) f) as [sys1 tbl1] eqn:E.
    eapply same_buffers_trans; [|apply IH].
    pose proof (scan_format_same_buffers pl sys tbl f) as H. rewrite E in H. exact H.
Qed.

Lemma scan_planes_same_buffers planes crtc_index sys tbl :
  same_buffers sys (scan_planes planes crtc_index sys tbl).1.2.
Proof.
  revert sys tbl. induction planes as [|[pl|] planes IH]; intros sys tbl; simpl;
    try apply same_buffers_refl.
  case_bool_decide; [|apply same_buffers_refl].
  destruct (_ =? 0); [apply IH|].
  destruct (foldl _ _ _) as [sys1 tbl1] eqn:E.
  eapply same_buffers_trans; [|apply IH].
  pose proof (scan_formats_same_buffers pl (formats pl) sys tbl) as Hfs.
  rewrite E in Hfs. exact Hfs.
Qed.

Lemma plane_scan_same_buffers caps crtc sys tbl ok sys1 tbl1 :
  plane_scan caps crtc sys tbl = Some (ok, sys1, tbl1) → same_buffers sys sys1.
Proof.
  unfold plane_scan. destruct (caps_crtcs caps) as [crtcs|]; [|done].
  assert (same_buffers sys (set_plane_id 0 sys)) as H0 by (by repeat split).
  destruct (caps_planes caps) as [[|pl planes]|]; try by intros [= <- <- <-].
  pose proof (scan_planes_same_buffers (pl :: planes) (crtc_index_of crtcs crtc 0)
                (set_plane_id 0 sys) tbl) as Hsp.
  destruct (scan_planes (pl :: planes) _ _ _) as [[ok' sys'] tbl'].
  intros [= <- <- <-]. by eapply same_buffers_trans.
Qed.

Lemma adopt_family_same_buffers e sys : same_buffers sys (adopt_family e sys).
Proof. unfold adopt_family, adopt_drm. destruct (negb _); by repeat split. Qed.

Lemma family_fallback_same_buffers IsYUV sys tbl :
  same_buffers sys (family_fallback IsYUV sys tbl).1.2.
Proof.
  unfold family_fallback.
  destruct (for_c _ tbl 0) as [[e|] c]; simpl; [apply adopt_family_same_buffers|].
  destruct (for_c _ tbl c) as [[e|] c']; simpl;
    [apply adopt_family_same_buffers|apply same_buffers_refl].
Qed.

Lemma negotiate_same_buffers IsYUV sys tbl :
  same_buffers sys (negotiate IsYUV sys tbl).1.2.
Proof.
  unfold negotiate. destruct (sys_forced_drm_fourcc sys).
  - destruct (for_c _ tbl 0) as [[e|] c]; simpl; destruct (_ =? 0); by repeat split.
  - destruct (for_c _ tbl 0) as [[e|] c]; simpl;
      [|apply family_fallback_same_buffers].
    destruct (fm_present e); simpl; destruct (_ =? 0); by repeat split.
Qed.

Lemma OpenDisplay_same_buffers IsYUV caps crtc sys tbl rc sys1 tbl1 msgs :
  OpenDisplay IsYUV caps crtc sys tbl = (rc, sys1, tbl1, msgs) →
  same_buffers sys sys1.
Proof.
  unfold OpenDisplay, ChromaNegotiation.
  destruct (plane_scan caps crtc sys tbl) as [[[[] sys2] tbl2]|] eqn:E.
  - pose proof (negotiate_same_buffers IsYUV sys2 tbl2) as Hn.
    destruct (negotiate IsYUV sys2 tbl2) as [[res sys3] msgs3]; simpl in *.
    apply plane_scan_same_buffers in E.
    destruct res; intros [= <- <- <- <-]; by eapply same_buffers_trans.
  - apply plane_scan_same_buffers in E. by intros [= <- <- <- <-].
  - intros [= <- <- <- <-]. apply same_buffers_refl.
Qed.

Lemma Open_chromas_wf env : sys_wf (Open_chromas env sys_calloc).
Proof.
  unfold Open_chromas.
  destruct (env_vlc_chroma env) as [v|]; [destruct (negb (v =? 0))|];
    (destruct (env_drm_chroma env) as [f|]; [destruct (negb (f =? 0))|]);
    by repeat split.
Qed.

(** ** Buffer construction *)

Lemma undo_of_req_addfb sys h res :
  undo_of (req_addfb sys h res) = match res with Some fb => [Drm.RMFB fb] | None => [] end.
Proof. unfold req_addfb. by destruct (CreateFB_planes _ _ _ _ _) as [[? ?] ?]. Qed.

Lemma is_refused_req_addfb sys h res :
  is_refused (req_addfb sys h res) = bool_decide (res = None).
Proof.
  unfold req_addfb. destruct (CreateFB_planes _ _ _ _ _) as [[? ?] ?].
  by destruct res.
Qed.

(** C3.  [CreateFB] is all or nothing.  When the device refuses one of
    its requests (an error as answer, or a length of 0 to map), [CreateFB]
    returns [drvFail] and the device holds no dumb buffer, framebuffer
    object or mapping that it did not hold before.  When the allocation
    (step 1) was granted, so that it is the framebuffer object (step 2,
    ADDFB2) or the mapping (step 3, MAP_DUMB and [mmap]) that is refused,
    the device holds exactly what it held before the call, and the requests
    issued are the steps up to the one that was refused, followed by the
    undoing of every step that had succeeded, the last one first (RMFB for
    the framebuffer object, then DESTROY_DUMB for the memory). *)
Theorem CreateFB_all_or_nothing
    (d : Drm.dev) (sys : vout_display_sys_t) (buf : nat) :
  sys_wf sys → (buf < MAXHWBUF)%nat →
  Drm.answer d 0 ≠ 0 ∨ Drm.answer d 1 ≠ 0 ∨ Drm.answer d 2 ≠ 0
  ∨ Drm.answer d 3 ≠ 0 ∨ expected_size d sys = 0 →
  ret_of (CreateFB d sys buf) = drvFail
  ∧ Drm.dumbs (dev_of (CreateFB d sys buf)) ⊆ Drm.dumbs d
  ∧ Drm.fbs (dev_of (CreateFB d sys buf)) = Drm.fbs d
  ∧ Drm.maps (dev_of (CreateFB d sys buf)) = Drm.maps d
  ∧ (Drm.answer d 0 = 0 →
     Drm.held (dev_of (CreateFB d sys buf)) = Drm.held d
     ∧ ∃ h sz steps refused,
         Drm.log (dev_of (CreateFB d sys buf))
         = Drm.log d ++ (req_create sys (Some (h, sz)) :: steps ++ [refused])
             ++ unwind (req_create sys (Some (h, sz)) :: steps ++ [refused])
         ∧ is_refused refused = true ∧ Drm.is_alloc refused = false
         ∧ Forall (λ q, is_refused q = false ∧ is_release q = false) steps).
Proof.
  intros Hwf Hbuf Hrefused.
  destruct (CreateFB d sys buf) as [[r d'] sys'] eqn:Hc.
  unfold ret_of, dev_of; simpl.
  destruct (CreateFB_cases _ _ _ _ _ _ Hwf Hbuf Hc) as (_ & _ & Hcases).
  fold (expected_size d sys) in Hcases.
  destruct Hcases as [(H0 & -> & Hh & _)|(H0 & h & _ & _ & _ & _ & Hcases)].
  { unfold Drm.held in Hh. injection Hh as -> -> ->.
    split_and!; try done. set_solver. }
  assert (r = drvFail ∧ Drm.held d' = Drm.held d) as [-> Hheld].
  { destruct Hcases as [(_ & -> & ? & _)|(H1 & fb & _ & _ & [(_ & -> & ? & _)|[(H2 & _ & -> & ? & _)|(H2 & H3 & Hsz & _)]])];
      [done..|exfalso; naive_solver]. }
  pose proof Hheld as Hparts. unfold Drm.held in Hparts. injection Hparts as -> -> ->.
  split_and!; try done. intros _. split; [done|].
  destruct Hcases as [(_ & _ & _ & Hlog)|(H1 & fb & _ & _ & [(_ & _ & _ & Hlog)|[(H2 & _ & _ & _ & Hlog)|(_ & _ & _ & ? & _)]])];
    [| | |done].
  - eexists h, _, [], (req_addfb sys h None).
    rewrite Hlog. unfold unwind. simpl.
    rewrite undo_of_req_addfb, is_refused_req_addfb; simpl.
    unfold req_addfb. destruct (CreateFB_planes _ _ _ _ _) as [[? ?] ?].
    split_and!; try done.
  - eexists h, _, [req_addfb sys h (Some fb)], (Drm.MAP_DUMB h false).
    rewrite Hlog. unfold unwind. simpl.
    rewrite ?undo_of_req_addfb; simpl.
    split_and!; try done.
    repeat constructor; by rewrite ?is_refused_req_addfb, ?is_release_req_addfb.
  - eexists h, _, [req_addfb sys h (Some fb); Drm.MAP_DUMB h true], (Drm.MMAP _ None).
    rewrite Hlog. unfold unwind. simpl.
    rewrite ?undo_of_req_addfb; simpl.
    split_and!; try done.
    repeat constructor; by rewrite ?is_refused_req_addfb, ?is_release_req_addfb.
Qed.

(** The device refuses the [mmap] of buffer 1. *)
Lemma CreateFB_all_or_nothing_witness :
  ret_of (CreateFB (idle_dev [0; 0; 0; 12])
            (sample_request DRM_FORMAT_NV12 640 480) 1) = drvFail
  ∧ Drm.held (dev_of (CreateFB (idle_dev [0; 0; 0; 12])
                        (sample_request DRM_FORMAT_NV12 640 480) 1))
    = (∅, ∅, ∅).
Proof.
  destruct (CreateFB_all_or_nothing (idle_dev [0; 0; 0; 12])
              (sample_request DRM_FORMAT_NV12 640 480) 1)
    as (Hret & _ & _ & _ & Hheld).
  - vm_compute. repeat split.
  - vm_compute. lia.
  - right; right; right; left. vm_compute. congruence.
  - split; [exact Hret|]. exact (proj1 (Hheld eq_refl)).
Defined.

(** ** The ring *)

Lemma Open_buffers_app l1 l2 d sys :
  Open_buffers (l1 ++ l2) d sys =
    if bool_decide (ret_of (Open_buffers l1 d sys) = drvSuccess)
    then Open_buffers l2 (dev_of (Open_buffers l1 d sys)) (sys_of (Open_buffers l1 d sys))
    else Open_buffers l1 d sys.
Proof.
  revert d sys. induction l1 as [|c l1 IH]; intros d sys; simpl; [done|].
  destruct (CreateFB d sys c) as [[r d1] sys1].
  case_bool_decide as Hr; [|apply IH].
  unfold ret_of; simpl. by rewrite bool_decide_eq_false_2.
Qed.


Lemma stacked_mono base bs H :
  stacked base bs H →
  base.1.1 ⊆ H.1.1 ∧ base.1.2 ⊆ H.1.2 ∧ ∀ a, H.2 !! a = None → base.2 !! a = None.
Proof.
  induction 1 as [|b bs H Hst (IH1 & IH2 & IH3) Hfr]; [done|].
  destruct H as [[D F] M]; simpl in *. split_and!; [set_solver..|].
  intros a Ha. apply IH3. by apply lookup_insert_None in Ha as [? ?].
Qed.

Lemma stacked_fresh_base base bs H b :
  stacked base bs H → b ∈ bs → fresh_for b base.
Proof.
  induction 1 as [|b' bs H Hst IH Hfr]; intros Hin.
  - by apply elem_of_nil in Hin.
  - apply elem_of_cons in Hin as [->|Hin]; [|by apply IH].
    destruct (stacked_mono _ _ _ Hst) as (H1 & H2 & H3).
    destruct Hfr as (? & ? & ?). split_and!; [set_solver..|by apply H3].
Qed.

Lemma stacked_distinct base bs H i j b b' :
  stacked base bs H → bs !! i = Some b → bs !! j = Some b' → i ≠ j →
  b_handle b ≠ b_handle b' ∧ b_fb b ≠ b_fb b' ∧ b_addr b ≠ b_addr b'.
Proof.
  intros Hst. revert i j. induction Hst as [|b0 bs H Hst IH Hfr]; intros i j Hi Hj Hij.
  - done.
  - assert (∀ x, x ∈ bs →
      b_handle b0 ≠ b_handle x ∧ b_fb b0 ≠ b_fb x ∧ b_addr b0 ≠ b_addr x) as Hhead.
    { intros x Hx. destruct (stacked_held_by _ _ _ _ Hst Hx) as (? & ? & ?).
      destruct Hfr as (? & ? & ?). split_and!; intros Heq; rewrite ?Heq in *; congruence. }
    destruct i as [|i], j as [|j]; simpl in *; simplify_eq.
    + apply Hhead. by eapply list_elem_of_lookup_2.
    + destruct (Hhead b) as (? & ? & ?); [by eapply list_elem_of_lookup_2|]. done.
    + eapply IH; [done..|lia].
Qed.

Lemma ring_lookup sys c i :
  (i < c)%nat → ring sys c !! (c - 1 - i)%nat = Some (buffer_of sys i).
Proof.
  intros Hi. unfold ring.
  rewrite reverse_lookup by (rewrite length_fmap, length_seq; lia).
  rewrite length_fmap, length_seq, list_lookup_fmap.
  replace (c - S (c - 1 - i))%nat with i by lia.
  by rewrite lookup_seq_lt.
Qed.

(** [Open] from the point where it starts on the buffers. *)
Lemma Open_ready_Some IsYUV env tbl sysw :
  Open_ready IsYUV env tbl = Some sysw →
  sys_wf sysw
  ∧ ∃ tbl' msgs, ∀ d,
      Open IsYUV env d tbl =
        let '(ret, d1, sys1) := Open_buffers (seq 0 MAXHWBUF) d sysw in
        if bool_decide (ret ≠ drvSuccess)
        then Opened (ret_CreateFB ret) d1 (Some sys1) tbl' msgs false
        else if negb (env_picture env)
        then Opened VLC_EGENERIC d1 (Some sys1) tbl' msgs false
        else Opened VLC_SUCCESS d1
               (Some (set_picture (Some (Open_picture sys1)) sys1)) tbl' msgs true.
Proof.
  unfold Open_ready, Open.
  destruct (env_kms env); [|done]. destruct (env_calloc env); [|done]. simpl.
  destruct (OpenDisplay _ _ _ _ _) as [[[rc sys0] tbl'] msgs] eqn:Hod.
  apply OpenDisplay_same_buffers in Hod.
  destruct rc; try done. intros [= <-]. split.
  - pose proof (same_buffers_wf _ _ Hod (Open_chromas_wf env)) as (? & ? & ? & ?).
    by repeat split.
  - exists tbl', msgs. intros d. rewrite bool_decide_eq_false_2 by (by intros []).
    done.
Qed.

(** C4 fails on the code.  An NV12 source of 640 x 480: buffer 0 is
    created, then the device refuses the allocation of buffer 1 (ENOMEM).
    [CreateFB] does not see the refusal ([ret < 0] on a [deviceRval]): it
    records the size 0 and the handle 0 of the untouched request, asks for a
    framebuffer object on handle 0, is refused and returns [drvFail].
    [Open] then destroys buffer 0 with [sys->size] 0: [munmap] of length 0
    releases nothing, and the mapping of buffer 0 is still held when [Open]
    has returned the failure, where the specification has nothing
    remain. *)
Theorem Open_refused_allocation_keeps_mapping :
  o_ret (Open IsYUV_sample
       (sample_env None None VLC_CODEC_NV12 [rgb_plane; yuv_plane] true)
       (idle_dev [0; 0; 0; 0; 12]) fourccmatching) = ret_CreateFB drvFail
  ∧ Drm.log (o_dev (Open IsYUV_sample
       (sample_env None None VLC_CODEC_NV12 [rgb_plane; yuv_plane] true)
       (idle_dev [0; 0; 0; 0; 12]) fourccmatching))
    = [Drm.CREATE_DUMB 640 960 32 (Some (1, 2457600));
       Drm.ADDFB2 640 480 DRM_FORMAT_NV12 [1; 1; 0; 0] [1024; 1024; 0; 0]
         [0; 491520; 0; 0] (Some 1);
       Drm.MAP_DUMB 1 true; Drm.MMAP 2457600 (Some 1);
       Drm.CREATE_DUMB 640 960 32 None;
       Drm.ADDFB2 640 480 DRM_FORMAT_NV12 [0; 0; 0; 0] [1024; 1024; 0; 0]
         [0; 491520; 0; 0] None;
       Drm.DESTROY_DUMB 0;
       Drm.MUNMAP 1 0; Drm.RMFB 1; Drm.DESTROY_DUMB 1]
  ∧ Drm.maps (idle_dev [0; 0; 0; 0; 12]) !! 1 = None
  ∧ Drm.maps (o_dev (Open IsYUV_sample
       (sample_env None None VLC_CODEC_NV12 [rgb_plane; yuv_plane] true)
       (idle_dev [0; 0; 0; 0; 12]) fourccmatching)) !! 1 = Some 2457600
  ∧ Drm.held (o_dev (Open IsYUV_sample
       (sample_env None None VLC_CODEC_NV12 [rgb_plane; yuv_plane] true)
       (idle_dev [0; 0; 0; 0; 12]) fourccmatching)) ≠ Drm.held (idle_dev [0; 0; 0; 0; 12]).
Proof.
  split; [vm_compute; reflexivity|]. split; [vm_compute; reflexivity|].
  split; [vm_compute; reflexivity|]. split; [vm_compute; reflexivity|].
  vm_compute. intros H. discriminate H.
Qed.

(** C10.  When all [MAXHWBUF] buffers have been created and
    [picture_NewFromResource] fails, [Open] returns [VLC_EGENERIC] without a
    single release request: the device still holds, on top of what it held
    before, the dumb buffer, the framebuffer object and the mapping of each
    of the buffers, all distinct. *)
Theorem Open_picture_failure_keeps_buffers
    (IsYUV : Z → bool) (env : open_env) (d : Drm.dev)
    (tbl : list fourccmatching_t) (sysw : vout_display_sys_t) :
  let made := Open_buffers (seq 0 MAXHWBUF) d sysw in
  Open_ready IsYUV env tbl = Some sysw →
  ret_of made = drvSuccess →
  env_picture env = false →
  o_ret (Open IsYUV env d tbl) = VLC_EGENERIC
  ∧ o_sys (Open IsYUV env d tbl) = Some (sys_of made)
  ∧ o_dev (Open IsYUV env d tbl) = dev_of made
  ∧ stacked (Drm.held d) (ring (sys_of made) MAXHWBUF) (Drm.held (dev_of made))
  ∧ (∀ i, (i < MAXHWBUF)%nat →
       held_by (buffer_of (sys_of made) i) (Drm.held (dev_of made))
       ∧ fresh_for (buffer_of (sys_of made) i) (Drm.held d))
  ∧ (∀ i j, (i < MAXHWBUF)%nat → (j < MAXHWBUF)%nat → i ≠ j →
       sys_handle (sys_of made) !!! i ≠ sys_handle (sys_of made) !!! j
       ∧ sys_fb (sys_of made) !!! i ≠ sys_fb (sys_of made) !!! j
       ∧ sys_map (sys_of made) !!! i ≠ sys_map (sys_of made) !!! j)
  ∧ ∃ rs, Drm.log (dev_of made) = Drm.log d ++ rs
          ∧ Forall (λ q, is_release q = false) rs.
Proof.
  intros made Hready Hmade Hpic.
  destruct (Open_ready_Some _ _ _ _ Hready) as (Hwf & tbl' & msgs & Hopen).
  rewrite Hopen. subst made.
  destruct (Open_buffers _ d sysw) as [[r d1] sys1] eqn:Hall.
  apply (Open_buffers_inv (Drm.held d)) in Hall; [|done|lia|constructor|lia].
  unfold ret_of, dev_of, sys_of in *; simpl in *. subst r.
  rewrite bool_decide_eq_false_2 by (by intros []). rewrite Hpic; simpl.
  destruct Hall as [(_ & Hst & _ & Hlog)|(? & _)]; [|done]. simpl in Hst.
  split_and!; try done.
  - intros i Hi. pose proof (ring_lookup sys1 MAXHWBUF i Hi) as Hl.
    apply list_elem_of_lookup_2 in Hl. split.
    + by eapply stacked_held_by.
    + by eapply stacked_fresh_base.
  - intros i j Hi Hj Hij.
    pose proof (ring_lookup sys1 MAXHWBUF i Hi) as Hli.
    pose proof (ring_lookup sys1 MAXHWBUF j Hj) as Hlj.
    apply (stacked_distinct _ _ _ _ _ _ _ Hst Hli Hlj). lia.
Qed.

(** Every device request succeeds and the picture cannot be allocated. *)
Lemma Open_picture_failure_keeps_buffers_witness :
  o_ret (Open IsYUV_sample
           (sample_env None None VLC_CODEC_NV12 [rgb_plane; yuv_plane] false)
           (idle_dev []) fourccmatching) = VLC_EGENERIC
  ∧ size (Drm.dumbs (o_dev (Open IsYUV_sample
           (sample_env None None VLC_CODEC_NV12 [rgb_plane; yuv_plane] false)
           (idle_dev []) fourccmatching))) = 3%nat.
Proof.
  let ready := eval vm_compute in
    (Open_ready IsYUV_sample
       (sample_env None None VLC_CODEC_NV12 [rgb_plane; yuv_plane] false)
       fourccmatching) in
  match ready with
  | Some ?sysw =>
      destruct (Open_picture_failure_keeps_buffers IsYUV_sample
                  (sample_env None None VLC_CODEC_NV12 [rgb_plane; yuv_plane] false)
                  (idle_dev []) fourccmatching sysw)
        as (Hret & _)
  end; [side_condition..|].
  split; [exact Hret|by vm_compute].
Defined.

(** ** Presentation cycle *)

Lemma repoint_lookup base offsets pic i :
  pic_p (repoint base offsets pic) !! i =
    if bool_decide (i < PICTURE_PLANE_MAX)%nat
    then set_p_pixels (base + offsets !!! i) <$> pic_p pic !! i
    else pic_p pic !! i.
Proof.
  unfold repoint, PICTURE_PLANE_MAX; simpl.
  destruct i as [|[|[|[|[|i]]]]];
    repeat first [ rewrite list_lookup_alter_eq | rewrite list_lookup_alter_ne by lia ];
    done.
Qed.

Lemma next_front_buf_spec front :
  0 ≤ front < Z.of_nat MAXHWBUF →
  next_front_buf front = (front + 1) mod Z.of_nat MAXHWBUF
  ∧ 0 ≤ next_front_buf front < Z.of_nat MAXHWBUF
  ∧ next_front_buf front ≠ front.
Proof.
  unfold next_front_buf, wrap32, MAXHWBUF. intros Hf.
  rewrite (Z.mod_small (front + 1)) by lia.
  assert (front = 0 ∨ front = 1 ∨ front = 2) as [->|[->| ->]] by lia; done.
Qed.

(** C5.  When the commit of [Display] fails, nothing of the state changes:
    [front_buf] is not advanced and the picture planes are not repointed, so
    the next [Prepare] copies to where it would have copied before.  The
    error names the plane and the framebuffer.  The call returns, unless
    assertions are compiled in and the error is EINVAL. *)
Theorem Display_failed_commit_keeps_state
    (ndebug : bool) (geo : geometry) (d : Drm.dev) (sys : vout_display_sys_t)
    (fb : Z) :
  sys_fb sys !! Z.to_nat (sys_front_buf sys) = Some fb →
  (Display_commit geo d sys fb).1 ≠ 0 →
  ∃ how,
    Display ndebug geo d sys
    = (how, [Err_set_plane (sys_plane_id sys) fb], (Display_commit geo d sys fb).2, sys)
    ∧ (how = Returned ∨ how = Aborted)
    ∧ (how = Aborted ↔
       ndebug = false ∧ (Display_commit geo d sys fb).1 = - EINVAL)
    ∧ sys_front_buf (Display ndebug geo d sys).2 = sys_front_buf sys
    ∧ sys_picture (Display ndebug geo d sys).2 = sys_picture sys
    ∧ ∀ frame mem,
        Prepare (Display ndebug geo d sys).2 frame mem = Prepare sys frame mem.
Proof.
  intros Hfb Hret. unfold Display. rewrite Hfb.
  destruct (Display_commit geo d sys fb) as [ret d1]; simpl in *.
  rewrite (proj2 (Z.eqb_neq _ _) Hret); simpl.
  destruct ndebug; simpl.
  - exists Returned. split_and!; try done; [by left|]. split; [done|]. by intros [? _].
  - destruct (Z.eqb_spec ret (- EINVAL)) as [->|Hne].
    + exists Aborted. split_and!; try done. by right.
    + exists Returned. split_and!; try done; [by left|]. split; [done|]. by intros [_ ?].
Qed.

(** The device answers the commit with EBUSY. *)
Lemma Display_failed_commit_keeps_state_witness :
  (Display false sample_geometry (o_dev (sample_open [16])) sample_sys).2 = sample_sys.
Proof.
  destruct (Display_failed_commit_keeps_state false sample_geometry
              (o_dev (sample_open [16])) sample_sys 1) as (how & Heq & _);
    [side_condition..|].
  rewrite Heq. reflexivity.
Defined.

Local Arguments repoint : simpl never.

(** C8.  When the commit of [Display] succeeds, [front_buf] becomes
    [(front_buf + 1) mod MAXHWBUF], a different index, and every plane of
    the picture points at the mapping of that buffer plus the offset of the
    plane; the next [Prepare] copies there, and where the mappings are
    distinct that is not the buffer just committed. *)
Theorem Display_commit_advances
    (ndebug : bool) (geo : geometry) (d : Drm.dev) (sys : vout_display_sys_t)
    (pic : picture_t) :
  let fb := sys_fb sys !!! Z.to_nat (sys_front_buf sys) in
  let front' := (sys_front_buf sys + 1) mod Z.of_nat MAXHWBUF in
  let base := sys_map sys !!! Z.to_nat front' in
  sys_wf sys → 0 ≤ sys_front_buf sys < Z.of_nat MAXHWBUF →
  sys_picture sys = Some pic →
  (Display_commit geo d sys fb).1 = 0 →
  ∃ pic',
    Display ndebug geo d sys
    = (Returned, [], (Display_commit geo d sys fb).2,
       set_picture (Some pic') (set_front_buf front' sys))
    ∧ front' ≠ sys_front_buf sys ∧ 0 ≤ front' < Z.of_nat MAXHWBUF
    ∧ length (pic_p pic') = length (pic_p pic)
    ∧ (∀ i pl, (i < PICTURE_PLANE_MAX)%nat → pic_p pic !! i = Some pl →
         pic_p pic' !! i = Some (Plane (base + sys_offsets sys !!! i)
                                       (i_lines pl) (i_pitch pl)))
    ∧ (∀ frame mem,
         Prepare (Display ndebug geo d sys).2 frame mem
         = Some (picture_Copy pic' frame mem))
    ∧ (NoDup (sys_map sys) →
       base ≠ sys_map sys !!! Z.to_nat (sys_front_buf sys)).
Proof.
  intros fb front' base (Hlh & Hlm & Hlf & Hlo) Hfront Hpic Hret.
  destruct (next_front_buf_spec _ Hfront) as (Hnext & Hrange & Hne).
  fold front' in Hnext. rewrite Hnext in Hrange, Hne.
  assert (sys_fb sys !! Z.to_nat (sys_front_buf sys) = Some fb) as Hfb.
  { apply list_lookup_lookup_total_lt. rewrite Hlf. unfold MAXHWBUF in *. lia. }
  assert (sys_map sys !! Z.to_nat front' = Some base) as Hbase.
  { apply list_lookup_lookup_total_lt. rewrite Hlm. unfold MAXHWBUF in *. lia. }
  assert (length (pic_p (repoint base (sys_offsets sys) pic)) = length (pic_p pic))
    as Hlen.
  { unfold repoint, PICTURE_PLANE_MAX. cbn [pic_p foldl seq]. by rewrite !length_alter. }
  assert (∀ i pl, (i < PICTURE_PLANE_MAX)%nat → pic_p pic !! i = Some pl →
    pic_p (repoint base (sys_offsets sys) pic) !! i
    = Some (Plane (base + sys_offsets sys !!! i) (i_lines pl) (i_pitch pl))) as Hplanes.
  { intros i pl Hi Hpl. by rewrite repoint_lookup, bool_decide_eq_true_2, Hpl. }
  exists (repoint base (sys_offsets sys) pic).
  unfold Display. rewrite Hfb.
  destruct (Display_commit geo d sys fb) as [ret d1]; simpl in *. subst ret; simpl.
  rewrite Hnext, Hpic, Hbase.
  split; [done|]. split; [done|]. split; [lia|]. split; [done|]. split; [done|].
  split; [done|].
  intros Hnd Heq. subst base.
    assert (sys_map sys !! Z.to_nat (sys_front_buf sys)
            = Some (sys_map sys !!! Z.to_nat (sys_front_buf sys))) as Hold.
    { apply list_lookup_lookup_total_lt. rewrite Hlm. unfold MAXHWBUF in *. lia. }
    rewrite <- Heq in Hold.
    pose proof (NoDup_lookup _ _ _ _ Hnd Hbase Hold). lia.
Qed.

(** The first commit after [Open]: buffer 0 goes on screen, buffer 1 is next. *)
Lemma Display_commit_advances_witness :
  sys_front_buf (Display true sample_geometry (o_dev (sample_open [])) sample_sys).2 = 1.
Proof.
  let p := eval vm_compute in (sys_picture sample_sys) in
  match p with
  | Some ?pic =>
      destruct (Display_commit_advances true sample_geometry
                  (o_dev (sample_open [])) sample_sys pic) as (pic' & Heq & _)
  end; [side_condition..|].
  rewrite Heq. reflexivity.
Defined.

(** ** Negotiation *)

(** A loop over the table leaves [c] at the index of the first hit, or at
    the size of the table. *)
Lemma table_loop_find hit (P : fourccmatching_t → Prop) `{∀ e, Decision (P e)}
    rest c :
  (∀ e, hit e = bool_decide (P e)) →
  table_loop hit rest c =
    match list_find P rest with
    | Some (i, e) => (Some e, (c + i)%nat)
    | None => (None, (c + length rest)%nat)
    end.
Proof.
  intros Hhit. revert c. induction rest as [|e rest IH]; intros c; simpl.
  - by rewrite Nat.add_0_r.
  - rewrite Hhit. case_bool_decide as HP.
    + rewrite decide_True by done. by rewrite Nat.add_0_r.
    + rewrite decide_False by done. rewrite IH.
      destruct (list_find P rest) as [[i x]|]; simpl; f_equal; lia.
Qed.

Lemma for_c_find hit (P : fourccmatching_t → Prop) `{∀ e, Decision (P e)} tbl :
  (∀ e, hit e = bool_decide (P e)) →
  for_c hit tbl 0 =
    match list_find P tbl with
    | Some (i, e) => (Some e, i)
    | None => (None, length tbl)
    end.
Proof. intros Hhit. unfold for_c. rewrite drop_0. by apply table_loop_find. Qed.

Lemma for_c_end hit tbl : for_c hit tbl (length tbl) = (None, length tbl).
Proof. unfold for_c. by rewrite drop_all. Qed.

(** The fourth loop never runs: when the third one finds nothing, [c] is
    already at the end of the table. *)
Lemma family_fallback_same_family_only IsYUV sys tbl :
  family_fallback IsYUV sys tbl =
    match list_find (λ e, fm_isYUV e = IsYUV (sys_vlc_fourcc sys)
                          ∧ fm_present e = true) tbl with
    | Some (_, e) => (true, adopt_family e sys, [])
    | None => (false, sys, [])
    end.
Proof.
  unfold family_fallback.
  rewrite (for_c_find _ (λ e, fm_isYUV e = IsYUV (sys_vlc_fourcc sys)
                              ∧ fm_present e = true)).
  - destruct (list_find _ tbl) as [[i e]|]; [done|]. by rewrite for_c_end.
  - intros e. destruct (fm_present e); simpl.
    + rewrite andb_true_r. apply bool_decide_ext. naive_solver.
    + rewrite andb_false_r. symmetry. apply bool_decide_eq_false_2. naive_solver.
Qed.

Lemma scan_format_same_formats pl sys tbl f :
  same_formats sys (scan_format pl (sys, tbl) f).1.
Proof.
  unfold scan_format, same_formats; simpl.
  destruct (sys_forced_drm_fourcc sys) eqn:Hf; simpl.
  - destruct (_ && _); simpl; by rewrite ?Hf.
  - by rewrite Hf.
Qed.

Lemma same_formats_trans s1 s2 s3 :
  same_formats s1 s2 → same_formats s2 s3 → same_formats s1 s3.
Proof.
  unfold same_formats. intros (? & ? & ? & Hp1) (? & ? & ? & Hp2).
  split_and!; try congruence. intros Hf. rewrite Hp2, Hp1; congruence.
Qed.

Lemma scan_formats_same_formats pl fs sys tbl :
  same_formats sys (foldl (scan_format pl) (sys, tbl) fs).1.
Proof.
  revert sys tbl. induction fs as [|f fs IH]; intros sys tbl; cbn [foldl].
  - by repeat split.
  - destruct (scan_format pl (sys, tbl) f) as [sys1 tbl1] eqn:E.
    eapply same_formats_trans; [|apply IH].
    pose proof (scan_format_same_formats pl sys tbl f) as Hf. rewrite E in Hf. exact Hf.
Qed.

Lemma scan_planes_same_formats planes crtc_index sys tbl :
  same_formats sys (scan_planes planes crtc_index sys tbl).1.2.
Proof.
  revert sys tbl. induction planes as [|[pl|] planes IH]; intros sys tbl; simpl;
    try by repeat split.
  case_bool_decide; [|by repeat split].
  destruct (_ =? 0); [apply IH|].
  destruct (foldl _ _ _) as [sys1 tbl1] eqn:E.
  eapply same_formats_trans; [|apply IH].
  pose proof (scan_formats_same_formats pl (formats pl) sys tbl) as Hfs.
  rewrite E in Hfs. exact Hfs.
Qed.

(** The scan keeps the formats; without a forced hardware format it leaves
    [plane_id] at the 0 it starts from. *)
Lemma plane_scan_formats caps crtc sys tbl ok sys1 tbl1 :
  plane_scan caps crtc sys tbl = Some (ok, sys1, tbl1) →
  sys_forced_drm_fourcc sys1 = sys_forced_drm_fourcc sys
  ∧ sys_drm_fourcc sys1 = sys_drm_fourcc sys
  ∧ sys_vlc_fourcc sys1 = sys_vlc_fourcc sys
  ∧ (sys_forced_drm_fourcc sys = false → sys_plane_id sys1 = 0).
Proof.
  unfold plane_scan. destruct (caps_crtcs caps) as [crtcs|]; [|done].
  destruct (caps_planes caps) as [[|pl planes]|]; try by intros [= <- <- <-].
  pose proof (scan_planes_same_formats (pl :: planes) (crtc_index_of crtcs crtc 0)
                (set_plane_id 0 sys) tbl) as Hsp.
  destruct (scan_planes (pl :: planes) _ _ _) as [[ok' sys'] tbl'].
  intros [= <- <- <-]. destruct Hsp as (? & ? & ? & Hp). split_and!; try done.
Qed.

(** C1 fails on the code.  An I420 source on a display whose only plane
    scans out RGB: no entry of the table has the logical format, no present
    entry is YUV, the first present entry of the opposite family is
    XRGB8888 on plane 31, which the specification adopts; the code returns
    false and [Open] fails. *)
Theorem opposite_family_is_not_adopted :
  ChromaNegotiation IsYUV_sample (sample_caps [rgb_plane]) 40
    (Open_chromas (sample_env None None VLC_CODEC_I420 [rgb_plane] true) sys_calloc)
    fourccmatching
  = (false,
     set_vlc_fourcc VLC_CODEC_I420 sys_calloc,
     CheckFourCCList DRM_FORMAT_RGB565 31
       (CheckFourCCList DRM_FORMAT_XRGB8888 31 fourccmatching),
     [])
  ∧ o_ret (Open IsYUV_sample (sample_env None None VLC_CODEC_I420 [rgb_plane] true)
             (idle_dev []) fourccmatching) = VLC_EGENERIC
  ∧ spec_negotiate IsYUV_sample false
      (set_vlc_fourcc VLC_CODEC_I420 sys_calloc)
      (CheckFourCCList DRM_FORMAT_RGB565 31
         (CheckFourCCList DRM_FORMAT_XRGB8888 31 fourccmatching))
    = (true,
       set_vlc_fourcc VLC_CODEC_RGB32
         (set_plane_id 31 (set_drm_fourcc DRM_FORMAT_XRGB8888
            (set_vlc_fourcc VLC_CODEC_I420 sys_calloc))),
       []).
Proof. by vm_compute. Qed.

(** How far the exact-match loop goes wrong.  Without a forced hardware
    format, whenever the first entry of the scanned table for the desired
    logical format is not present, negotiation fails with the "forced VLC
    fourcc" error and [Open] fails, whether or not anything was forced:
    the loop returns from inside the matching entry, and the family loops
    are not reached. *)
Lemma absent_exact_entry_fails
    (IsYUV : Z → bool) (env : open_env) (d : Drm.dev)
    (tbl tbl1 : list fourccmatching_t) (sys1 : vout_display_sys_t)
    (i : nat) (e : fourccmatching_t) :
  let desired :=
    match env_vlc_chroma env with
    | Some v => if v =? 0 then env_source_chroma env else v
    | None => env_source_chroma env
    end in
  env_kms env = true → env_calloc env = true → env_drm_chroma env = None →
  plane_scan (env_caps env) (env_crtc env) (Open_chromas env sys_calloc) tbl
  = Some (true, sys1, tbl1) →
  list_find (λ e, fm_vlc e = desired) tbl1 = Some (i, e) →
  fm_present e = false →
  ChromaNegotiation IsYUV (env_caps env) (env_crtc env)
    (Open_chromas env sys_calloc) tbl
  = (false, sys1, tbl1, [Err_forced_vlc desired])
  ∧ o_ret (Open IsYUV env d tbl) = VLC_EGENERIC
  ∧ o_msgs (Open IsYUV env d tbl) = [Err_forced_vlc desired].
Proof.
  intros desired Hkms Hcalloc Hdrm Hscan Hfind Hpresent.
  assert (sys_vlc_fourcc (Open_chromas env sys_calloc) = desired
          ∧ sys_forced_drm_fourcc (Open_chromas env sys_calloc) = false
          ∧ sys_drm_fourcc (Open_chromas env sys_calloc) = 0) as (Hv & Hf & Hd).
  { unfold Open_chromas, desired. rewrite Hdrm.
    destruct (env_vlc_chroma env) as [v|]; [destruct (v =? 0)|]; done. }
  destruct (plane_scan_formats _ _ _ _ _ _ _ Hscan) as (Hf1 & Hd1 & Hv1 & _).
  rewrite Hf in Hf1. rewrite Hd in Hd1. rewrite Hv in Hv1.
  assert (ChromaNegotiation IsYUV (env_caps env) (env_crtc env)
            (Open_chromas env sys_calloc) tbl
          = (false, sys1, tbl1, [Err_forced_vlc desired])) as Hneg.
  { unfold ChromaNegotiation. rewrite Hscan. unfold negotiate. rewrite Hf1.
    rewrite (for_c_find _ (λ e, fm_vlc e = desired)), Hfind.
    - rewrite Hpresent; simpl. by rewrite Hd1, Hv1.
    - intros x. rewrite Hv1. destruct (Z.eqb_spec (fm_vlc x) desired).
      + by rewrite bool_decide_eq_true_2.
      + by rewrite bool_decide_eq_false_2. }
  split; [done|]. unfold Open, OpenDisplay. rewrite Hkms, Hcalloc, Hneg. done.
Qed.

(** C2 fails on the code.  An NV12 source without any override, on a
    display that scans out RGB (plane 31) and YUYV (plane 33) but not NV12:
    the table has an entry for NV12, which the scan leaves absent.  The
    specification goes on to the family tier and adopts YUYV on plane 33;
    the code leaves the exact-match loop with the "forced VLC fourcc" error,
    although nothing was forced, and [Open] fails. *)
Theorem source_format_absent_does_not_fall_back :
  ChromaNegotiation IsYUV_sample (sample_caps [rgb_plane; yuyv_plane]) 40
    (Open_chromas (sample_env None None VLC_CODEC_NV12 [rgb_plane; yuyv_plane] true)
       sys_calloc)
    fourccmatching
  = (false,
     set_vlc_fourcc VLC_CODEC_NV12 sys_calloc,
     CheckFourCCList DRM_FORMAT_YUYV 33
       (CheckFourCCList DRM_FORMAT_RGB565 31
          (CheckFourCCList DRM_FORMAT_XRGB8888 31 fourccmatching)),
     [Err_forced_vlc VLC_CODEC_NV12])
  ∧ o_ret (Open IsYUV_sample
             (sample_env None None VLC_CODEC_NV12 [rgb_plane; yuyv_plane] true)
             (idle_dev []) fourccmatching) = VLC_EGENERIC
  ∧ spec_negotiate IsYUV_sample false
      (set_vlc_fourcc VLC_CODEC_NV12 sys_calloc)
      (CheckFourCCList DRM_FORMAT_YUYV 33
         (CheckFourCCList DRM_FORMAT_RGB565 31
            (CheckFourCCList DRM_FORMAT_XRGB8888 31 fourccmatching)))
    = (true,
       set_vlc_fourcc VLC_CODEC_YUYV
         (set_plane_id 33 (set_drm_fourcc DRM_FORMAT_YUYV
            (set_vlc_fourcc VLC_CODEC_NV12 sys_calloc))),
       []).
Proof. by vm_compute. Qed.



Lemma scan_format_other pl s t f :
  f ≠ sys_drm_fourcc s →
  scan_format pl (s, t) f = (s, CheckFourCCList f (plane_id pl) t).
Proof.
  intros Hne. unfold scan_format.
  by rewrite (proj2 (Z.eqb_neq _ _) Hne), andb_false_r.
Qed.

(** A plane is bound only to one that lists the forced format. *)
Lemma scan_planes_unbound planes crtc_index sys tbl :
  sys_plane_id sys = 0 →
  (∀ pl, Some pl ∈ planes → sys_drm_fourcc sys ∉ formats pl) →
  sys_plane_id (scan_planes planes crtc_index sys tbl).1.2 = 0.
Proof.
  revert sys tbl. induction planes as [|[pl|] planes IH]; intros sys tbl Hp Hno; simpl;
    try done.
  case_bool_decide; [|done].
  destruct (_ =? 0); [apply IH; [done|]; intros; apply Hno; set_solver|].
  assert (sys_drm_fourcc sys ∉ formats pl) as Hpl by (apply Hno; set_solver).
  assert (∀ fs s t, sys_plane_id s = 0 → sys_drm_fourcc s = sys_drm_fourcc sys →
            (∀ f, f ∈ fs → f ∈ formats pl) →
            sys_plane_id (foldl (scan_format pl) (s, t) fs).1 = 0
            ∧ sys_drm_fourcc (foldl (scan_format pl) (s, t) fs).1 = sys_drm_fourcc sys)
    as Hfold.
  { induction fs as [|f fs IHfs]; intros s t Hs Hd Hin; [done|]. cbn [foldl].
    destruct (decide (f = sys_drm_fourcc s)) as [->|Hne].
    - exfalso. apply Hpl. rewrite <- Hd. apply Hin. set_solver.
    - rewrite scan_format_other by done.
      apply IHfs; [done..|]. intros; apply Hin; set_solver. }
  destruct (Hfold (formats pl) sys tbl Hp eq_refl ltac:(done)) as [H1 H2].
  destruct (foldl _ _ _) as [sys1 tbl1]; simpl in *.
  apply IH; [done|]. rewrite H2. intros; apply Hno; set_solver.
Qed.

(** The CRTC of the sample display is listed. *)
Lemma sample_crtc_listed planes : crtc_listed (sample_caps planes) 40.
Proof. exists [40]. split; [done|]. simpl. lia. Qed.




(** * Further properties *)

(** ** The table under [CheckFourCCList] *)

(** What one call does to the entry at an index. *)
Lemma CheckFourCCList_lookup tbl drmfourcc pid i e :
  tbl !! i = Some e →
  ∃ e', CheckFourCCList drmfourcc pid tbl !! i = Some e'
        ∧ (e' = e ∨ (fm_present e = false ∧ fm_drm e = drmfourcc
                     ∧ e' = mark_present e pid)).
Proof.
  revert i. induction tbl as [|x rest IH]; intros i Hi; [done|]. simpl.
  destruct (Z.eqb_spec (fm_drm x) drmfourcc) as [Hx|Hx].
  - destruct (fm_present x) eqn:Hp; [by eauto|].
    destruct i as [|i]; simpl in *; [|by eauto].
    injection Hi as <-. eauto 10.
  - destruct i as [|i]; simpl in *; [by eauto|]. by apply IH.
Qed.

Lemma CheckFourCCList_length tbl drmfourcc pid :
  length (CheckFourCCList drmfourcc pid tbl) = length tbl.
Proof.
  induction tbl as [|x rest IH]; simpl; [done|].
  destruct (_ =? _); [by destruct (fm_present x)|]. simpl. by rewrite IH.
Qed.

(** X1.  Whatever calls are made, the table keeps its size, every entry
    keeps its DRM code, its VLC code and its family, an entry that is
    present stays present, and an entry that becomes present gets the plane
    of one of the calls made for its DRM code. *)
Theorem CheckFourCCList_seq_keeps_codes
    (calls : list (Z * Z)) (tbl : list fourccmatching_t) :
  length (CheckFourCCList_seq calls tbl) = length tbl
  ∧ ∀ i e, tbl !! i = Some e →
      ∃ e', CheckFourCCList_seq calls tbl !! i = Some e'
            ∧ fm_drm e' = fm_drm e ∧ fm_vlc e' = fm_vlc e
            ∧ fm_isYUV e' = fm_isYUV e
            ∧ (fm_present e = true → e' = e)
            ∧ (fm_present e' = true → fm_present e = false →
               (fm_drm e, fm_plane_id e') ∈ calls).
Proof.
  revert tbl. induction calls as [|[f p] calls IH]; intros tbl.
  - split; [done|]. intros i e Hi. exists e. split_and!; try done. congruence.
  - change (CheckFourCCList_seq ((f, p) :: calls) tbl)
      with (CheckFourCCList_seq calls (CheckFourCCList f p tbl)).
    destruct (IH (CheckFourCCList f p tbl)) as [Hlen Hent].
    split; [by rewrite Hlen, CheckFourCCList_length|].
    intros i e Hi.
    destruct (CheckFourCCList_lookup tbl f p i e Hi) as (e1 & H1 & Hcase).
    destruct (Hent i e1 H1) as (e' & He' & Hd & Hv & Hy & Hst & Hnew).
    exists e'. split; [done|].
    destruct Hcase as [->|(Hp & Hf & ->)].
    + split_and!; try done. intros Hp' Hp. right. by apply Hnew.
    + simpl in *. split_and!; try done.
      * intros Hp'. congruence.
      * intros _ _. rewrite (Hst eq_refl). simpl. rewrite Hf. by left.
Qed.

Lemma CheckFourCCList_seq_keeps_codes_witness :
  length (CheckFourCCList_seq [(DRM_FORMAT_NV12, 32); (DRM_FORMAT_NV12, 33)] fourccmatching)
  = length fourccmatching.
Proof.
  exact (proj1 (CheckFourCCList_seq_keeps_codes
                  [(DRM_FORMAT_NV12, 32); (DRM_FORMAT_NV12, 33)] fourccmatching)).
Defined.

Lemma CheckFourCCList_other tbl f p i e :
  tbl !! i = Some e → fm_drm e ≠ f → CheckFourCCList f p tbl !! i = Some e.
Proof.
  intros Hi Hne. destruct (CheckFourCCList_lookup tbl f p i e Hi) as (e' & He' & Hc).
  destruct Hc as [->|(_ & ? & _)]; done.
Qed.

(** X2.  Calls for different formats commute: the order in which the planes
    list their formats matters only between calls for one and the same
    format. *)
Theorem CheckFourCCList_comm
    (tbl : list fourccmatching_t) (f1 p1 f2 p2 : Z) :
  f1 ≠ f2 →
  CheckFourCCList f1 p1 (CheckFourCCList f2 p2 tbl)
  = CheckFourCCList f2 p2 (CheckFourCCList f1 p1 tbl).
Proof.
  intros Hne. induction tbl as [|x rest IH]; [done|]. simpl.
  destruct (Z.eqb_spec (fm_drm x) f1) as [H1|H1],
           (Z.eqb_spec (fm_drm x) f2) as [H2|H2]; try congruence.
  - destruct (fm_present x) eqn:Hp; simpl;
      rewrite (proj2 (Z.eqb_eq _ _) H1), (proj2 (Z.eqb_neq _ _) H2), ?Hp; done.
  - destruct (fm_present x) eqn:Hp; simpl;
      rewrite (proj2 (Z.eqb_neq _ _) H1), (proj2 (Z.eqb_eq _ _) H2), ?Hp; done.
  - simpl. rewrite (proj2 (Z.eqb_neq _ _) H1), (proj2 (Z.eqb_neq _ _) H2).
    by rewrite IH.
Qed.

Lemma CheckFourCCList_comm_witness :
  CheckFourCCList DRM_FORMAT_NV12 32 (CheckFourCCList DRM_FORMAT_YUYV 33 fourccmatching)
  = CheckFourCCList DRM_FORMAT_YUYV 33 (CheckFourCCList DRM_FORMAT_NV12 32 fourccmatching).
Proof.
  apply (CheckFourCCList_comm fourccmatching DRM_FORMAT_NV12 32 DRM_FORMAT_YUYV 33).
  vm_compute. congruence.
Defined.

(** ** The scan *)

Lemma marked_drm found e e' : marked found e e' → fm_drm e' = fm_drm e.
Proof. by intros [->|(_ & p & _ & ->)]. Qed.

Lemma marked_present found e e' :
  marked found e e' → fm_present e = true → e' = e.
Proof. intros [->|(? & _)] ?; [done|congruence]. Qed.

Lemma tbl_marked_refl found tbl : tbl_marked found tbl tbl.
Proof. split; [done|]. intros i e Hi. exists e. split; [done|by left]. Qed.

Lemma tbl_marked_trans found t1 t2 t3 :
  tbl_marked found t1 t2 → tbl_marked found t2 t3 → tbl_marked found t1 t3.
Proof.
  intros [L1 H1] [L2 H2]. split; [congruence|]. intros i e Hi.
  destruct (H1 i e Hi) as (e1 & Hi1 & M1). destruct (H2 i e1 Hi1) as (e2 & Hi2 & M2).
  exists e2. split; [done|].
  destruct M1 as [->|(Hp & p & Hf & ->)]; [done|].
  rewrite (marked_present _ _ _ M2 eq_refl). right. eauto.
Qed.

Lemma tbl_marked_mono (found found' : Z → Z → Prop) t1 t2 :
  (∀ f p, found f p → found' f p) → tbl_marked found t1 t2 → tbl_marked found' t1 t2.
Proof.
  intros Hsub [L H]. split; [done|]. intros i e Hi.
  destruct (H i e Hi) as (e' & Hi' & [->|(Hp & p & Hf & ->)]); exists e' || idtac.
  - eexists. split; [done|by left].
  - eexists. split; [done|]. right. eauto.
Qed.

Lemma CheckFourCCList_marked tbl f p :
  tbl_marked (λ g q, g = f ∧ q = p) tbl (CheckFourCCList f p tbl).
Proof.
  split; [apply CheckFourCCList_length|]. intros i e Hi.
  destruct (CheckFourCCList_lookup tbl f p i e Hi) as (e' & He' & [->|(Hp & Hf & ->)]);
    eexists; (split; [done|]); [by left|]. right. eauto.
Qed.

Lemma scan_format_tbl pl sys tbl f :
  (scan_format pl (sys, tbl) f).2 = CheckFourCCList f (plane_id pl) tbl.
Proof. done. Qed.

Lemma scan_formats_marked pl fs sys tbl :
  tbl_marked (λ g q, g ∈ fs ∧ q = plane_id pl) tbl
    (foldl (scan_format pl) (sys, tbl) fs).2.
Proof.
  revert sys tbl. induction fs as [|f fs IH]; intros sys tbl; cbn [foldl].
  - apply tbl_marked_refl.
  - destruct (scan_format pl (sys, tbl) f) as [sys1 tbl1] eqn:E.
    pose proof (scan_format_tbl pl sys tbl f) as Ht. rewrite E in Ht. simpl in Ht. subst.
    eapply tbl_marked_trans.
    + eapply tbl_marked_mono; [|apply CheckFourCCList_marked].
      intros g q [-> ->]. split; [apply elem_of_cons; by left|done].
    + eapply tbl_marked_mono; [|apply IH]. intros g q [? ->].
      split; [apply elem_of_cons; by right|done].
Qed.

Lemma offers_cons_r pl planes idx f p :
  offers planes idx f p → offers (pl :: planes) idx f p.
Proof. intros (x & ? & ?). exists x. split; [set_solver|done]. Qed.

Lemma scan_planes_marked planes idx sys tbl :
  tbl_marked (offers planes idx) tbl (scan_planes planes idx sys tbl).2.
Proof.
  revert sys tbl. induction planes as [|[pl|] planes IH]; intros sys tbl; simpl;
    try apply tbl_marked_refl.
  case_bool_decide; [|apply tbl_marked_refl].
  destruct (_ =? 0) eqn:Hmask.
  { eapply tbl_marked_mono; [|apply IH]. intros; by apply offers_cons_r. }
  pose proof (scan_formats_marked pl (formats pl) sys tbl) as Hfs.
  destruct (foldl _ _ _) as [sys1 tbl1]; simpl in Hfs.
  eapply tbl_marked_trans.
  - eapply tbl_marked_mono; [|apply Hfs]. intros g q [Hg ->].
    exists pl. unfold plane_usable. rewrite Hmask. split_and!; try done. set_solver.
  - eapply tbl_marked_mono; [|apply IH]. intros; by apply offers_cons_r.
Qed.

Lemma plane_scan_marked caps crtc sys tbl ok sys1 tbl1 :
  plane_scan caps crtc sys tbl = Some (ok, sys1, tbl1) →
  tbl_marked (offered caps crtc) tbl tbl1.
Proof.
  unfold plane_scan. destruct (caps_crtcs caps) as [crtcs|] eqn:Hc; [|done].
  destruct (caps_planes caps) as [[|pl planes]|] eqn:Hp;
    try (intros [= <- <- <-]; apply tbl_marked_refl).
  pose proof (scan_planes_marked (pl :: planes) (crtc_index_of crtcs crtc 0)
                (set_plane_id 0 sys) tbl) as Hm.
  destruct (scan_planes (pl :: planes) _ _ _) as [[ok' sys'] tbl'].
  intros [= <- <- <-]. eapply tbl_marked_mono; [|apply Hm].
  intros f p Hoff. by exists crtcs, (pl :: planes).
Qed.

(** X3.  The scan only finds what the planes list.  When the CRTC of the
    window is among those the device lists (at an index below 32, so that
    the shift [1 << crtc_index] is defined), then, whether the scan
    completes or not, the table keeps its size and every entry is as
    before, or was absent and is now present with the id of a plane that
    can be routed to the CRTC and lists the DRM code of the entry. *)
Theorem plane_scan_marks_are_sound
    (caps : drm_caps) (crtc : Z) (sys sys1 : vout_display_sys_t)
    (tbl tbl1 : list fourccmatching_t) (ok : bool) :
  crtc_listed caps crtc →
  plane_scan caps crtc sys tbl = Some (ok, sys1, tbl1) →
  length tbl1 = length tbl
  ∧ ∀ i e, tbl !! i = Some e →
      ∃ e1, tbl1 !! i = Some e1 ∧ marked (offered caps crtc) e e1.
Proof. intros _. apply plane_scan_marked. Qed.

Lemma plane_scan_marks_are_sound_witness :
  length (CheckFourCCList DRM_FORMAT_RGB565 31
            (CheckFourCCList DRM_FORMAT_XRGB8888 31 fourccmatching))
  = length fourccmatching.
Proof.
  exact (proj1 (plane_scan_marks_are_sound (sample_caps [rgb_plane]) 40
                  sys_calloc sys_calloc fourccmatching _ true
                  (sample_crtc_listed [rgb_plane]) eq_refl)).
Defined.

Lemma list_find_marked_inv (P : fourccmatching_t → Prop) `{∀ e, Decision (P e)}
    found tbl tbl' i e :
  (∀ e e', marked found e e' → P e ↔ P e') →
  tbl_marked found tbl tbl' →
  list_find P tbl = Some (i, e) →
  ∃ e', list_find P tbl' = Some (i, e') ∧ marked found e e'.
Proof.
  intros HP [Hlen Hm] (Hi & Hf & Hfirst)%list_find_Some.
  destruct (Hm i e Hi) as (e' & Hi' & Hmk). exists e'. split; [|done].
  apply list_find_Some. split_and!; [done|by apply (HP e e')|].
  intros j y' Hj Hlt Hy'.
  destruct (lookup_lt_is_Some_2 tbl j) as [y Hy].
  { apply lookup_lt_Some in Hj. lia. }
  destruct (Hm j y Hy) as (y'' & Hj' & Hmk'). simplify_eq.
  apply (Hfirst j y Hy Hlt). by apply (HP y y').
Qed.

Lemma list_find_marked found tbl tbl' f i e :
  tbl_marked found tbl tbl' →
  list_find (λ e, fm_drm e = f) tbl = Some (i, e) →
  ∃ e', list_find (λ e, fm_drm e = f) tbl' = Some (i, e') ∧ marked found e e'.
Proof.
  apply list_find_marked_inv. intros e0 e' Hmk. by rewrite (marked_drm _ _ _ Hmk).
Qed.

Lemma scan_formats_complete pl fs sys tbl f i e :
  f ∈ fs → list_find (λ e, fm_drm e = f) tbl = Some (i, e) →
  ∃ e', (foldl (scan_format pl) (sys, tbl) fs).2 !! i = Some e'
        ∧ fm_present e' = true ∧ fm_drm e' = f.
Proof.
  revert sys tbl e. induction fs as [|g fs IH]; intros sys tbl e Hin Hfind;
    [by apply elem_of_nil in Hin|].
  cbn [foldl]. destruct (scan_format pl (sys, tbl) g) as [sys1 tbl1] eqn:E.
  pose proof (scan_format_tbl pl sys tbl g) as Ht. rewrite E in Ht. simpl in Ht. subst.
  destruct (decide (g = f)) as [->|Hne].
  - pose proof (scan_formats_marked pl fs sys1 (CheckFourCCList f (plane_id pl) tbl))
      as [_ Hm].
    pose proof Hfind as (Hi & Hf & _)%list_find_Some.
    assert (CheckFourCCList f (plane_id pl) tbl !! i
            = Some (if fm_present e then e else mark_present e (plane_id pl))) as Hi1.
    { rewrite CheckFourCCList_find, Hfind. destruct (fm_present e); [done|].
      apply list_lookup_insert_eq. by eapply lookup_lt_Some. }
    destruct (Hm _ _ Hi1) as (e' & He' & Hmk). exists e'. split; [done|].
    assert (fm_present (if fm_present e then e else mark_present e (plane_id pl)) = true)
      as Hp by (by destruct (fm_present e) eqn:?).
    rewrite (marked_present _ _ _ Hmk Hp). split; [done|]. by destruct (fm_present e).
  - destruct (list_find_marked _ _ _ _ _ _ (CheckFourCCList_marked tbl g (plane_id pl))
                Hfind) as (e1 & Hfind1 & _).
    eapply IH; [set_solver|done].
Qed.

Lemma scan_planes_complete planes idx sys tbl sys' tbl' f p i e :
  scan_planes planes idx sys tbl = (true, sys', tbl') →
  offers planes idx f p →
  list_find (λ e, fm_drm e = f) tbl = Some (i, e) →
  ∃ e', tbl' !! i = Some e' ∧ fm_present e' = true ∧ fm_drm e' = f.
Proof.
  revert sys tbl e. induction planes as [|[pl|] planes IH]; intros sys tbl e; simpl.
  - intros _ (x & Hx & _). by apply elem_of_nil in Hx.
  - case_bool_decide; [|done].
    destruct (Z.land _ _ =? 0) eqn:Hmask.
    + intros Hscan (x & Hx & Hu & Hfx & Hpx) Hfind. eapply IH; [done| |done].
      apply elem_of_cons in Hx as [[= <-]|Hx]; [|by exists x].
      unfold plane_usable in Hu. by rewrite Hmask in Hu.
    + pose proof (scan_formats_marked pl (formats pl) sys tbl) as Hfs.
      pose proof (scan_formats_complete pl (formats pl) sys tbl f i e) as Hcomp.
      destruct (foldl _ _ _) as [sys1 tbl1]; simpl in *.
      intros Hscan (x & Hx & Hu & Hfx & Hpx) Hfind.
      apply elem_of_cons in Hx as [[= <-]|Hx].
      * destruct (Hcomp Hfx Hfind) as (e1 & Hi1 & Hp1 & Hd1).
        pose proof (scan_planes_marked planes idx sys1 tbl1) as [_ Hm].
        rewrite Hscan in Hm; simpl in Hm.
        destruct (Hm _ _ Hi1) as (e' & Hi' & Hmk).
        pose proof (marked_present _ _ _ Hmk Hp1) as ->. by exists e1.
      * destruct (list_find_marked _ _ _ _ _ _ Hfs Hfind) as (e1 & Hfind1 & _).
        eapply IH; [done|by exists x|done].
  - done.
Qed.

Lemma plane_scan_complete
    (caps : drm_caps) (crtc : Z) (sys sys1 : vout_display_sys_t)
    (tbl tbl1 : list fourccmatching_t) (f p : Z) (i : nat) (e : fourccmatching_t) :
  plane_scan caps crtc sys tbl = Some (true, sys1, tbl1) →
  offered caps crtc f p →
  list_find (λ e, fm_drm e = f) tbl = Some (i, e) →
  ∃ e1, tbl1 !! i = Some e1 ∧ fm_present e1 = true ∧ fm_drm e1 = f
        ∧ fm_vlc e1 = fm_vlc e ∧ fm_isYUV e1 = fm_isYUV e.
Proof.
  intros Hscan (crtcs & planes & Hc & Hp & Hoff) Hfind.
  pose proof (plane_scan_marked _ _ _ _ _ _ _ Hscan) as [_ Hm].
  unfold plane_scan in Hscan. rewrite Hc, Hp in Hscan.
  destruct planes as [|pl planes].
  { destruct Hoff as (x & Hx & _). by apply elem_of_nil in Hx. }
  assert (scan_planes (pl :: planes) (crtc_index_of crtcs crtc 0)
            (set_plane_id 0 sys) tbl = (true, sys1, tbl1)) as Hscan'.
  { destruct (scan_planes (pl :: planes) _ _ _) as [[??]?]. congruence. }
  destruct (scan_planes_complete _ _ _ _ _ _ _ _ _ _ Hscan' Hoff Hfind)
    as (e1 & Hi1 & Hp1 & Hd1).
  exists e1. split_and!; try done.
  - apply list_find_Some in Hfind as (Hi & _).
    destruct (Hm _ _ Hi) as (e1' & ? & [->|(_ & q & _ & ->)]); by simplify_eq.
  - apply list_find_Some in Hfind as (Hi & _).
    destruct (Hm _ _ Hi) as (e1' & ? & [->|(_ & q & _ & ->)]); by simplify_eq.
Qed.

(** X4.  The scan misses nothing.  When it completes, every format that a
    plane routable to the CRTC lists, and for which the table has an entry,
    has its first entry present afterwards. *)
Theorem plane_scan_marks_are_complete
    (caps : drm_caps) (crtc : Z) (sys sys1 : vout_display_sys_t)
    (tbl tbl1 : list fourccmatching_t) (f p : Z) (i : nat) (e : fourccmatching_t) :
  plane_scan caps crtc sys tbl = Some (true, sys1, tbl1) →
  offered caps crtc f p →
  list_find (λ e, fm_drm e = f) tbl = Some (i, e) →
  ∃ e1, tbl1 !! i = Some e1 ∧ fm_present e1 = true ∧ fm_drm e1 = f
        ∧ fm_vlc e1 = fm_vlc e ∧ fm_isYUV e1 = fm_isYUV e.
Proof. apply plane_scan_complete. Qed.

Lemma plane_scan_marks_are_complete_witness :
  ∃ e1, CheckFourCCList DRM_FORMAT_YUYV 32
          (CheckFourCCList DRM_FORMAT_NV12 32 fourccmatching) !! 3%nat = Some e1
        ∧ fm_present e1 = true.
Proof.
  destruct (plane_scan_marks_are_complete (sample_caps [yuv_plane]) 40
              sys_calloc sys_calloc fourccmatching
              (CheckFourCCList DRM_FORMAT_YUYV 32
                 (CheckFourCCList DRM_FORMAT_NV12 32 fourccmatching))
              DRM_FORMAT_NV12 32 3 (fm_static DRM_FORMAT_NV12 VLC_CODEC_NV12 true))
    as (e1 & H1 & H2 & _).
  - reflexivity.
  - exists [40], [Some yuv_plane]. split; [reflexivity|]. split; [reflexivity|].
    exists yuv_plane. split; [apply list_elem_of_here|]. split; [reflexivity|].
    split; [apply list_elem_of_here|reflexivity].
  - reflexivity.
  - exists e1. split; [exact H1|exact H2].
Defined.

(** ** What negotiation adopts *)

Lemma eqb_bool_decide (a b : Z) : (a =? b) = bool_decide (a = b).
Proof. case_bool_decide; [by apply Z.eqb_eq|by apply Z.eqb_neq]. Qed.

Lemma negotiate_nonforced_success
    (IsYUV : Z → bool) (sys sys' : vout_display_sys_t)
    (tbl : list fourccmatching_t) (msgs : list msg) :
  sys_forced_drm_fourcc sys = false → sys_drm_fourcc sys = 0 →
  negotiate IsYUV sys tbl = (true, sys', msgs) →
  msgs = []
  ∧ ∃ i e, tbl !! i = Some e ∧ fm_present e = true
      ∧ sys_drm_fourcc sys' = fm_drm e
      ∧ sys_plane_id sys' = fm_plane_id e
      ∧ sys_vlc_fourcc sys' = fm_vlc e
      ∧ (list_find (λ e, fm_vlc e = sys_vlc_fourcc sys) tbl = Some (i, e)
           ∧ fm_drm e ≠ 0
         ∨ list_find (λ e, fm_vlc e = sys_vlc_fourcc sys) tbl = None
           ∧ list_find (λ e, fm_isYUV e = IsYUV (sys_vlc_fourcc sys)
                             ∧ fm_present e = true) tbl = Some (i, e)).
Proof.
  intros Hforced Hdrm. unfold negotiate. rewrite Hforced.
  rewrite (for_c_find _ (λ e, fm_vlc e = sys_vlc_fourcc sys))
    by (intros; apply eqb_bool_decide).
  destruct (list_find (λ e, fm_vlc e = _) tbl) as [[i e]|] eqn:Hexact.
  - destruct (fm_present e) eqn:Hp; simpl.
    + destruct (fm_drm e =? 0) eqn:H0; [done|]. intros [= <- <-]. split; [done|].
      pose proof Hexact as (Hi & Hv & _)%list_find_Some.
      exists i, e. simpl. split_and!; try done. left. split; [done|by apply Z.eqb_neq].
    + by rewrite Hdrm.
  - rewrite family_fallback_same_family_only.
    destruct (list_find (λ e, fm_isYUV e = _ ∧ _) tbl) as [[i e]|] eqn:Hfam; [|done].
    intros [= <- <-]. split; [done|].
    pose proof Hfam as (Hi & [Hy Hp] & _)%list_find_Some.
    exists i, e. unfold adopt_family, adopt_drm. rewrite Hforced. simpl.
    split_and!; try done. by right.
Qed.

(** X5.  Without a forced hardware format, and with no hardware format
    set before, a successful negotiation adopts one present entry of the
    table: its DRM code, its plane and its logical format.  The entry is the
    first one for the desired logical format, if the table has one; else it
    is the first present entry of the family of the desired format. *)
Theorem negotiate_adopts_present_entry
    (IsYUV : Z → bool) (sys sys' : vout_display_sys_t)
    (tbl : list fourccmatching_t) (msgs : list msg) :
  sys_forced_drm_fourcc sys = false → sys_drm_fourcc sys = 0 →
  negotiate IsYUV sys tbl = (true, sys', msgs) →
  msgs = []
  ∧ ∃ i e, tbl !! i = Some e ∧ fm_present e = true
      ∧ sys_drm_fourcc sys' = fm_drm e
      ∧ sys_plane_id sys' = fm_plane_id e
      ∧ sys_vlc_fourcc sys' = fm_vlc e
      ∧ (list_find (λ e, fm_vlc e = sys_vlc_fourcc sys) tbl = Some (i, e)
           ∧ fm_drm e ≠ 0
         ∨ list_find (λ e, fm_vlc e = sys_vlc_fourcc sys) tbl = None
           ∧ list_find (λ e, fm_isYUV e = IsYUV (sys_vlc_fourcc sys)
                             ∧ fm_present e = true) tbl = Some (i, e)).
Proof. apply negotiate_nonforced_success. Qed.

Lemma negotiate_adopts_present_entry_witness :
  ∃ i e, CheckFourCCList DRM_FORMAT_XRGB8888 31 fourccmatching !! i = Some e
         ∧ fm_present e = true ∧ fm_plane_id e = 31.
Proof.
  destruct (negotiate_adopts_present_entry IsYUV_sample
              (set_vlc_fourcc VLC_CODEC_RGB32 sys_calloc)
              (set_plane_id 31 (set_drm_fourcc DRM_FORMAT_XRGB8888
                 (set_vlc_fourcc VLC_CODEC_RGB32 sys_calloc)))
              (CheckFourCCList DRM_FORMAT_XRGB8888 31 fourccmatching) [])
    as (_ & i & e & H1 & H2 & _ & H3 & _).
  - reflexivity.
  - reflexivity.
  - reflexivity.
  - exists i, e. split; [exact H1|]. split; [exact H2|]. symmetry. exact H3.
Defined.

(** X6.  Negotiation ends on what the display offers.  When the CRTC of
    the window is among those the device lists (at an index below 32, so
    that the shift of the scan is defined), from a table in which nothing
    is present yet and without a forced hardware format, a successful
    [ChromaNegotiation] leaves a DRM code and a plane id such that a plane
    with this id, routable to the CRTC, lists this code; the logical format
    it leaves is the one the table pairs with this code. *)
Theorem ChromaNegotiation_result_is_offered
    (IsYUV : Z → bool) (caps : drm_caps) (crtc : Z)
    (sys sys' : vout_display_sys_t) (tbl tbl' : list fourccmatching_t)
    (msgs : list msg) :
  crtc_listed caps crtc →
  sys_forced_drm_fourcc sys = false → sys_drm_fourcc sys = 0 →
  Forall (λ e, fm_present e = false) tbl →
  ChromaNegotiation IsYUV caps crtc sys tbl = (true, sys', tbl', msgs) →
  offered caps crtc (sys_drm_fourcc sys') (sys_plane_id sys')
  ∧ ∃ e, e ∈ tbl ∧ fm_drm e = sys_drm_fourcc sys' ∧ fm_vlc e = sys_vlc_fourcc sys'.
Proof.
  intros _ Hforced Hdrm Hclean. unfold ChromaNegotiation.
  destruct (plane_scan caps crtc sys tbl) as [[[[] sys1] tbl1]|] eqn:Hscan; try done.
  destruct (negotiate IsYUV sys1 tbl1) as [[res sys2] msgs2] eqn:Hneg.
  intros [= -> -> -> ->].
  destruct (plane_scan_formats _ _ _ _ _ _ _ Hscan) as (Hf1 & Hd1 & _ & _).
  destruct (negotiate_nonforced_success IsYUV sys1 sys' tbl' msgs
              ltac:(congruence) ltac:(congruence) Hneg)
    as (_ & i & e & Hi & Hp & -> & -> & -> & _).
  destruct (plane_scan_marked _ _ _ _ _ _ _ Hscan) as [Hlen Hm].
  destruct (lookup_lt_is_Some_2 tbl i) as [e0 Hi0].
  { apply lookup_lt_Some in Hi. lia. }
  destruct (Hm _ _ Hi0) as (e1 & Hi1 & Hmk). simplify_eq.
  assert (fm_present e0 = false) as Hp0.
  { rewrite Forall_forall in Hclean. apply Hclean. by eapply list_elem_of_lookup_2. }
  destruct Hmk as [->|(_ & p & Hoff & ->)]; [congruence|]. simpl. split; [done|].
  exists e0. split; [by eapply list_elem_of_lookup_2|done].
Qed.

Lemma ChromaNegotiation_result_is_offered_witness :
  offered (sample_caps [rgb_plane]) 40 DRM_FORMAT_XRGB8888 31.
Proof.
  let v := eval vm_compute in
    (ChromaNegotiation IsYUV_sample (sample_caps [rgb_plane]) 40
       (set_vlc_fourcc VLC_CODEC_RGB32 sys_calloc) fourccmatching) in
  match v with
  | (_, ?s, ?t, ?m) =>
      destruct (ChromaNegotiation_result_is_offered IsYUV_sample
                  (sample_caps [rgb_plane]) 40
                  (set_vlc_fourcc VLC_CODEC_RGB32 sys_calloc) s fourccmatching t m)
        as [H _]
  end.
  - apply sample_crtc_listed.
  - reflexivity.
  - reflexivity.
  - vm_compute. repeat constructor.
  - vm_compute. reflexivity.
  - exact H.
Defined.

Lemma scan_formats_bound pl fs sys tbl (P : Z → Prop) :
  (sys_plane_id sys = 0 ∨ P (sys_plane_id sys)) →
  (sys_drm_fourcc sys ∈ fs → P (plane_id pl)) →
  let r := foldl (scan_format pl) (sys, tbl) fs in
  sys_drm_fourcc r.1 = sys_drm_fourcc sys
  ∧ (sys_plane_id r.1 = 0 ∨ P (sys_plane_id r.1)).
Proof.
  revert sys tbl. induction fs as [|f fs IH]; intros sys tbl Hb HP; [done|].
  cbn [foldl].
  assert (scan_format pl (sys, tbl) f
          = (if sys_forced_drm_fourcc sys && (sys_plane_id sys =? 0)
                && (f =? sys_drm_fourcc sys)
             then set_plane_id (plane_id pl) sys else sys,
             CheckFourCCList f (plane_id pl) tbl)) as -> by done.
  destruct (sys_forced_drm_fourcc sys && (sys_plane_id sys =? 0)
            && (f =? sys_drm_fourcc sys)) eqn:Hc.
  - apply andb_prop in Hc as [_ ->%Z.eqb_eq].
    destruct (IH (set_plane_id (plane_id pl) sys)
                (CheckFourCCList (sys_drm_fourcc sys) (plane_id pl) tbl)) as [H1 H2].
    + right. simpl. apply HP. apply elem_of_cons; by left.
    + simpl. intros _. apply HP. apply elem_of_cons; by left.
    + cbv zeta. split; [exact H1|exact H2].
  - apply IH; [done|]. intros ?. apply HP. apply elem_of_cons; by right.
Qed.

Lemma bound_ok_mono planes planes' idx sys :
  planes ⊆ planes' → bound_ok planes idx sys → bound_ok planes' idx sys.
Proof.
  intros Hsub [?|(x & Hx & ?)]; [by left|right]. exists x. split; [by apply Hsub|done].
Qed.

Lemma scan_planes_bound_from seen planes idx sys tbl :
  bound_ok seen idx sys →
  sys_drm_fourcc (scan_planes planes idx sys tbl).1.2 = sys_drm_fourcc sys
  ∧ bound_ok (seen ++ planes) idx (scan_planes planes idx sys tbl).1.2.
Proof.
  revert seen sys tbl.
  induction planes as [|[pl|] planes IH]; intros seen sys tbl Hb; simpl.
  - by rewrite app_nil_r.
  - case_bool_decide;
      [|simpl; split; [done|]; eapply bound_ok_mono; [|done]; set_solver].
    replace (seen ++ Some pl :: planes) with ((seen ++ [Some pl]) ++ planes)
      by (by rewrite <- app_assoc).
    destruct (Z.land _ _ =? 0) eqn:Hmask.
    + apply IH. eapply bound_ok_mono; [|done]. set_solver.
    + destruct (scan_formats_bound pl (formats pl) sys tbl
                  (λ p, offers (seen ++ [Some pl]) idx (sys_drm_fourcc sys) p))
        as [Hd Hb'].
      * eapply (bound_ok_mono seen); [|done]. set_solver.
      * intros Hin. exists pl. unfold plane_usable. rewrite Hmask.
        split_and!; try done. set_solver.
      * destruct (foldl _ _ _) as [sys1 tbl1]; simpl in Hd, Hb'.
        destruct (IH (seen ++ [Some pl]) sys1 tbl1) as [H1 H2].
        { unfold bound_ok. by rewrite Hd. }
        split; [congruence|done].
  - split; [done|]. eapply bound_ok_mono; [|done]. set_solver.
Qed.

Lemma scan_planes_bound planes idx sys tbl :
  sys_plane_id sys = 0 →
  sys_drm_fourcc (scan_planes planes idx sys tbl).1.2 = sys_drm_fourcc sys
  ∧ bound_ok planes idx (scan_planes planes idx sys tbl).1.2.
Proof. intros Hp. apply (scan_planes_bound_from [] planes). by left. Qed.

(** X7.  When the CRTC of the window is among those the device lists (at
    an index below 32, so that the shift of the scan is defined) and a
    hardware format is forced, a successful [ChromaNegotiation] keeps the
    format and leaves the id, not 0, of a plane that is routable to the
    CRTC and lists the forced format, whatever the table held. *)
Theorem ChromaNegotiation_forced_plane_lists_format
    (IsYUV : Z → bool) (caps : drm_caps) (crtc : Z)
    (sys sys' : vout_display_sys_t) (tbl tbl' : list fourccmatching_t)
    (msgs : list msg) :
  crtc_listed caps crtc →
  sys_forced_drm_fourcc sys = true →
  ChromaNegotiation IsYUV caps crtc sys tbl = (true, sys', tbl', msgs) →
  sys_drm_fourcc sys' = sys_drm_fourcc sys
  ∧ sys_plane_id sys' ≠ 0
  ∧ offered caps crtc (sys_drm_fourcc sys) (sys_plane_id sys').
Proof.
  intros _ Hforced. unfold ChromaNegotiation.
  destruct (plane_scan caps crtc sys tbl) as [[[[] sys1] tbl1]|] eqn:Hscan; try done.
  destruct (negotiate IsYUV sys1 tbl1) as [[res sys2] msgs2] eqn:Hneg.
  intros [= -> -> -> ->].
  destruct (plane_scan_formats _ _ _ _ _ _ _ Hscan) as (Hf1 & Hd1 & _ & _).
  assert (sys_drm_fourcc sys' = sys_drm_fourcc sys1
          ∧ sys_plane_id sys' = sys_plane_id sys1 ∧ sys_plane_id sys1 ≠ 0)
    as (Hd & Hp & Hne).
  { unfold negotiate in Hneg. rewrite Hf1, Hforced in Hneg.
    destruct (for_c _ tbl' 0) as [[e|] c]; simpl in Hneg;
      destruct (sys_plane_id sys1 =? 0) eqn:H0; try done;
      injection Hneg as <- _; apply Z.eqb_neq in H0; done. }
  rewrite Hd, Hp, Hd1. split_and!; try done.
  unfold plane_scan in Hscan.
  destruct (caps_crtcs caps) as [crtcs|] eqn:Hc; [|done].
  destruct (caps_planes caps) as [[|pl planes]|] eqn:Hpl;
    try (injection Hscan as <- _; done).
  destruct (scan_planes_bound (pl :: planes) (crtc_index_of crtcs crtc 0)
              (set_plane_id 0 sys) tbl eq_refl) as [H1 H2].
  destruct (scan_planes (pl :: planes) _ _ _) as [[ok s] t]. simplify_eq. simpl in *.
  destruct H2 as [?|H2]; [done|]. exists crtcs, (pl :: planes). by rewrite <- Hd1.
Qed.

Lemma ChromaNegotiation_forced_plane_lists_format_witness :
  offered (sample_caps [rgb_plane; yuv_plane]) 40 DRM_FORMAT_NV12 32.
Proof.
  let v := eval vm_compute in
    (ChromaNegotiation IsYUV_sample (sample_caps [rgb_plane; yuv_plane]) 40
       (set_drm_fourcc DRM_FORMAT_NV12 (set_forced_drm_fourcc true sys_calloc))
       fourccmatching) in
  match v with
  | (_, ?s, ?t, ?m) =>
      destruct (ChromaNegotiation_forced_plane_lists_format IsYUV_sample
                  (sample_caps [rgb_plane; yuv_plane]) 40
                  (set_drm_fourcc DRM_FORMAT_NV12 (set_forced_drm_fourcc true sys_calloc))
                  s fourccmatching t m)
        as (_ & _ & H)
  end.
  - apply sample_crtc_listed.
  - reflexivity.
  - vm_compute. reflexivity.
  - exact H.
Defined.

(** ** One buffer, further *)

Lemma vlc_align_divide v k :
  0 ≤ k ≤ 32 → (2 ^ k | vlc_align v (2 ^ k)).
Proof.
  intros Hk. unfold vlc_align, wrap64.
  rewrite <- Z.ldiff_land.
  replace (2 ^ k - 1) with (Z.ones k) by (rewrite Z.ones_equiv; lia).
  rewrite Z.ldiff_ones_r by lia.
  rewrite Z.shiftl_mul_pow2 by lia.
  apply Z.mod_divide; [lia|].
  rewrite Z.mod_mod_divide.
  - apply Z.mod_mul. lia.
  - exists (2 ^ (64 - k)). rewrite <- Z.pow_add_r by lia. f_equal. lia.
Qed.

Lemma wrap32_divide v k : 0 ≤ k ≤ 32 → (2 ^ k | v) → (2 ^ k | wrap32 v).
Proof.
  intros Hk Hd. unfold wrap32. apply Z.mod_divide; [lia|].
  rewrite Z.mod_mod_divide.
  - apply Z.mod_divide; [lia|done].
  - exists (2 ^ (32 - k)). rewrite <- Z.pow_add_r by lia. f_equal. lia.
Qed.

Lemma wrap64_divide v k : 0 ≤ k ≤ 64 → (2 ^ k | v) → (2 ^ k | wrap64 v).
Proof.
  intros Hk Hd. unfold wrap64. apply Z.mod_divide; [lia|].
  rewrite Z.mod_mod_divide.
  - apply Z.mod_divide; [lia|done].
  - exists (2 ^ (64 - k)). rewrite <- Z.pow_add_r by lia. f_equal. lia.
Qed.

(** X8.  Whatever the format and the dimensions, also where the 32-bit
    arithmetic wraps, the stride [CreateFB] computes is a multiple of the
    tile width (512) and the number of rows it requests is a multiple of the
    tile height (16); both are 32-bit values. *)
Theorem CreateFB_layout_is_tile_aligned (sys : vout_display_sys_t) :
  (tile_width | sys_stride (CreateFB_layout sys).1)
  ∧ (tile_height | (CreateFB_layout sys).2)
  ∧ 0 ≤ sys_stride (CreateFB_layout sys).1 < 2 ^ 32
  ∧ 0 ≤ (CreateFB_layout sys).2 < 2 ^ 32.
Proof.
  assert (∀ v, (tile_width | wrap32 (vlc_align v tile_width))) as Hw.
  { intros v. apply (wrap32_divide _ 9); [lia|]. apply (vlc_align_divide v 9). lia. }
  assert (∀ v, (tile_height | vlc_align v tile_height)) as Hh.
  { intros v. apply (vlc_align_divide v 4). lia. }
  assert (∀ v, 0 ≤ wrap32 v < 2 ^ 32) as Hr.
  { intros v. unfold wrap32. apply Z.mod_pos_bound. lia. }
  assert (∀ v, (tile_height | wrap32 (wrap64 (2 * vlc_align v tile_height)))) as Hh2.
  { intros v. apply (wrap32_divide _ 4); [lia|]. apply (wrap64_divide _ 4); [lia|].
    apply Z.divide_mul_r. apply Hh. }
  unfold CreateFB_layout.
  destruct (_ || _); [|destruct (_ =? _)]; simpl; split_and!;
    try apply Hw; try apply Hh2; try apply Hr.
  apply (wrap32_divide _ 4); [lia|]. apply Hh.
Qed.

Lemma CreateFB_success
    (d d' : Drm.dev) (sys sys' : vout_display_sys_t) (buf : nat) :
  sys_wf sys → (buf < MAXHWBUF)%nat →
  CreateFB d sys buf = (drvSuccess, d', sys') →
  buffer_valid (buffer_of sys' buf)
  ∧ fresh_for (buffer_of sys' buf) (Drm.held d)
  ∧ Drm.held d' = add_buf (buffer_of sys' buf) (Drm.held d)
  ∧ held_by (buffer_of sys' buf) (Drm.held d')
  ∧ sys_size sys' = expected_size d sys
  ∧ (∀ i, i ≠ buf →
       sys_handle sys' !!! i = sys_handle sys !!! i
       ∧ sys_fb sys' !!! i = sys_fb sys !!! i
       ∧ sys_map sys' !!! i = sys_map sys !!! i)
  ∧ ∃ sz,
      Drm.log d' = Drm.log d ++
        [req_create sys (Some (sys_handle sys' !!! buf, sz));
         req_addfb sys (sys_handle sys' !!! buf) (Some (sys_fb sys' !!! buf));
         Drm.MAP_DUMB (sys_handle sys' !!! buf) true;
         Drm.MMAP (sys_size sys') (Some (sys_map sys' !!! buf))].
Proof.
  intros Hwf Hbuf Hc.
  destruct (CreateFB_cases _ _ _ _ _ _ Hwf Hbuf Hc) as (Hfr & Hds & Hcases).
  destruct Hcases as [(_ & ? & _)|(_ & h & Hh & Hh0 & Hhb & Hsz & Hcases)]; [done|].
  destruct Hcases as [(_ & ? & _)|(_ & fb & Hf & Hf0 & [(_ & ? & _)|[(_ & _ & ? & _)|(_ & _ & _ & _ & a & Ha0 & Ham & Hb & Hfresh & Hheld & Hlog & _)]])];
    try done.
  rewrite Hb. split_and!; try done.
  - rewrite Hheld. apply held_by_add.
  - intros i Hi. destruct Hfr as (_ & _ & _ & _ & _ & _ & _ & _ & _ & _ & _ & H1 & H2 & H3).
    auto.
  - injection Hb as Hb1 Hb2 Hb3 Hb4. rewrite Hb1, Hb2, Hb3, Hsz. eauto.
Qed.

(** X9.  A successful [CreateFB] records at index [buf] a complete buffer:
    a non-zero handle, a non-zero framebuffer id and a mapping that is
    neither NULL nor MAP_FAILED, none of which the device held before; the
    device now holds them on top of what it held, the recorded size is the
    one the driver answered, the other indices are as before, and the
    requests issued are CREATE_DUMB, ADDFB2, MAP_DUMB and mmap. *)
Theorem CreateFB_success_records_buffer
    (d d' : Drm.dev) (sys sys' : vout_display_sys_t) (buf : nat) :
  sys_wf sys → (buf < MAXHWBUF)%nat →
  CreateFB d sys buf = (drvSuccess, d', sys') →
  buffer_valid (buffer_of sys' buf)
  ∧ fresh_for (buffer_of sys' buf) (Drm.held d)
  ∧ Drm.held d' = add_buf (buffer_of sys' buf) (Drm.held d)
  ∧ held_by (buffer_of sys' buf) (Drm.held d')
  ∧ sys_size sys' = expected_size d sys
  ∧ (∀ i, i ≠ buf →
       sys_handle sys' !!! i = sys_handle sys !!! i
       ∧ sys_fb sys' !!! i = sys_fb sys !!! i
       ∧ sys_map sys' !!! i = sys_map sys !!! i)
  ∧ ∃ sz,
      Drm.log d' = Drm.log d ++
        [req_create sys (Some (sys_handle sys' !!! buf, sz));
         req_addfb sys (sys_handle sys' !!! buf) (Some (sys_fb sys' !!! buf));
         Drm.MAP_DUMB (sys_handle sys' !!! buf) true;
         Drm.MMAP (sys_size sys') (Some (sys_map sys' !!! buf))].
Proof. apply CreateFB_success. Qed.

Lemma CreateFB_success_records_buffer_witness :
  ∃ d' sys', CreateFB (idle_dev []) (sample_request DRM_FORMAT_NV12 640 480) 0
             = (drvSuccess, d', sys')
             ∧ buffer_valid (buffer_of sys' 0).
Proof.
  let v := eval vm_compute in
    (CreateFB (idle_dev []) (sample_request DRM_FORMAT_NV12 640 480) 0) in
  match v with
  | (_, ?d', ?sys') =>
      exists d', sys';
      destruct (CreateFB_success_records_buffer (idle_dev []) d'
                  (sample_request DRM_FORMAT_NV12 640 480) sys' 0) as (H & _)
  end.
  - vm_compute. repeat split.
  - vm_compute. lia.
  - vm_compute. reflexivity.
  - split; [vm_compute; reflexivity|exact H].
Defined.

(** X10.  [DestroyFB] undoes [CreateFB]: after a successful [CreateFB] for
    an index, [DestroyFB] for that index leaves the device holding exactly
    what it held before the two calls. *)
Theorem CreateFB_DestroyFB_round_trip
    (d d' : Drm.dev) (sys sys' : vout_display_sys_t) (buf : nat) :
  sys_wf sys → (buf < MAXHWBUF)%nat →
  CreateFB d sys buf = (drvSuccess, d', sys') →
  Drm.held (DestroyFB d' sys' buf) = Drm.held d.
Proof.
  intros Hwf Hbuf Hc.
  destruct (CreateFB_summary _ _ _ _ _ _ Hwf Hbuf Hc) as (_ & _ & Hcases).
  destruct Hcases as [(_ & _ & Hfresh & Hheld & _)|[(? & _)|(? & _)]]; [|done..].
  rewrite held_DestroyFB, Hheld. by apply del_add_buf.
Qed.

Lemma CreateFB_DestroyFB_round_trip_witness :
  ∃ d' sys', CreateFB (idle_dev []) (sample_request DRM_FORMAT_NV12 640 480) 0
             = (drvSuccess, d', sys')
             ∧ Drm.held (DestroyFB d' sys' 0) = Drm.held (idle_dev []).
Proof.
  let v := eval vm_compute in
    (CreateFB (idle_dev []) (sample_request DRM_FORMAT_NV12 640 480) 0) in
  match v with
  | (_, ?d', ?sys') =>
      exists d', sys';
      pose proof (CreateFB_DestroyFB_round_trip (idle_dev []) d'
                  (sample_request DRM_FORMAT_NV12 640 480) sys' 0) as H
  end.
  split; [vm_compute; reflexivity|]. apply H.
  - vm_compute. repeat split.
  - vm_compute. lia.
  - vm_compute. reflexivity.
Defined.

(** ** Sessions *)

(** What the buffer loop of [Open] leaves alone. *)
Lemma Open_buffers_frame n c d sys d' sys' :
  sys_wf sys → (c + n ≤ MAXHWBUF)%nat →
  Open_buffers (seq c n) d sys = (drvSuccess, d', sys') →
  (∀ i, (i < c)%nat → buffer_valid (buffer_of sys i)) →
  (∀ i, (i < c + n)%nat → buffer_valid (buffer_of sys' i))
  ∧ sys_width sys' = sys_width sys ∧ sys_height sys' = sys_height sys
  ∧ sys_drm_fourcc sys' = sys_drm_fourcc sys
  ∧ sys_vlc_fourcc sys' = sys_vlc_fourcc sys
  ∧ sys_plane_id sys' = sys_plane_id sys
  ∧ sys_front_buf sys' = sys_front_buf sys
  ∧ sys_picture sys' = sys_picture sys.
Proof.
  revert c d sys. induction n as [|n IH]; intros c d sys Hwf Hcn; simpl.
  - intros [= <- <-] Hv. rewrite Nat.add_0_r. done.
  - destruct (CreateFB d sys c) as [[r1 d1] sys1] eqn:Hc.
    case_bool_decide as Hr; [intros [= -> _ _]; done|].
    assert (r1 = drvSuccess) as -> by (by destruct r1).
    intros Hrest Hv. assert (c < MAXHWBUF)%nat as Hlt by lia.
    destruct (CreateFB_cases _ _ _ _ _ _ Hwf Hlt Hc) as (Hfr & _ & _).
    destruct (CreateFB_success _ _ _ _ _ Hwf Hlt Hc) as (Hnew & _).
    pose proof Hfr as (Fw & Fh & Fd & Fv & Fp & _ & Ff & Fpic & _ & _ & Hwf1 & Hh & Hf & Hm).
    destruct (IH (S c) d1 sys1 Hwf1 ltac:(lia) Hrest) as (Hall & ? & ? & ? & ? & ? & ? & ?).
    + intros i Hi. destruct (decide (i = c)) as [->|Hne]; [done|].
      specialize (Hv i ltac:(lia)). unfold buffer_valid, buffer_of in *; simpl in *.
      by rewrite Hh, Hf, Hm.
    + rewrite <- Nat.add_succ_comm. split_and!; try congruence. done.
Qed.

Lemma Open_picture_view sys :
  view_on sys 0 (Open_picture sys).
Proof.
  split; [done|]. intros i pl. unfold Open_picture, PICTURE_PLANE_MAX.
  cbn [pic_p foldl seq replicate alter list_alter].
  destruct i as [|[|[|[|[|i]]]]]; simpl; by intros [= <-].
Qed.

(** [Open] by cases: the way out and what is left. *)
Lemma Open_cases IsYUV env d tbl :
  (Open IsYUV env d tbl = Opened VLC_EGENERIC d None tbl [] false ∧ env_kms env = false)
  ∨ (Open IsYUV env d tbl = Opened VLC_ENOMEM d None tbl [] false
     ∧ env_kms env = true ∧ env_calloc env = false)
  ∨ (env_kms env = true ∧ env_calloc env = true
     ∧ ∃ sys1 tbl1 msgs,
         Open IsYUV env d tbl
         = Opened VLC_EGENERIC (Close d sys1).1 (Some sys1) tbl1 msgs false
         ∧ same_buffers (Open_chromas env sys_calloc) sys1)
  ∨ (env_kms env = true ∧ env_calloc env = true
     ∧ ∃ sysw, Open_ready IsYUV env tbl = Some sysw).
Proof.
  unfold Open, Open_ready.
  destruct (env_kms env); [|by left].
  destruct (env_calloc env); [|right; by left]. right; right. simpl.
  destruct (OpenDisplay _ _ _ _ _) as [[[rc sys0] tbl'] msgs] eqn:Hod.
  apply OpenDisplay_same_buffers in Hod.
  destruct (decide (rc = VLC_SUCCESS)) as [->|Hrc].
  - right. split_and!; try done. eauto.
  - left. split_and!; try done. exists sys0, tbl', msgs.
    rewrite bool_decide_eq_true_2 by done. done.
Qed.

Lemma Open_success_inv IsYUV env d tbl :
  o_ret (Open IsYUV env d tbl) = VLC_SUCCESS →
  ∃ sysw d1 sys1,
    Open_ready IsYUV env tbl = Some sysw
    ∧ Open_buffers (seq 0 MAXHWBUF) d sysw = (drvSuccess, d1, sys1)
    ∧ o_dev (Open IsYUV env d tbl) = d1
    ∧ o_sys (Open IsYUV env d tbl) = Some (set_picture (Some (Open_picture sys1)) sys1)
    ∧ o_ops (Open IsYUV env d tbl) = true.
Proof.
  destruct (Open_cases IsYUV env d tbl)
    as [[-> _]|[[-> _]|[(_ & _ & s & t & m & -> & _)|(_ & _ & sysw & Hready)]]];
    try done.
  destruct (Open_ready_Some _ _ _ _ Hready) as (Hwf & tbl' & msgs & Hopen).
  rewrite Hopen. destruct (Open_buffers _ d sysw) as [[r d1] sys1] eqn:Hall.
  case_bool_decide as Hr; [done|].
  assert (r = drvSuccess) as -> by (by destruct r).
  destruct (env_picture env); [|done]. simpl. intros _.
  exists sysw, d1, sys1. done.
Qed.

Lemma Open_buffers_made d sysw d1 sys1 :
  sys_wf sysw →
  Open_buffers (seq 0 MAXHWBUF) d sysw = (drvSuccess, d1, sys1) →
  stacked (Drm.held d) (ring sys1 MAXHWBUF) (Drm.held d1) ∧ sys_wf sys1
  ∧ ∃ rs, Drm.log d1 = Drm.log d ++ rs ∧ Forall (λ q, is_release q = false) rs.
Proof.
  intros Hwf Hall.
  apply (Open_buffers_inv (Drm.held d)) in Hall; [|done|lia|constructor|lia].
  destruct Hall as [(_ & Hst & Hwf1 & Hlog)|(? & _)]; [|done]. done.
Qed.

Lemma Open_ready_fields IsYUV env tbl sysw :
  Open_ready IsYUV env tbl = Some sysw →
  sys_width sysw = env_visible_width env ∧ sys_height sysw = env_visible_height env
  ∧ sys_front_buf sysw = 0 ∧ sys_picture sysw = None.
Proof.
  unfold Open_ready. destruct (_ && _); [|done].
  destruct (OpenDisplay _ _ _ _ _) as [[[rc sys0] tbl'] msgs] eqn:Hod.
  apply OpenDisplay_same_buffers in Hod.
  destruct rc; try done. intros [= <-]. simpl.
  destruct Hod as (_ & _ & _ & _ & _ & _ & _ & _ & Hp & Hf & _).
  rewrite Hp, Hf. split_and!; try done.
  - unfold Open_chromas.
    destruct (env_vlc_chroma env) as [v|]; [destruct (negb (v =? 0))|];
      (destruct (env_drm_chroma env) as [f|]; [destruct (negb (f =? 0))|]); done.
  - unfold Open_chromas.
    destruct (env_vlc_chroma env) as [v|]; [destruct (negb (v =? 0))|];
      (destruct (env_drm_chroma env) as [f|]; [destruct (negb (f =? 0))|]); done.
Qed.

(** X11.  A successful [Open] starts a session.  It installs the
    operations and leaves a state with the visible size of the source,
    [front_buf] 0 and a picture whose planes point into buffer 0; the
    [MAXHWBUF] buffers it records are complete (no zero handle or
    framebuffer id, no NULL or failed mapping), pairwise distinct, unused
    before and held by the device on top of what it held before; not one
    release request was issued. *)
Theorem Open_success_starts_session
    (IsYUV : Z → bool) (env : open_env) (d : Drm.dev) (tbl : list fourccmatching_t) :
  o_ret (Open IsYUV env d tbl) = VLC_SUCCESS →
  o_ops (Open IsYUV env d tbl) = true
  ∧ ∃ sys, o_sys (Open IsYUV env d tbl) = Some sys
      ∧ session_ok sys ∧ sys_front_buf sys = 0
      ∧ sys_width sys = env_visible_width env
      ∧ sys_height sys = env_visible_height env
      ∧ stacked (Drm.held d) (ring sys MAXHWBUF) (Drm.held (o_dev (Open IsYUV env d tbl)))
      ∧ (∀ i, (i < MAXHWBUF)%nat →
           buffer_valid (buffer_of sys i)
           ∧ held_by (buffer_of sys i) (Drm.held (o_dev (Open IsYUV env d tbl)))
           ∧ fresh_for (buffer_of sys i) (Drm.held d))
      ∧ (∀ i j, (i < MAXHWBUF)%nat → (j < MAXHWBUF)%nat → i ≠ j →
           sys_handle sys !!! i ≠ sys_handle sys !!! j
           ∧ sys_fb sys !!! i ≠ sys_fb sys !!! j
           ∧ sys_map sys !!! i ≠ sys_map sys !!! j)
      ∧ ∃ rs, Drm.log (o_dev (Open IsYUV env d tbl)) = Drm.log d ++ rs
              ∧ Forall (λ q, is_release q = false) rs.
Proof.
  intros Hret.
  destruct (Open_success_inv _ _ _ _ Hret) as (sysw & d1 & sys1 & Hready & Hall & -> & -> & ->).
  split; [done|]. eexists; split; [done|].
  destruct (Open_ready_Some _ _ _ _ Hready) as (Hwf & _).
  destruct (Open_ready_fields _ _ _ _ Hready) as (Hw & Hh & Hf & _).
  destruct (Open_buffers_made _ _ _ _ Hwf Hall) as (Hst & Hwf1 & Hlog).
  destruct (Open_buffers_frame MAXHWBUF 0 d sysw d1 sys1 Hwf ltac:(lia) Hall
              ltac:(intros; lia)) as (Hvalid & Fw & Fh & _ & _ & _ & Ff & _).
  set (sys := set_picture (Some (Open_picture sys1)) sys1).
  assert (ring sys MAXHWBUF = ring sys1 MAXHWBUF) as Hring by done.
  assert (∀ i, buffer_of sys i = buffer_of sys1 i) as Hbuf by done.
  rewrite Hring.
  split_and!; try done.
  - split; [done|]. split; [simpl; rewrite Ff, Hf; unfold MAXHWBUF; lia|].
    exists (Open_picture sys1). split; [done|].
    simpl. rewrite Ff, Hf. apply (Open_picture_view sys1).
  - simpl. congruence.
  - simpl. congruence.
  - simpl. congruence.
  - intros i Hi. rewrite Hbuf.
    pose proof (ring_lookup sys1 MAXHWBUF i Hi) as Hl.
    apply list_elem_of_lookup_2 in Hl. split_and!.
    + by apply Hvalid.
    + by eapply stacked_held_by.
    + by eapply stacked_fresh_base.
  - intros i j Hi Hj Hij.
    pose proof (ring_lookup sys1 MAXHWBUF i Hi) as Hli.
    pose proof (ring_lookup sys1 MAXHWBUF j Hj) as Hlj.
    apply (stacked_distinct _ _ _ _ _ _ _ Hst Hli Hlj). lia.
Qed.

Lemma Open_success_starts_session_witness :
  ∃ sys, o_sys (sample_open []) = Some sys ∧ session_ok sys.
Proof.
  destruct (Open_success_starts_session IsYUV_sample
              (sample_env None None VLC_CODEC_NV12 [rgb_plane; yuv_plane] true)
              (idle_dev (replicate 12 0 ++ [])) fourccmatching)
    as (_ & sys & H1 & H2 & _).
  - vm_compute. reflexivity.
  - exists sys. split; [exact H1|exact H2].
Defined.

(** X12.  The ways out of [Open].  It returns [VLC_SUCCESS],
    [VLC_EGENERIC], [VLC_ENOMEM] or the value [drvFail] of [CreateFB]; it
    installs the operations exactly when it returns [VLC_SUCCESS]; and it
    leaves no state behind exactly when the window is not a KMS one or the
    allocation of the state failed, in which case no request reaches the
    device. *)
Theorem Open_outcomes
    (IsYUV : Z → bool) (env : open_env) (d : Drm.dev) (tbl : list fourccmatching_t) :
  o_ret (Open IsYUV env d tbl)
    ∈ [VLC_SUCCESS; VLC_EGENERIC; VLC_ENOMEM; ret_CreateFB drvFail]
  ∧ (o_ops (Open IsYUV env d tbl) = true ↔ o_ret (Open IsYUV env d tbl) = VLC_SUCCESS)
  ∧ (o_sys (Open IsYUV env d tbl) = None ↔ env_kms env = false ∨ env_calloc env = false)
  ∧ (o_ret (Open IsYUV env d tbl) = VLC_ENOMEM ↔
     env_kms env = true ∧ env_calloc env = false)
  ∧ (o_sys (Open IsYUV env d tbl) = None → o_dev (Open IsYUV env d tbl) = d).
Proof.
  destruct (Open_cases IsYUV env d tbl)
    as [[-> Hk]|[(-> & Hk & Hc)|[(Hk & Hc & s & t & m & -> & _)|(Hk & Hc & sysw & Hready)]]];
    simpl.
  - split; [repeat constructor|]; naive_solver congruence.
  - split; [repeat constructor|]; naive_solver congruence.
  - split; [repeat constructor|]; naive_solver congruence.
  - destruct (Open_ready_Some _ _ _ _ Hready) as (Hwf & tbl' & msgs & Hopen).
    rewrite Hopen. destruct (Open_buffers _ d sysw) as [[r d1] sys1] eqn:Hall.
    apply (Open_buffers_inv (Drm.held d)) in Hall; [|done|lia|constructor|lia].
    destruct Hall as [(-> & _)|(-> & _)].
    + rewrite bool_decide_eq_false_2 by (by intros []).
      destruct (env_picture env); simpl;
        (split; [repeat constructor|]; naive_solver congruence).
    + rewrite bool_decide_eq_true_2 by done. simpl.
      split; [repeat constructor|]; naive_solver congruence.
Qed.

(** ** Release *)

Section release.
Implicit Types (H : gset Z * gset Z * gmap Z Z) (b : buffer).

Lemma released_del_buf b H : released b (del_buf b H).
Proof.
  destruct H as [[D F] M]. unfold released, del_buf; simpl.
  split_and!; [set_solver..|]. case_bool_decide; [by rewrite lookup_delete_eq|done].
Qed.

Lemma released_del_other b b' H : released b H → released b (del_buf b' H).
Proof.
  destruct H as [[D F] M]. unfold released, del_buf; simpl. intros (? & ? & Hm).
  split_and!; [set_solver..|]. case_bool_decide; [|done].
  intros Hl. apply Hm. by apply lookup_delete_Some in Hl as [_ ?].
Qed.

Lemma del_buf_released b H : released b H → del_buf b H = H.
Proof.
  destruct H as [[D F] M]. unfold released, del_buf; simpl. intros (? & ? & Hm).
  rewrite bool_decide_eq_false_2 by done. split_holding; set_solver.
Qed.

Lemma del_bufs_released bs H :
  Forall (λ b, released b H) bs → del_bufs bs H = H.
Proof.
  unfold del_bufs. induction 1 as [|b bs Hb Hbs IH]; simpl; [done|].
  by rewrite del_buf_released.
Qed.

Lemma released_del_bufs_other bs b H : released b H → released b (del_bufs bs H).
Proof.
  unfold del_bufs. revert H. induction bs as [|b' bs IH]; intros H Hr; simpl; [done|].
  apply IH. by apply released_del_other.
Qed.

Lemma released_del_bufs bs H : Forall (λ b, released b (del_bufs bs H)) bs.
Proof.
  unfold del_bufs. revert H. induction bs as [|b bs IH]; intros H; simpl; [done|].
  constructor; [|apply IH].
  apply (released_del_bufs_other bs). apply released_del_buf.
Qed.

Lemma held_DestroyFB_each_del cs d sys :
  Drm.held (DestroyFB_each cs d sys) = del_bufs (buffer_of sys <$> cs) (Drm.held d).
Proof.
  unfold DestroyFB_each, del_bufs. revert d.
  induction cs as [|c cs IH]; intros d; simpl; [done|].
  by rewrite IH, held_DestroyFB.
Qed.
End release.

(** X13.  On a state without a picture, as the one on which [Open] calls
    [Close] after a failed [OpenDisplay], [Close] hands nothing to
    [picture_Release], and a second [Close] on the same state changes
    nothing of what the device holds, whatever the state records and
    whatever the device held. *)
Theorem Close_twice_releases_nothing_more (d : Drm.dev) (sys : vout_display_sys_t) :
  sys_picture sys = None →
  (Close d sys).2 = None
  ∧ (Close (Close d sys).1 sys).2 = None
  ∧ Drm.held (Close (Close d sys).1 sys).1 = Drm.held (Close d sys).1.
Proof.
  intros Hpic. unfold Close, CustomDestroyPicture. cbn [fst snd].
  split; [done|]. split; [done|]. rewrite !held_DestroyFB_each_del.
  apply del_bufs_released, released_del_bufs.
Qed.

Lemma Close_twice_releases_nothing_more_witness :
  Drm.held (Close (Close (idle_dev []) sys_calloc).1 sys_calloc).1
  = Drm.held (Close (idle_dev []) sys_calloc).1.
Proof.
  destruct (Close_twice_releases_nothing_more (idle_dev []) sys_calloc) as (_ & _ & H).
  - reflexivity.
  - exact H.
Defined.

(** X14.  [Close] undoes [Open]: after a successful [Open], [Close] on the
    state it left gives the device back exactly what it held before
    [Open]. *)
Theorem Open_Close_round_trip
    (IsYUV : Z → bool) (env : open_env) (d : Drm.dev) (tbl : list fourccmatching_t)
    (sys : vout_display_sys_t) :
  o_ret (Open IsYUV env d tbl) = VLC_SUCCESS →
  o_sys (Open IsYUV env d tbl) = Some sys →
  Drm.held (Close (o_dev (Open IsYUV env d tbl)) sys).1 = Drm.held d.
Proof.
  intros Hret Hsys.
  destruct (Open_success_inv _ _ _ _ Hret) as (sysw & d1 & sys1 & Hready & Hall & Hd & Hs & _).
  rewrite Hd. rewrite Hs in Hsys. injection Hsys as <-.
  destruct (Open_ready_Some _ _ _ _ Hready) as (Hwf & _).
  destruct (Open_buffers_made _ _ _ _ Hwf Hall) as (Hst & _).
  unfold Close, CustomDestroyPicture. cbn [fst snd]. by apply held_DestroyFB_each.
Qed.

Lemma Open_Close_round_trip_witness :
  Drm.held (Close (o_dev (sample_open [])) sample_sys).1 = (∅, ∅, ∅).
Proof.
  apply (Open_Close_round_trip IsYUV_sample
           (sample_env None None VLC_CODEC_NV12 [rgb_plane; yuv_plane] true)
           (idle_dev (replicate 12 0 ++ [])) fourccmatching sample_sys).
  - vm_compute. reflexivity.
  - vm_compute. reflexivity.
Defined.

Lemma Open_chromas_zeroed env :
  let s := Open_chromas env sys_calloc in
  sys_handle s = replicate MAXHWBUF 0 ∧ sys_fb s = replicate MAXHWBUF 0
  ∧ sys_map s = replicate MAXHWBUF 0 ∧ sys_size s = 0.
Proof.
  unfold Open_chromas.
  destruct (env_vlc_chroma env) as [v|]; [destruct (negb (v =? 0))|];
    (destruct (env_drm_chroma env) as [f|]; [destruct (negb (f =? 0))|]); done.
Qed.

Lemma idle_dev_sane script : dev_sane (idle_dev script).
Proof. unfold dev_sane, idle_dev; simpl. split_and!; [set_solver..|done]. Qed.

(** X15.  A failed [Open] gives everything back, but for two failures.
    On a device that holds nothing under the id 0 or at the address 0, when
    [picture_NewFromResource] succeeds and the device does not refuse the
    allocation of the second or of the third buffer (its answers 4 and 8,
    each buffer made before having taken four), an [Open] that does not
    return [VLC_SUCCESS] leaves the device holding exactly what it held
    before. *)
Theorem Open_failure_leaves_nothing
    (IsYUV : Z → bool) (env : open_env) (d : Drm.dev) (tbl : list fourccmatching_t) :
  dev_sane d → env_picture env = true →
  Drm.answer d 4 = 0 → Drm.answer d 8 = 0 →
  o_ret (Open IsYUV env d tbl) ≠ VLC_SUCCESS →
  Drm.held (o_dev (Open IsYUV env d tbl)) = Drm.held d.
Proof.
  intros (Hd0 & Hf0 & Hm0) Hpic Ha4 Ha8.
  destruct (Open_cases IsYUV env d tbl)
    as [[-> Hk]|[(-> & Hk & Hc)|[(Hk & Hc & s & t & m & -> & Hsb)|(Hk & Hc & sysw & Hready)]]];
    simpl; try done.
  - intros _. unfold Close, CustomDestroyPicture. cbn [fst snd].
    rewrite held_DestroyFB_each_del.
    apply del_bufs_released.
    destruct (Open_chromas_zeroed env) as (Hh & Hf & Hm & Hs).
    destruct Hsb as (_ & _ & _ & Hs' & _ & Hh' & Hm' & Hf' & _).
    assert (∀ i, (i < MAXHWBUF)%nat → buffer_of s i = Buffer 0 0 0 0) as Hb.
    { intros i Hi. unfold buffer_of. rewrite Hh', Hf', Hm', Hs', Hh, Hf, Hm, Hs.
      by rewrite list_lookup_total_alt, lookup_replicate_2. }
    apply Forall_fmap, Forall_forall. intros i Hi%elem_of_seq. simpl.
    rewrite Hb by lia. unfold released, Drm.held; simpl.
    split_and!; [done|done|by rewrite Hm0].
  - destruct (Open_ready_Some _ _ _ _ Hready) as (Hwf & tbl' & msgs & Hopen).
    rewrite Hopen. destruct (Open_buffers _ d sysw) as [[r d1] sys1] eqn:Hall.
    apply (Open_buffers_inv (Drm.held d)) in Hall; [|done|lia|constructor|lia].
    destruct Hall as [(-> & _)|(-> & Hheld)].
    + rewrite bool_decide_eq_false_2 by (by intros []). by rewrite Hpic.
    + rewrite bool_decide_eq_true_2 by done. simpl. intros _.
      apply Hheld; [by left| |done].
      intros j Hj. unfold MAXHWBUF in Hj.
      assert (j = 1 ∨ j = 2)%nat as [->| ->] by lia; done.
Qed.

(** The device refuses the framebuffer object of the second buffer. *)
Lemma Open_failure_leaves_nothing_witness :
  Drm.held (o_dev (Open IsYUV_sample
                     (sample_env None None VLC_CODEC_NV12 [rgb_plane; yuv_plane] true)
                     (idle_dev [0; 0; 0; 0; 0; 12]) fourccmatching))
  = (∅, ∅, ∅).
Proof.
  apply (Open_failure_leaves_nothing IsYUV_sample
           (sample_env None None VLC_CODEC_NV12 [rgb_plane; yuv_plane] true)
           (idle_dev [0; 0; 0; 0; 0; 12]) fourccmatching).
  - apply idle_dev_sane.
  - reflexivity.
  - reflexivity.
  - reflexivity.
  - vm_compute. congruence.
Defined.

(** ** The presentation cycle in a session *)

Lemma ModeSetPlane_spec p c fb dst src d :
  let r := Drm.ModeSetPlane p c fb dst src d in
  Drm.held r.2 = Drm.held d ∧ r.1 ≤ 0
  ∧ Drm.log r.2 = Drm.log d ++ [Drm.SETPLANE p c fb dst src r.1].
Proof.
  unfold Drm.ModeSetPlane, Drm.errno.
  destruct (Drm.script d) as [|e s]; simpl; (split_and!; [done|lia|done]).
Qed.

Lemma repoint_length base offsets pic :
  length (pic_p (repoint base offsets pic)) = length (pic_p pic).
Proof. unfold repoint, PICTURE_PLANE_MAX. cbn [pic_p foldl seq]. by rewrite !length_alter. Qed.

Lemma repoint_view sys buf pic :
  length (pic_p pic) = PICTURE_PLANE_MAX →
  view_on sys buf (repoint (sys_map sys !!! buf) (sys_offsets sys) pic).
Proof.
  intros Hlen. split.
  - unfold repoint, PICTURE_PLANE_MAX. cbn [pic_p foldl seq]. by rewrite !length_alter.
  - intros i pl. rewrite repoint_lookup.
    case_bool_decide as Hi.
    + destruct (pic_p pic !! i) as [pl0|]; simpl; [|done]. by intros [= <-].
    + intros Hl%lookup_lt_Some. lia.
Qed.

Lemma repoint_fixed sys buf pic :
  view_on sys buf pic → repoint (sys_map sys !!! buf) (sys_offsets sys) pic = pic.
Proof.
  intros [Hlen Hv]. destruct pic as [ch w h p]. unfold repoint; simpl in *. f_equal.
  apply list_eq. intros i.
  pose proof (repoint_lookup (sys_map sys !!! buf) (sys_offsets sys) (Picture ch w h p) i)
    as Hl.
  unfold repoint in Hl; simpl in Hl. rewrite Hl.
  case_bool_decide; [|done].
  destruct (p !! i) as [pl|] eqn:Hp; simpl; [|done].
  rewrite <- (Hv i pl Hp). by destruct pl.
Qed.

Lemma repoint_repoint b b' offsets pic :
  length (pic_p pic) = PICTURE_PLANE_MAX →
  repoint b offsets (repoint b' offsets pic) = repoint b offsets pic.
Proof.
  intros Hlen. destruct pic as [ch w h p]; simpl in *.
  destruct p as [|p0 [|p1 [|p2 [|p3 [|p4 [|p5 p]]]]]]; try done.
Qed.

(** [Display] in a session, by the result of the commit. *)
Lemma Display_in_session ndebug geo d sys pic :
  session_ok sys → sys_picture sys = Some pic →
  let fb := sys_fb sys !!! Z.to_nat (sys_front_buf sys) in
  let front' := (sys_front_buf sys + 1) mod Z.of_nat MAXHWBUF in
  let r := Display_commit geo d sys fb in
  Display ndebug geo d sys =
    if r.1 =? 0
    then (Returned, [], r.2,
          set_picture (Some (repoint (sys_map sys !!! Z.to_nat front')
                                     (sys_offsets sys) pic))
            (set_front_buf front' sys))
    else (if negb ndebug && (r.1 =? - EINVAL) then Aborted else Returned,
          [Err_set_plane (sys_plane_id sys) fb], r.2, sys).
Proof.
  intros ((Hlh & Hlm & Hlf & Hlo) & Hfront & _) Hpic fb front' r.
  destruct (next_front_buf_spec _ Hfront) as (Hnext & Hrange & Hne).
  fold front' in Hnext. rewrite Hnext in Hrange.
  assert (sys_fb sys !! Z.to_nat (sys_front_buf sys) = Some fb) as Hfb.
  { apply list_lookup_lookup_total_lt. rewrite Hlf. unfold MAXHWBUF in *. lia. }
  assert (sys_map sys !! Z.to_nat front' = Some (sys_map sys !!! Z.to_nat front'))
    as Hbase.
  { apply list_lookup_lookup_total_lt. rewrite Hlm. unfold MAXHWBUF in *. lia. }
  unfold Display. rewrite Hfb. subst r.
  destruct (Display_commit geo d sys fb) as [ret d1]; simpl.
  destruct (ret =? 0); simpl; [|by destruct (_ && _)].
  by rewrite Hnext, Hpic, Hbase.
Qed.

(** [Display] preserves the session. *)
Lemma Display_session
    (ndebug : bool) (geo : geometry) (d d' : Drm.dev) (sys sys' : vout_display_sys_t)
    (how : exit) (msgs : list msg) :
  session_ok sys →
  Display ndebug geo d sys = (how, msgs, d', sys') →
  how ≠ Undefined
  ∧ session_ok sys'
  ∧ Drm.held d' = Drm.held d
  ∧ set_picture (sys_picture sys) (set_front_buf (sys_front_buf sys) sys') = sys
  ∧ ∃ src ret,
      Drm.log d' = Drm.log d ++
        [Drm.SETPLANE (sys_plane_id sys) (geo_crtc geo)
           (sys_fb sys !!! Z.to_nat (sys_front_buf sys)) (geo_place geo) src ret]
      ∧ (msgs = [] ↔ ret = 0)
      ∧ (ret ≠ 0 → sys' = sys).
Proof.
  intros Hs. pose proof Hs as (Hwf & Hfront & pic & Hpic & Hview).
  rewrite (Display_in_session ndebug geo d sys pic Hs Hpic).
  destruct (next_front_buf_spec _ Hfront) as (Hnext & Hrange & Hne).
  rewrite Hnext in Hrange.
  unfold Display_commit.
  destruct (ModeSetPlane_spec (sys_plane_id sys) (geo_crtc geo)
              (sys_fb sys !!! Z.to_nat (sys_front_buf sys)) (geo_place geo)
              (wrap32 (Z.shiftl (geo_x_offset geo) 16),
               wrap32 (Z.shiftl (geo_y_offset geo) 16),
               wrap32 (Z.shiftl (geo_visible_width geo) 16),
               wrap32 (Z.shiftl (geo_visible_height geo) 16)) d)
    as (Hheld & _ & Hlog).
  destruct (Drm.ModeSetPlane _ _ _ _ _ d) as [ret d1]; simpl in *.
  destruct (Z.eqb_spec ret 0) as [->|Hret].
  - intros [= <- <- <- <-]. split_and!; try done.
    + split; [done|]. split; [done|]. eexists. split; [done|].
      simpl. apply (repoint_view sys). apply Hview.
    + by destruct sys.
    + do 2 eexists. split; [done|]. done.
  - intros [= <- <- <- <-]. split_and!; try done.
    + by destruct (_ && _).
    + by destruct sys.
    + do 2 eexists. split; [done|]. split; [|done]. split; [done|]. intros; done.
Qed.

(** X16.  [Display] keeps a session going.  In a session (arrays of the
    declared sizes, [front_buf] below [MAXHWBUF], a picture whose planes
    point into the front buffer) [Display] never reads outside an array nor
    through a NULL picture, sends the device exactly one request, the plane
    update for the framebuffer of [front_buf], changes nothing of what the
    device holds, changes nothing of the state but [front_buf] and the
    picture, and leaves a session again.  It reports an error exactly when
    the device refused the update. *)
Theorem Display_keeps_session
    (ndebug : bool) (geo : geometry) (d d' : Drm.dev) (sys sys' : vout_display_sys_t)
    (how : exit) (msgs : list msg) :
  session_ok sys →
  Display ndebug geo d sys = (how, msgs, d', sys') →
  how ≠ Undefined
  ∧ session_ok sys'
  ∧ Drm.held d' = Drm.held d
  ∧ set_picture (sys_picture sys) (set_front_buf (sys_front_buf sys) sys') = sys
  ∧ ∃ src ret,
      Drm.log d' = Drm.log d ++
        [Drm.SETPLANE (sys_plane_id sys) (geo_crtc geo)
           (sys_fb sys !!! Z.to_nat (sys_front_buf sys)) (geo_place geo) src ret]
      ∧ (msgs = [] ↔ ret = 0)
      ∧ (ret ≠ 0 → sys' = sys).
Proof. apply Display_session. Qed.

Lemma sample_sys_session : session_ok sample_sys.
Proof.
  split; [by vm_compute|]. split; [by vm_compute|].
  eexists. split; [vm_compute; reflexivity|]. split; [by vm_compute|].
  intros i pl H. vm_compute in H.
  destruct i as [|[|[|[|[|i]]]]]; [injection H as <-; by vm_compute..|by destruct i].
Qed.

Lemma Display_keeps_session_witness :
  session_ok (Display true sample_geometry (o_dev (sample_open [])) sample_sys).2.
Proof.
  let v := eval vm_compute in
    (Display true sample_geometry (o_dev (sample_open [])) sample_sys) in
  match v with
  | (?how, ?msgs, ?d', ?sys') =>
      destruct (Display_keeps_session true sample_geometry (o_dev (sample_open [])) d'
                  sample_sys sys' how msgs) as (_ & H & _)
  end.
  - exact sample_sys_session.
  - vm_compute. reflexivity.
  - exact H.
Defined.

(** X17.  The ring has period [MAXHWBUF].  In a session, three calls of
    [Display] in a row that report no error bring the state back to what
    it was: the same [front_buf] and the same picture planes. *)
Theorem Display_three_times_is_identity
    (ndebug : bool) (geo : geometry) (d d1 d2 d3 : Drm.dev)
    (sys s1 s2 s3 : vout_display_sys_t) (h1 h2 h3 : exit) :
  session_ok sys →
  Display ndebug geo d sys = (h1, [], d1, s1) →
  Display ndebug geo d1 s1 = (h2, [], d2, s2) →
  Display ndebug geo d2 s2 = (h3, [], d3, s3) →
  s3 = sys
  ∧ sys_front_buf s1 ≠ sys_front_buf sys ∧ sys_front_buf s2 ≠ sys_front_buf sys
  ∧ sys_front_buf s1 ≠ sys_front_buf s2.
Proof.
  assert (∀ d sys h d' sys' pic,
    session_ok sys → sys_picture sys = Some pic →
    Display ndebug geo d sys = (h, [], d', sys') →
    sys' = set_picture
             (Some (repoint (sys_map sys !!!
                       Z.to_nat ((sys_front_buf sys + 1) mod Z.of_nat MAXHWBUF))
                     (sys_offsets sys) pic))
             (set_front_buf ((sys_front_buf sys + 1) mod Z.of_nat MAXHWBUF) sys)
    ∧ session_ok sys') as Hstep.
  { intros d0 sys0 h d' sys' pic Hs Hpic HD.
    destruct (Display_session ndebug geo d0 d' sys0 sys' h [] Hs HD)
      as (_ & Hs' & _).
    split; [|done].
    rewrite (Display_in_session ndebug geo d0 sys0 pic Hs Hpic) in HD.
    destruct (_ =? 0); [|done]. by injection HD as _ _ <-. }
  intros Hs HD1 HD2 HD3.
  pose proof Hs as (Hwf & Hfront & pic & Hpic & Hview).
  destruct (Hstep _ _ _ _ _ _ Hs Hpic HD1) as [-> Hs1].
  destruct (Hstep _ _ _ _ _ _ Hs1 eq_refl HD2) as [-> Hs2].
  destruct (Hstep _ _ _ _ _ _ Hs2 eq_refl HD3) as [-> Hs3].
  clear HD1 HD2 HD3 Hs1 Hs2 Hs3 Hstep. simpl.
  set (f := sys_front_buf sys) in *.
  assert (((f + 1) mod Z.of_nat MAXHWBUF + 1) mod Z.of_nat MAXHWBUF ≠ f
          ∧ (f + 1) mod Z.of_nat MAXHWBUF ≠ f
          ∧ (f + 1) mod Z.of_nat MAXHWBUF
            ≠ ((f + 1) mod Z.of_nat MAXHWBUF + 1) mod Z.of_nat MAXHWBUF
          ∧ (((f + 1) mod Z.of_nat MAXHWBUF + 1) mod Z.of_nat MAXHWBUF + 1)
              mod Z.of_nat MAXHWBUF = f) as (? & ? & ? & Hper).
  { unfold MAXHWBUF in *.
    assert (f = 0 ∨ f = 1 ∨ f = 2) as [->|[->| ->]] by lia; done. }
  split_and!; try done.
  rewrite Hper. destruct Hview as [Hlen Hv].
  rewrite !repoint_repoint by (by rewrite ?repoint_length).
  subst f. rewrite (repoint_fixed sys (Z.to_nat (sys_front_buf sys)) pic) by done.
  rewrite <- Hpic. by destruct sys.
Qed.

Lemma Display_three_times_is_identity_witness :
  (Display true sample_geometry
     (Display true sample_geometry
        (Display true sample_geometry (o_dev (sample_open [])) sample_sys).1.2
        (Display true sample_geometry (o_dev (sample_open [])) sample_sys).2).1.2
     (Display true sample_geometry
        (Display true sample_geometry (o_dev (sample_open [])) sample_sys).1.2
        (Display true sample_geometry (o_dev (sample_open [])) sample_sys).2).2).2
  = sample_sys.
Proof.
  let v1 := eval vm_compute in
    (Display true sample_geometry (o_dev (sample_open [])) sample_sys) in
  match v1 with
  | (?h1, _, ?d1, ?s1) =>
    let v2 := eval vm_compute in (Display true sample_geometry d1 s1) in
    match v2 with
    | (?h2, _, ?d2, ?s2) =>
      let v3 := eval vm_compute in (Display true sample_geometry d2 s2) in
      match v3 with
      | (?h3, _, ?d3, ?s3) =>
          destruct (Display_three_times_is_identity true sample_geometry
                      (o_dev (sample_open [])) d1 d2 d3 sample_sys s1 s2 s3 h1 h2 h3)
            as (H & _)
      end
    end
  end.
  - exact sample_sys_session.
  - vm_compute. reflexivity.
  - vm_compute. reflexivity.
  - vm_compute. reflexivity.
  - vm_compute. reflexivity.
Defined.

(** ** What negotiation is bound to find *)

Lemma marked_vlc found e e' : marked found e e' → fm_vlc e' = fm_vlc e.
Proof. by intros [->|(_ & p & _ & ->)]. Qed.

(** X18.  A source format the display offers is negotiated.  Without a
    forced hardware format, when the scan completes, the table pairs the
    desired logical format with a DRM code (not 0) in an entry that is the
    first for either code and not yet present, and a plane routable to the
    CRTC lists that DRM code, [ChromaNegotiation] succeeds without a
    message: it keeps the logical format and adopts that DRM code together
    with a plane that lists it. *)
Theorem offered_source_format_is_negotiated
    (IsYUV : Z → bool) (caps : drm_caps) (crtc : Z)
    (sys sys1 : vout_display_sys_t) (tbl tbl1 : list fourccmatching_t)
    (i : nat) (e : fourccmatching_t) (p : Z) :
  sys_forced_drm_fourcc sys = false →
  plane_scan caps crtc sys tbl = Some (true, sys1, tbl1) →
  list_find (λ x, fm_vlc x = sys_vlc_fourcc sys) tbl = Some (i, e) →
  list_find (λ x, fm_drm x = fm_drm e) tbl = Some (i, e) →
  fm_present e = false → fm_drm e ≠ 0 →
  offered caps crtc (fm_drm e) p →
  ∃ sys', ChromaNegotiation IsYUV caps crtc sys tbl = (true, sys', tbl1, [])
    ∧ sys_drm_fourcc sys' = fm_drm e
    ∧ sys_vlc_fourcc sys' = sys_vlc_fourcc sys
    ∧ offered caps crtc (fm_drm e) (sys_plane_id sys').
Proof.
  intros Hforced Hscan Hvlc Hdrm Habsent Hne Hoff.
  destruct (plane_scan_formats _ _ _ _ _ _ _ Hscan) as (Hf1 & Hd1 & Hv1 & _).
  pose proof (plane_scan_marked _ _ _ _ _ _ _ Hscan) as Hm.
  destruct (plane_scan_complete _ _ _ _ _ _ _ _ _ _ Hscan Hoff Hdrm)
    as (e1 & Hi1 & Hp1 & Hd & _).
  assert (∀ e0 e' : fourccmatching_t, marked (offered caps crtc) e0 e' →
            fm_vlc e0 = sys_vlc_fourcc sys ↔ fm_vlc e' = sys_vlc_fourcc sys) as Hinv.
  { intros e0 e' Hmk. by rewrite (marked_vlc _ _ _ Hmk). }
  destruct (list_find_marked_inv (λ x, fm_vlc x = sys_vlc_fourcc sys) _ _ _ _ _
              Hinv Hm Hvlc) as (e1' & Hfind1 & Hmk).
  pose proof Hfind1 as (Hi1' & _)%list_find_Some. simplify_eq.
  unfold ChromaNegotiation. rewrite Hscan. unfold negotiate.
  rewrite Hf1, Hforced, Hv1.
  rewrite (for_c_find _ (λ x, fm_vlc x = sys_vlc_fourcc sys))
    by (intros; apply eqb_bool_decide).
  rewrite Hfind1, Hp1. simpl. rewrite Hd, (proj2 (Z.eqb_neq _ _) Hne).
  eexists. split; [done|]. simpl. split_and!; try done.
  destruct Hmk as [->|(_ & q & Hq & ->)]; [congruence|done].
Qed.

Lemma offered_source_format_is_negotiated_witness :
  ∃ sys', ChromaNegotiation IsYUV_sample (sample_caps [rgb_plane; yuv_plane]) 40
            (set_vlc_fourcc VLC_CODEC_NV12 sys_calloc) fourccmatching
          = (true, sys',
             CheckFourCCList_seq
               [(DRM_FORMAT_XRGB8888, 31); (DRM_FORMAT_RGB565, 31);
                (DRM_FORMAT_NV12, 32); (DRM_FORMAT_YUYV, 32)] fourccmatching, [])
          ∧ sys_drm_fourcc sys' = DRM_FORMAT_NV12.
Proof.
  destruct (offered_source_format_is_negotiated IsYUV_sample
              (sample_caps [rgb_plane; yuv_plane]) 40
              (set_vlc_fourcc VLC_CODEC_NV12 sys_calloc)
              (set_vlc_fourcc VLC_CODEC_NV12 sys_calloc)
              fourccmatching
              (CheckFourCCList_seq
                 [(DRM_FORMAT_XRGB8888, 31); (DRM_FORMAT_RGB565, 31);
                  (DRM_FORMAT_NV12, 32); (DRM_FORMAT_YUYV, 32)] fourccmatching)
              3 (fm_static DRM_FORMAT_NV12 VLC_CODEC_NV12 true) 32)
    as (sys' & H1 & H2 & _).
  - reflexivity.
  - vm_compute. reflexivity.
  - vm_compute. reflexivity.
  - vm_compute. reflexivity.
  - reflexivity.
  - vm_compute. congruence.
  - exists [40], [Some rgb_plane; Some yuv_plane].
    split; [reflexivity|]. split; [reflexivity|].
    exists yuv_plane. split; [apply list_elem_of_further, list_elem_of_here|].
    split; [reflexivity|]. split; [apply list_elem_of_here|reflexivity].
  - exists sys'. split; [exact H1|exact H2].
Defined.

Lemma scan_formats_binds pl fs sys tbl :
  let r := foldl (scan_format pl) (sys, tbl) fs in
  sys_forced_drm_fourcc r.1 = sys_forced_drm_fourcc sys
  ∧ sys_drm_fourcc r.1 = sys_drm_fourcc sys
  ∧ (sys_plane_id sys ≠ 0 → sys_plane_id r.1 = sys_plane_id sys)
  ∧ (sys_forced_drm_fourcc sys = true → sys_drm_fourcc sys ∈ fs →
     plane_id pl ≠ 0 → sys_plane_id r.1 ≠ 0).
Proof.
  revert sys tbl. induction fs as [|f fs IH]; intros sys tbl.
  { simpl. split_and!; try done. by intros _ ?%elem_of_nil. }
  cbn [foldl].
  assert (scan_format pl (sys, tbl) f
          = (if sys_forced_drm_fourcc sys && (sys_plane_id sys =? 0)
                && (f =? sys_drm_fourcc sys)
             then set_plane_id (plane_id pl) sys else sys,
             CheckFourCCList f (plane_id pl) tbl)) as -> by done.
  destruct (sys_forced_drm_fourcc sys && (sys_plane_id sys =? 0)
            && (f =? sys_drm_fourcc sys)) eqn:Hc.
  - apply andb_prop in Hc as [[Hfo H0%Z.eqb_eq]%andb_prop ->%Z.eqb_eq].
    destruct (IH (set_plane_id (plane_id pl) sys)
                (CheckFourCCList (sys_drm_fourcc sys) (plane_id pl) tbl))
      as (H1 & H2 & H3 & H4).
    cbv zeta. split; [exact H1|]. split; [exact H2|]. split; [congruence|].
    intros _ _ Hpl. simpl in H3. rewrite (H3 Hpl). done.
  - destruct (IH sys (CheckFourCCList f (plane_id pl) tbl)) as (H1 & H2 & H3 & H4).
    cbv zeta. split; [done|]. split; [done|]. split; [done|].
    intros Hfo Hin Hpl.
    destruct (decide (sys_plane_id sys = 0)) as [H0|H0]; [|by rewrite H3].
    apply H4; try done. apply elem_of_cons in Hin as [Heq|Hin]; [|done].
    rewrite Hfo, H0, <- Heq, !Z.eqb_refl in Hc. done.
Qed.

Lemma scan_planes_binds planes idx sys tbl p :
  sys_forced_drm_fourcc sys = true →
  (scan_planes planes idx sys tbl).1.1 = true →
  sys_plane_id sys ≠ 0 ∨ (offers planes idx (sys_drm_fourcc sys) p ∧ p ≠ 0) →
  sys_plane_id (scan_planes planes idx sys tbl).1.2 ≠ 0.
Proof.
  revert sys tbl. induction planes as [|[pl|] planes IH]; intros sys tbl Hfo; simpl.
  - intros _ [?|[(x & Hx & _) _]]; [done|]. by apply elem_of_nil in Hx.
  - case_bool_decide; [|done].
    destruct (Z.land _ _ =? 0) eqn:Hmask.
    + intros Hok Hcase. apply IH; [done|done|].
      destruct Hcase as [?|[(x & Hx & Hu & Hfx & Hpx) Hp]]; [by left|right].
      split; [|done]. exists x. split_and!; try done.
      apply elem_of_cons in Hx as [[= <-]|Hx]; [|done].
      unfold plane_usable in Hu. by rewrite Hmask in Hu.
    + pose proof (scan_formats_binds pl (formats pl) sys tbl) as (H1 & H2 & H3 & H4).
      destruct (foldl _ _ _) as [sys1 tbl1]; simpl in *.
      intros Hok Hcase. apply IH; [congruence|done|].
      destruct Hcase as [?|[(x & Hx & Hu & Hfx & Hpx) Hp]]; [left; by rewrite H3|].
      apply elem_of_cons in Hx as [[= <-]|Hx].
      * left. apply H4; try done. congruence.
      * right. split; [|done]. rewrite H2. by exists x.
  - done.
Qed.

(** X19.  A forced hardware format the display offers is bound.  With a
    forced hardware format, when the scan completes and a plane with an id
    other than 0, routable to the CRTC, lists the format,
    [ChromaNegotiation] succeeds without a message, keeps the format and
    leaves the id of a plane that lists it. *)
Theorem forced_format_offered_is_bound
    (IsYUV : Z → bool) (caps : drm_caps) (crtc : Z)
    (sys sys1 : vout_display_sys_t) (tbl tbl1 : list fourccmatching_t) (p : Z) :
  sys_forced_drm_fourcc sys = true →
  plane_scan caps crtc sys tbl = Some (true, sys1, tbl1) →
  offered caps crtc (sys_drm_fourcc sys) p → p ≠ 0 →
  ∃ sys', ChromaNegotiation IsYUV caps crtc sys tbl = (true, sys', tbl1, [])
    ∧ sys_drm_fourcc sys' = sys_drm_fourcc sys
    ∧ sys_plane_id sys' = sys_plane_id sys1
    ∧ sys_plane_id sys' ≠ 0.
Proof.
  intros Hforced Hscan (crtcs & planes & Hc & Hpl & Hoff) Hp.
  destruct (plane_scan_formats _ _ _ _ _ _ _ Hscan) as (Hf1 & Hd1 & _ & _).
  assert (sys_plane_id sys1 ≠ 0) as Hbound.
  { unfold plane_scan in Hscan. rewrite Hc, Hpl in Hscan.
    destruct planes as [|pl planes].
    { destruct Hoff as (x & Hx & _). by apply elem_of_nil in Hx. }
    pose proof (scan_planes_binds (pl :: planes) (crtc_index_of crtcs crtc 0)
                  (set_plane_id 0 sys) tbl p Hforced) as Hb.
    destruct (scan_planes (pl :: planes) _ _ _) as [[ok s] t]. simplify_eq.
    apply Hb; [done|]. right. done. }
  unfold ChromaNegotiation. rewrite Hscan. unfold negotiate. rewrite Hf1, Hforced.
  destruct (for_c _ tbl1 0) as [[e|] c]; simpl;
    rewrite (proj2 (Z.eqb_neq _ _) Hbound); eexists; (split; [done|]); done.
Qed.

Lemma forced_format_offered_is_bound_witness :
  ∃ sys', ChromaNegotiation IsYUV_sample (sample_caps [rgb_plane; yuv_plane]) 40
            (set_drm_fourcc DRM_FORMAT_NV12 (set_forced_drm_fourcc true sys_calloc))
            fourccmatching
          = (true, sys',
             CheckFourCCList_seq
               [(DRM_FORMAT_XRGB8888, 31); (DRM_FORMAT_RGB565, 31);
                (DRM_FORMAT_NV12, 32); (DRM_FORMAT_YUYV, 32)] fourccmatching, [])
          ∧ sys_plane_id sys' ≠ 0.
Proof.
  destruct (forced_format_offered_is_bound IsYUV_sample
              (sample_caps [rgb_plane; yuv_plane]) 40
              (set_drm_fourcc DRM_FORMAT_NV12 (set_forced_drm_fourcc true sys_calloc))
              (set_plane_id 32
                 (set_drm_fourcc DRM_FORMAT_NV12 (set_forced_drm_fourcc true sys_calloc)))
              fourccmatching
              (CheckFourCCList_seq
                 [(DRM_FORMAT_XRGB8888, 31); (DRM_FORMAT_RGB565, 31);
                  (DRM_FORMAT_NV12, 32); (DRM_FORMAT_YUYV, 32)] fourccmatching)
              32)
    as (sys' & H1 & _ & _ & H2).
  - reflexivity.
  - vm_compute. reflexivity.
  - exists [40], [Some rgb_plane; Some yuv_plane].
    split; [reflexivity|]. split; [reflexivity|].
    exists yuv_plane. split; [apply list_elem_of_further, list_elem_of_here|].
    split; [reflexivity|]. split; [apply list_elem_of_here|reflexivity].
  - lia.
  - exists sys'. split; [exact H1|exact H2].
Defined.

(** ** The ring while frames are shown *)

(** X20.  The frame being drawn is never the frame on screen.  In a
    session whose buffers the device holds, when [Display] reports no
    error, the framebuffer it has put on screen is one the device holds,
    the picture now points into the mapping of the next buffer, which the
    device holds as well and which is not the mapping of the buffer on
    screen, and the device still holds the whole ring. *)
Theorem Display_draws_off_screen
    (ndebug : bool) (geo : geometry) (d d' : Drm.dev) (sys sys' : vout_display_sys_t)
    (how : exit) (base : gset Z * gset Z * gmap Z Z) :
  session_ok sys →
  stacked base (ring sys MAXHWBUF) (Drm.held d) →
  Display ndebug geo d sys = (how, [], d', sys') →
  let shown := Z.to_nat (sys_front_buf sys) in
  let back := Z.to_nat (sys_front_buf sys') in
  (sys_fb sys' !!! shown ∈ Drm.fbs d')
  ∧ Drm.maps d' !! (sys_map sys' !!! back) = Some (sys_size sys')
  ∧ sys_map sys' !!! back ≠ sys_map sys' !!! shown
  ∧ (∃ pic, sys_picture sys' = Some pic ∧ view_on sys' back pic)
  ∧ stacked base (ring sys' MAXHWBUF) (Drm.held d').
Proof.
  intros Hs Hst HD shown back.
  pose proof Hs as (Hwf & Hfront & pic & Hpic & Hview).
  destruct (Display_session _ _ _ _ _ _ _ _ Hs HD) as (_ & Hs' & Hheld & _).
  rewrite (Display_in_session ndebug geo d sys pic Hs Hpic) in HD.
  destruct (_ =? 0); [|done]. injection HD as _ _ <-.
  destruct (next_front_buf_spec _ Hfront) as (Hnext & Hrange & Hne).
  rewrite Hnext in Hrange, Hne.
  set (f' := (sys_front_buf sys + 1) mod Z.of_nat MAXHWBUF) in *.
  subst back shown. cbn [sys_front_buf sys_fb sys_map sys_size set_picture set_front_buf].
  assert (Z.to_nat (sys_front_buf sys) < MAXHWBUF)%nat as Hi by (unfold MAXHWBUF in *; lia).
  assert (Z.to_nat f' < MAXHWBUF)%nat as Hj by (unfold MAXHWBUF in *; lia).
  pose proof (ring_lookup sys MAXHWBUF _ Hi) as Hli.
  pose proof (ring_lookup sys MAXHWBUF _ Hj) as Hlj.
  pose proof Hli as Hini%list_elem_of_lookup_2.
  pose proof Hlj as Hinj%list_elem_of_lookup_2.
  destruct (stacked_held_by _ _ _ _ Hst Hini) as (_ & Hfb & _).
  destruct (stacked_held_by _ _ _ _ Hst Hinj) as (_ & _ & Hmap).
  destruct (stacked_distinct _ _ _ _ _ _ _ Hst Hlj Hli) as (_ & _ & Hdist).
  { unfold MAXHWBUF in *. lia. }
  rewrite Hheld. unfold Drm.held in Hheld. injection Hheld as _ Hf Hm. rewrite Hf, Hm.
  split; [exact Hfb|]. split; [exact Hmap|]. split; [exact Hdist|]. split; [|exact Hst].
  destruct Hs' as (_ & _ & pic' & Hpic' & Hview'). by exists pic'.
Qed.

Lemma sample_sys_stacked :
  stacked (∅, ∅, ∅) (ring sample_sys MAXHWBUF) (Drm.held (o_dev (sample_open []))).
Proof.
  unfold sample_sys, sample_open.
  destruct (Open_success_inv IsYUV_sample
              (sample_env None None VLC_CODEC_NV12 [rgb_plane; yuv_plane] true)
              (idle_dev (replicate 12 0 ++ [])) fourccmatching)
    as (sysw & d1 & sys1 & Hready & Hall & -> & -> & _); [by vm_compute|].
  destruct (Open_ready_Some _ _ _ _ Hready) as (Hwf & _).
  destruct (Open_buffers_made _ _ _ _ Hwf Hall) as (Hst & _). exact Hst.
Qed.

Lemma Display_draws_off_screen_witness :
  sys_map (Display true sample_geometry (o_dev (sample_open [])) sample_sys).2 !!! 1%nat
  ≠ sys_map (Display true sample_geometry (o_dev (sample_open [])) sample_sys).2 !!! 0%nat.
Proof.
  let v := eval vm_compute in
    (Display true sample_geometry (o_dev (sample_open [])) sample_sys) in
  match v with
  | (?how, _, ?d', ?sys') =>
      destruct (Display_draws_off_screen true sample_geometry (o_dev (sample_open [])) d'
                  sample_sys sys' how (∅, ∅, ∅)) as (_ & _ & H & _)
  end.
  - exact sample_sys_session.
  - exact sample_sys_stacked.
  - vm_compute. reflexivity.
  - exact H.
Defined.
